(** * Exploration planner: scoring engine, robot-site matcher, greedy scheduler

    A shallow embedding of [src/scoring.py], [src/matching.py] and
    [src/optimizer.py], with the sidebar weight normalisation of [app.py].

    Conventions of the embedding.
    - Python numbers are exact rationals ([Q]); [==] on [Q] is [Qeq].
      Binary floating-point rounding, NaN and infinities are not modelled.
    - A Python exception is a value of [exn]; a function that may raise
      returns [result A].
    - [datetime] values are integers counting microseconds; [timedelta]
      values likewise.
    - [pd.DataFrame(records)] is the list of records; a frame built from an
      empty list has no columns, so selecting or sorting by a column raises
      [KeyError] there. *)

From Stdlib Require Import ZArith QArith Qround Qabs Qminmax Qpower Lqa Lia.
From Stdlib Require Import List ListSet String Ascii DecimalString Bool.
From Stdlib Require Import Permutation Sorted.
Import ListNotations.

Open Scope Q_scope.

(* ================================================================== *)
(** ** Exceptions and the error monad *)

Inductive exn : Type :=
| ValueError
| KeyError
| IndexError
| ZeroDivisionError.

(** Python's class hierarchy above the four exceptions: [KeyError] and
    [IndexError] derive from [LookupError], [ZeroDivisionError] from
    [ArithmeticError]. *)
Definition is_lookup_error (e : exn) : bool :=
  match e with
  | KeyError | IndexError => true
  | _ => false
  end.

Definition is_arithmetic_error (e : exn) : bool :=
  match e with
  | ZeroDivisionError => true
  | _ => false
  end.

Inductive result (A : Type) : Type :=
| Ok (a : A)
| Raise (e : exn).
Arguments Ok {A} a.
Arguments Raise {A} e.

Definition bind {A B : Type} (m : result A) (k : A -> result B) : result B :=
  match m with
  | Ok a => k a
  | Raise e => Raise e
  end.

Notation "'let*' x ':=' m 'in' k" := (bind m (fun x => k))
  (at level 10, x pattern, m at level 100, k at level 200).

(* ================================================================== *)
(** ** Numbers *)

Definition Qlt_bool (x y : Q) : bool := negb (Qle_bool y x).

(** [a / b] on Python numbers: raises when the divisor is zero. *)
Definition py_div (a b : Q) : result Q :=
  if Qeq_bool b 0 then Raise ZeroDivisionError else Ok (a / b).

(** Nearest integer, ties to the even neighbour. *)
Definition round_half_even (x : Q) : Z :=
  let f := Qfloor x in
  match Qcompare (x - inject_Z f) (1 # 2) with
  | Lt => f
  | Gt => (f + 1)%Z
  | Eq => if Z.even f then f else (f + 1)%Z
  end.

Definition pow10 (n : nat) : Q := inject_Z (10 ^ Z.of_nat n).

(** [round(x, ndigits)]. *)
Definition py_round (x : Q) (ndigits : nat) : Q :=
  inject_Z (round_half_even (x * pow10 ndigits)) / pow10 ndigits.

(** [np.isclose(a, b, rtol, atol)]: [|a - b| <= atol + rtol * |b|];
    numpy's default [rtol] is [1e-05]. *)
Definition np_default_rtol : Q := 1 # 100000.

Definition np_isclose (a b rtol atol : Q) : bool :=
  Qle_bool (Qabs (a - b)) (atol + rtol * Qabs b).

Definition Qsum (l : list Q) : Q := fold_right Qplus 0 l.

(** [min] and [max] of a non-empty column. *)
Definition col_min (x : Q) (xs : list Q) : Q := fold_left Qmin xs x.
Definition col_max (x : Q) (xs : list Q) : Q := fold_left Qmax xs x.

(** [int(x)]: truncation towards zero. *)
Definition py_int (x : Q) : Z := Z.quot (Qnum x) (Z.pos (Qden x)).

(** Decimal rendering of an integer, as in an f-string. *)
Definition str_of_Z (z : Z) : string := NilZero.string_of_int (Z.to_int z).

(** [sum(l)] *)
Definition py_sum (l : list Q) : Q := fold_left Qplus l 0.

(** [range(lo, hi)] *)
Definition py_range (lo hi : Z) : list Z :=
  map (fun i => (lo + Z.of_nat i)%Z) (seq 0 (Z.to_nat (hi - lo))).

(** A list comprehension [[f(x) for x in l]] whose element expression may
    raise. *)
Fixpoint map_result {A B : Type} (f : A -> result B) (l : list A)
  : result (list B) :=
  match l with
  | [] => Ok []
  | x :: l' =>
      let* y := f x in
      let* ys := map_result f l' in
      Ok (y :: ys)
  end.

(** [l[:n]] *)
Definition py_slice_to {A : Type} (l : list A) (n : Z) : list A :=
  if (0 <=? n)%Z then firstn (Z.to_nat n) l
  else firstn (List.length l - Z.to_nat (- n)) l.

(* ================================================================== *)
(** ** Sets of labels

    A Python [set] of strings is a duplicate-free list; the order of its
    elements carries no meaning. *)

Definition py_set (l : list string) : set string :=
  fold_left (fun acc x => set_add string_dec x acc) l [].

(** [s.update(l)] *)
Definition set_update (s : set string) (l : list string) : set string :=
  fold_left (fun acc x => set_add string_dec x acc) l s.

(** [sub in s] on strings: [sub] occurs in [s]. *)
Definition str_contains (sub s : string) : bool :=
  match String.index 0 sub s with
  | Some _ => true
  | None => false
  end.

(* ================================================================== *)
(** ** Frames *)

(** [df.sort_values(key, ascending=False)]: rows by descending key. Rows
    with equal keys are kept in their input order; pandas leaves their
    order open, and no property below depends on it. *)
Fixpoint insert_desc {A : Type} (key : A -> Q) (x : A) (l : list A) : list A :=
  match l with
  | [] => [x]
  | y :: l' =>
      if Qle_bool (key y) (key x) then x :: y :: l'
      else y :: insert_desc key x l'
  end.

Definition sort_values_desc {A : Type} (key : A -> Q) (df : list A) : list A :=
  fold_right (insert_desc key) [] df.

(** [df.iloc[0]]: the first row, [IndexError] on a frame without rows. *)
Definition iloc0 {A : Type} (df : list A) : result A :=
  match df with
  | [] => Raise IndexError
  | x :: _ => Ok x
  end.

(** [df[c]] for a frame built by [pd.DataFrame(records)]: a frame built
    from no record has no column. *)
Definition column {A B : Type} (c : A -> B) (df : list A) : result (list B) :=
  match df with
  | [] => Raise KeyError
  | _ => Ok (map c df)
  end.

(* ================================================================== *)
(** ** Records of the data model *)

Record Site : Type := mkSite {
  site_id : string;
  site_name : string;
  latitude : Q;
  longitude : Q;
  depth_m : Q;
  distance_from_port_km : Q;
  mineral_concentration : Q;
  mineral_types : list string;
  estimated_value_millions : Q;
  environmental_sensitivity : Q;
  terrain_difficulty : Q;
  survey_data_quality : Q
}.

Record Location : Type := mkLocation { lat : Q; lon : Q }.

Record Robot : Type := mkRobot {
  robot_id : string;
  robot_name : string;
  robot_type : string;
  max_depth_m : Q;
  endurance_hours : Q;
  speed_knots : Q;
  sensors : list string;
  status : string;
  current_location : Location;
  day_rate_usd : Q
}.

(* ================================================================== *)
(** ** scoring.py: SitePrioritizationEngine *)

Module Scoring.

Record Weights : Type := mkWeights {
  w_mineral_concentration : Q;
  w_depth : Q;
  w_distance_from_port : Q;
  w_environmental_sensitivity : Q;
  w_estimated_value : Q;
  w_terrain_difficulty : Q;
  w_survey_data_quality : Q
}.

Definition DEFAULT_WEIGHTS : Weights :=
  mkWeights (20 # 100) (15 # 100) (10 # 100) (15 # 100)
            (20 # 100) (10 # 100) (10 # 100).

(** [self.weights.values()] *)
Definition values (w : Weights) : list Q :=
  [ w_mineral_concentration w; w_depth w; w_distance_from_port w;
    w_environmental_sensitivity w; w_estimated_value w;
    w_terrain_difficulty w; w_survey_data_quality w ].

Record Engine : Type := mkEngine { weights : Weights }.

(** [_validate_weights] *)
Definition _validate_weights (self : Engine) : result unit :=
  let total := Qsum (values (weights self)) in
  if negb (np_isclose total 1 np_default_rtol (1 # 100))
  then Raise ValueError
  else Ok tt.

(** [__init__]: [None] stands for an omitted (or empty) weight set, for
    which the defaults are copied. *)
Definition __init__ (w : option Weights) : result Engine :=
  let self := mkEngine (match w with Some w' => w' | None => DEFAULT_WEIGHTS end) in
  let* _ := _validate_weights self in
  Ok self.

(** [normalize_score] *)
Definition normalize_score (value min_val max_val : Q) (inverse : bool) : Q :=
  if Qeq_bool max_val min_val then 50
  else
    let normalized := (value - min_val) / (max_val - min_val) * 100 in
    if inverse then 100 - normalized else normalized.

(** A row of the frame returned by [score_sites]: the site with its seven
    sub-scores and the composite score attached. *)
Record ScoredSite : Type := mkScoredSite {
  site : Site;
  mineral_score : Q;
  depth_score : Q;
  distance_score : Q;
  environmental_score : Q;
  value_score : Q;
  terrain_score : Q;
  quality_score : Q;
  composite_score : Q
}.

(** [(df[c].min(), df[c].max())]; the frame of an empty list has no
    column [c]. *)
Definition column_range (c : Site -> Q) (df : list Site) : result (Q * Q) :=
  match df with
  | [] => Raise KeyError
  | s :: rest => Ok (col_min (c s) (map c rest), col_max (c s) (map c rest))
  end.

(** Sub-scores and rounded weighted sum of one row. *)
Definition score_row (self : Engine)
    (mineral_conc_range depth_range distance_range env_range
     value_range terrain_range quality_range : Q * Q) (s : Site) : ScoredSite :=
  let norm x (r : Q * Q) inverse := normalize_score x (fst r) (snd r) inverse in
  let mineral := norm (mineral_concentration s) mineral_conc_range false in
  let depth := norm (depth_m s) depth_range true in
  let distance := norm (distance_from_port_km s) distance_range true in
  let environmental := norm (environmental_sensitivity s) env_range true in
  let value := norm (estimated_value_millions s) value_range false in
  let terrain := norm (terrain_difficulty s) terrain_range true in
  let quality := norm (survey_data_quality s) quality_range false in
  let w := weights self in
  let composite :=
    mineral * w_mineral_concentration w +
    depth * w_depth w +
    distance * w_distance_from_port w +
    environmental * w_environmental_sensitivity w +
    value * w_estimated_value w +
    terrain * w_terrain_difficulty w +
    quality * w_survey_data_quality w in
  mkScoredSite s mineral depth distance environmental value terrain quality
               (py_round composite 2).

(** [score_sites] *)
Definition score_sites (self : Engine) (sites : list Site)
  : result (list ScoredSite) :=
  let df := sites in
  let* mineral_conc_range := column_range mineral_concentration df in
  let* depth_range := column_range depth_m df in
  let* distance_range := column_range distance_from_port_km df in
  let* env_range := column_range environmental_sensitivity df in
  let* value_range := column_range estimated_value_millions df in
  let* terrain_range := column_range terrain_difficulty df in
  let* quality_range := column_range survey_data_quality df in
  let rows :=
    map (score_row self mineral_conc_range depth_range distance_range
           env_range value_range terrain_range quality_range) df in
  Ok (sort_values_desc composite_score rows).

(** The dict returned by [calculate_economic_viability]. *)
Record EconomicViability : Type := mkEconomicViability {
  total_cost_per_ton : Q;
  effective_price_per_ton : Q;
  profit_per_ton : Q;
  annual_revenue_millions : Q;
  annual_costs_millions : Q;
  annual_profit_millions : Q;
  npv_millions : Q;
  roi_percent : Q;
  is_viable : bool
}.

(** The first block of [calculate_economic_viability]: the cost per ton
    adjusted for depth, terrain and distance. *)
Definition adjusted_cost_per_ton (site_data : Site)
    (extraction_cost_per_ton refining_cost_per_ton transport_cost_per_ton : Q)
  : Q :=
  let depth_multiplier := 1 + (depth_m site_data / 10000) * (5 # 10) in
  let distance_multiplier :=
    1 + (distance_from_port_km site_data / 5000) * (3 # 10) in
  let terrain_multiplier :=
    1 + (terrain_difficulty site_data / 100) * (4 # 10) in
  let adjusted_extraction_cost :=
    extraction_cost_per_ton * depth_multiplier * terrain_multiplier in
  let adjusted_transport_cost := transport_cost_per_ton * distance_multiplier in
  adjusted_extraction_cost + refining_cost_per_ton + adjusted_transport_cost.

(** Its second block: the price scaled by the concentration. *)
Definition effective_price (site_data : Site) (mineral_price_per_ton : Q) : Q :=
  let concentration_factor := mineral_concentration site_data / 100 in
  mineral_price_per_ton * concentration_factor.

(** Its NPV block: the sum of the annual profit discounted over the
    years [1 .. project_years]. *)
Definition net_present_value (annual_profit discount_rate : Q)
    (project_years : Z) : result Q :=
  let* terms :=
    map_result
      (fun year => py_div annual_profit (Qpower (1 + discount_rate) year))
      (py_range 1 (project_years + 1)) in
  Ok (py_sum terms).

(** [calculate_economic_viability]; the defaults of its keyword arguments
    are 50, 30, 20, 100000, 8000, 0.10 and 10. *)
Definition calculate_economic_viability (site_data : Site)
    (extraction_cost_per_ton refining_cost_per_ton transport_cost_per_ton
     estimated_tonnage mineral_price_per_ton discount_rate : Q)
    (project_years : Z) : result EconomicViability :=
  let total_cost_per_ton :=
    adjusted_cost_per_ton site_data extraction_cost_per_ton
                          refining_cost_per_ton transport_cost_per_ton in
  let effective_price_per_ton := effective_price site_data mineral_price_per_ton in
  let profit_per_ton := effective_price_per_ton - total_cost_per_ton in
  let* annual_tonnage := py_div estimated_tonnage (inject_Z project_years) in
  let annual_revenue := annual_tonnage * effective_price_per_ton in
  let annual_costs := annual_tonnage * total_cost_per_ton in
  let annual_profit := annual_revenue - annual_costs in
  let* npv := net_present_value annual_profit discount_rate project_years in
  let total_revenue := estimated_tonnage * effective_price_per_ton in
  let total_costs := estimated_tonnage * total_cost_per_ton in
  let roi_percent :=
    if Qlt_bool 0 total_costs
    then ((total_revenue - total_costs) / total_costs) * 100
    else 0 in
  Ok (mkEconomicViability
        (py_round total_cost_per_ton 2)
        (py_round effective_price_per_ton 2)
        (py_round profit_per_ton 2)
        (py_round (annual_revenue / 1000000) 2)
        (py_round (annual_costs / 1000000) 2)
        (py_round (annual_profit / 1000000) 2)
        (py_round (npv / 1000000) 2)
        (py_round roi_percent 2)
        (Qlt_bool 0 profit_per_ton)).

(** [categorize_priority]: the tier and its colour. *)
Definition categorize_priority (composite_score : Q)
    (economic_viability : EconomicViability) : string * string :=
  if negb (is_viable economic_viability)
  then ("Not Viable", "#d62728")%string
  else if Qle_bool 70 composite_score
          && Qlt_bool 50 (roi_percent economic_viability)
  then ("High Priority", "#2ca02c")%string
  else if Qle_bool 50 composite_score
          && Qlt_bool 25 (roi_percent economic_viability)
  then ("Medium Priority", "#ff7f0e")%string
  else if Qle_bool 35 composite_score
  then ("Further Study Needed", "#1f77b4")%string
  else ("Low Priority", "#bcbd22")%string.

(** Position of a tier in the order of the branches of
    [categorize_priority], from the last branch up. *)
Definition tier_rank (tier : string) : nat :=
  if String.eqb tier "High Priority" then 3
  else if String.eqb tier "Medium Priority" then 2
  else if String.eqb tier "Further Study Needed" then 1
  else 0.

(** The sum of the discount factors of the years [1 .. n]. *)
Fixpoint annuity_from (rate : Q) (year : Z) (n : nat) : Q :=
  match n with
  | O => 0
  | S n' => 1 / Qpower (1 + rate) year + annuity_from rate (year + 1) n'
  end.

End Scoring.


(* ================================================================== *)
(** ** matching.py: RobotSiteMatcher *)

Module Matching.

Open Scope string_scope.

(** The class attribute, a dict in insertion order. *)
Definition SENSOR_REQUIREMENTS : list (string * list string) :=
  [ ("Polymetallic Nodules",
     ["side_scan_sonar"; "multi_beam_echo_sounder"; "HD_camera"]);
    ("Polymetallic Sulfides",
     ["magnetometer"; "side_scan_sonar"; "HD_camera"; "multi_beam_echo_sounder"]);
    ("Rare Earth Elements",
     ["multi_beam_echo_sounder"; "sub_bottom_profiler"; "sediment_sampler"]);
    ("Cobalt Crust",
     ["side_scan_sonar"; "HD_camera"; "magnetometer"]) ].

Record RobotSiteMatcher : Type := mkMatcher {
  robots_df : list Robot;
  sites_df : list Site
}.

(** [check_depth_compatibility] *)
Definition check_depth_compatibility (robot : Robot) (site : Site)
  : bool * string :=
  let robot_max_depth := max_depth_m robot in
  let site_depth := depth_m site in
  let safe_depth := (robot_max_depth * (9 # 10))%Q in
  if Qle_bool site_depth safe_depth then
    let margin := (safe_depth - site_depth)%Q in
    (true, "Compatible (safety margin: " ++ str_of_Z (py_int margin) ++ "m)")
  else
    let deficit := (site_depth - safe_depth)%Q in
    (false,
     "Insufficient depth rating (needs " ++ str_of_Z (py_int deficit) ++ "m more)").

(** The nested loop over [site['mineral_types']] and the keys of
    [SENSOR_REQUIREMENTS] that collects the required sensors. *)
Definition required_sensors_of (site : Site) : set string :=
  fold_left
    (fun required mineral_type =>
       fold_left
         (fun required' entry =>
            if str_contains (fst entry) mineral_type
            then set_update required' (snd entry)
            else required')
         SENSOR_REQUIREMENTS required)
    (mineral_types site) [].

(** [check_sensor_compatibility] *)
Definition check_sensor_compatibility (robot : Robot) (site : Site)
  : bool * string * list string :=
  let robot_sensors := py_set (sensors robot) in
  let required_sensors := required_sensors_of site in
  let missing_sensors := set_diff string_dec required_sensors robot_sensors in
  match missing_sensors with
  | [] => (true, "All required sensors present", [])
  | _ =>
      let missing_str := String.concat ", " missing_sensors in
      (false, "Missing sensors: " ++ missing_str, missing_sensors)
  end.

(** [check_status_compatibility] *)
Definition check_status_compatibility (robot : Robot) : bool * string :=
  let status := status robot in
  if status =? "Available" then (true, "Available for deployment")
  else if status =? "In Maintenance" then (false, "Currently in maintenance")
  else if status =? "Deployed"
       then (false, "Currently deployed on another mission")
  else if status =? "Retired" then (false, "Robot retired from service")
  else (false, "Unknown status: " ++ status).

Close Scope string_scope.

(** The three blocks of [calculate_compatibility_score] that add to
    [score]: depth (40 points), sensors (40 points), status (20 points). *)
Definition depth_points (robot : Robot) (site : Site) : result Q :=
  let '(depth_ok, _) := check_depth_compatibility robot site in
  if depth_ok then Ok 40
  else
    let* depth_ratio := py_div (max_depth_m robot) (depth_m site) in
    Ok (Qmin 40 (depth_ratio * 40)).

Definition sensor_points (robot : Robot) (site : Site) : Q :=
  let '(sensor_ok, _, missing) := check_sensor_compatibility robot site in
  if sensor_ok then 40
  else
    let required_sensors := required_sensors_of site in
    if (0 <? List.length required_sensors)%nat then
      let present_count :=
        (Z.of_nat (List.length required_sensors)
         - Z.of_nat (List.length missing))%Z in
      inject_Z present_count
      / inject_Z (Z.of_nat (List.length required_sensors)) * 40
    else 0.

Definition status_points (robot : Robot) : Q :=
  let '(status_ok, _) := check_status_compatibility robot in
  if status_ok then 20 else 0.

(** [calculate_compatibility_score] *)
Definition calculate_compatibility_score (robot : Robot) (site : Site)
  : result Q :=
  let score := 0 in
  let* d := depth_points robot site in
  let score := score + d in
  let score := score + sensor_points robot site in
  let score := score + status_points robot in
  Ok (py_round score 2).

Record Compatibility : Type := mkCompatibility {
  c_robot_id : string;
  c_robot_name : string;
  c_site_id : string;
  c_site_name : string;
  compatibility_score : Q;
  overall_status : string;
  status_color : string;
  depth_compatible : bool;
  depth_message : string;
  sensor_compatible : bool;
  sensor_message : string;
  missing_sensors : list string;
  status_compatible : bool;
  status_message : string
}.

(** [get_detailed_compatibility] *)
Definition get_detailed_compatibility (self : RobotSiteMatcher)
    (robot_id' site_id' : string) : result Compatibility :=
  let* ids := column robot_id (robots_df self) in
  let* robot :=
    iloc0 (filter (fun r => String.eqb (robot_id r) robot_id') (robots_df self)) in
  let* ids' := column site_id (sites_df self) in
  let* site :=
    iloc0 (filter (fun s => String.eqb (site_id s) site_id') (sites_df self)) in
  let '(depth_ok, depth_msg) := check_depth_compatibility robot site in
  let '(sensor_ok, sensor_msg, missing_sensors) :=
    check_sensor_compatibility robot site in
  let '(status_ok, status_msg) := check_status_compatibility robot in
  let* compatibility_score := calculate_compatibility_score robot site in
  let is_fully_compatible := depth_ok && sensor_ok && status_ok in
  let '(overall_status, color) :=
    if is_fully_compatible then ("Fully Compatible", "green")%string
    else if depth_ok && status_ok then ("Partially Compatible", "yellow")%string
    else ("Incompatible", "red")%string in
  Ok (mkCompatibility robot_id' (robot_name robot) site_id' (site_name site)
        compatibility_score overall_status color
        depth_ok depth_msg sensor_ok sensor_msg missing_sensors
        status_ok status_msg).

(** An entry of the list returned by [find_best_robots_for_site]: the
    detailed compatibility with the keys ['day_rate_usd'] and
    ['robot_type'] added. *)
Record RobotRanking : Type := mkRobotRanking {
  rr_compatibility : Compatibility;
  rr_day_rate_usd : Q;
  rr_robot_type : string
}.

(** [find_best_robots_for_site] *)
Definition find_best_robots_for_site (self : RobotSiteMatcher)
    (site_id' : string) (top_n : Z) : result (list RobotRanking) :=
  let* results :=
    map_result
      (fun robot =>
         let* compatibility :=
           get_detailed_compatibility self (robot_id robot) site_id' in
         Ok (mkRobotRanking compatibility (day_rate_usd robot)
                            (robot_type robot)))
      (robots_df self) in
  let results :=
    sort_values_desc (fun x => compatibility_score (rr_compatibility x))
                     results in
  Ok (py_slice_to results top_n).

(** An entry of the list returned by [find_best_sites_for_robot]. *)
Record SiteRanking : Type := mkSiteRanking {
  sr_compatibility : Compatibility;
  sr_estimated_value_millions : Q
}.

(** [find_best_sites_for_robot] *)
Definition find_best_sites_for_robot (self : RobotSiteMatcher)
    (robot_id' : string) (top_n : Z) : result (list SiteRanking) :=
  let* results :=
    map_result
      (fun site =>
         let* compatibility :=
           get_detailed_compatibility self robot_id' (site_id site) in
         Ok (mkSiteRanking compatibility (estimated_value_millions site)))
      (sites_df self) in
  let results :=
    sort_values_desc (fun x => compatibility_score (sr_compatibility x))
                     results in
  Ok (py_slice_to results top_n).

(** An entry of ['depth_gaps']. *)
Record DepthGap : Type := mkDepthGap {
  g_site_id : string;
  g_site_name : string;
  g_site_depth : Q;
  g_max_fleet_depth : Q;
  g_depth_deficit : Q
}.

(** The two recommendation texts, by the values they are formatted
    from: the missing sensors, and the deepest site depth with the number
    of deep sites. *)
Inductive Recommendation : Type :=
| AcquireSensors (missing_sensors : list string)
| AcquireDeepRobots (max_site_depth : Q) (deep_sites : nat).

(** The dict returned by [identify_equipment_gaps]. *)
Record Gaps : Type := mkGaps {
  depth_gaps : list DepthGap;
  sensor_gaps : list string;
  recommendations : list Recommendation
}.

(** [df[c].max()] *)
Definition column_max {A : Type} (c : A -> Q) (df : list A) : result Q :=
  match df with
  | [] => Raise KeyError
  | x :: rest => Ok (col_max (c x) (map c rest))
  end.

(** The loop over the keys of [SENSOR_REQUIREMENTS] for one mineral
    type, adding to the set [required]. *)
Definition add_required (required : set string) (mineral_type : string)
  : set string :=
  fold_left
    (fun required' entry =>
       if str_contains (fst entry) mineral_type
       then set_update required' (snd entry)
       else required')
    SENSOR_REQUIREMENTS required.

(** [identify_equipment_gaps] *)
Definition identify_equipment_gaps (self : RobotSiteMatcher) : result Gaps :=
  let* max_fleet_depth := column_max max_depth_m (robots_df self) in
  let* _ := column depth_m (sites_df self) in
  let deep_sites :=
    filter (fun s => Qlt_bool (max_fleet_depth * (9 # 10)) (depth_m s))
           (sites_df self) in
  let depth_gaps :=
    map (fun s => mkDepthGap (site_id s) (site_name s) (depth_m s)
                             max_fleet_depth (depth_m s - max_fleet_depth))
        deep_sites in
  let* sensor_lists := column sensors (robots_df self) in
  let all_sensors := fold_left set_update sensor_lists [] in
  let* mineral_type_lists := column mineral_types (sites_df self) in
  let required_sensors :=
    fold_left (fun required mineral_types =>
                 fold_left add_required mineral_types required)
              mineral_type_lists [] in
  let missing_sensors := set_diff string_dec required_sensors all_sensors in
  let '(sensor_gaps, recommendations) :=
    match missing_sensors with
    | [] => ([], [])
    | _ => (missing_sensors, [AcquireSensors missing_sensors])
    end in
  let* recommendations :=
    match depth_gaps with
    | [] => Ok recommendations
    | _ =>
        let* max_site_depth := column_max depth_m (sites_df self) in
        Ok (recommendations
            ++ [AcquireDeepRobots max_site_depth (List.length deep_sites)])
    end in
  Ok (mkGaps depth_gaps sensor_gaps recommendations).

End Matching.

(* ================================================================== *)
(** ** optimizer.py: MissionOptimizer *)

Module Optimizer.

(** A scheduled mission. [m_site_id], [m_site_name], [m_robot_id],
    [m_robot_name] and [m_compatibility_score] are the entries
    ['site_id'], ['site_name'], ['robot_id'], ['robot_name'] and
    ['compatibility_score'] of the mission dict. *)
Record Mission : Type := mkMission {
  mission_id : string;
  m_site_id : string;
  m_site_name : string;
  m_robot_id : string;
  m_robot_name : string;
  start_date : Z;
  end_date : Z;
  transit_hours : Q;
  survey_hours : Q;
  total_hours : Q;
  cost_usd : Q;
  m_compatibility_score : Q;
  site_latitude : Q;
  site_longitude : Q
}.

(** A value of [robot_schedules]. *)
Record Schedule : Type := mkSchedule {
  available_from : Z;
  sched_missions : list Mission
}.

Record Statistics : Type := mkStatistics {
  total_missions : nat;
  total_cost_usd : Q;
  remaining_budget_usd : Q;
  budget_utilization_percent : Q;
  num_sites_surveyed : nat;
  num_robots_used : nat;
  coverage_percent : Q;
  avg_mission_cost_usd : Q
}.

(** The dict returned by the scheduler. *)
Record Plan : Type := mkPlan {
  missions : list Mission;
  statistics : Statistics
}.

(** The optimizer object. The constructor also stores the compatibility
    matrix, which the scheduler never reads. *)
Record MissionOptimizer : Type := mkOptimizer {
  robots_df : list Robot;
  sites_df : list Site
}.

(** The local variables of the scheduling loop that change. *)
Record LoopState : Type := mkLoopState {
  st_missions : list Mission;
  remaining_budget : Q;
  robot_schedules : list (string * Schedule)
}.

(** [timedelta(hours=h)], in microseconds. *)
Definition timedelta_hours (h : Q) : Z :=
  round_half_even (h * inject_Z 3600000000).

(** [td.days] *)
Definition days (td : Z) : Z := (td / 86400000000)%Z.

(** [f"MISSION_{n:03d}"] *)
Definition mission_label (n : nat) : string :=
  let digits := NilZero.string_of_uint (Nat.to_uint n) in
  let padding :=
    match String.length digits with
    | 1%nat => "00"%string
    | 2%nat => "0"%string
    | _ => EmptyString
    end in
  ("MISSION_" ++ padding ++ digits)%string.

(** A [for] loop whose body may raise. *)
Fixpoint for_each {A S : Type} (body : S -> A -> result S) (l : list A) (s : S)
  : result S :=
  match l with
  | [] => Ok s
  | x :: l' => let* s' := body s x in for_each body l' s'
  end.

(** [calculate_mission_duration] *)
Definition calculate_mission_duration (site : Site) (robot : Robot)
    (survey_area_km2 : Q) : result Q :=
  let robot_speed_kmh := speed_knots robot * (1852 # 1000) in
  let* per_pass := py_div survey_area_km2 robot_speed_kmh in
  let survey_hours := per_pass * 3 in
  let deployment_hours := 4 in
  let depth_factor := 1 + (depth_m site / 5000) * (5 # 10) in
  let terrain_factor := 1 + (terrain_difficulty site / 100) * (3 # 10) in
  let total_hours := survey_hours * depth_factor * terrain_factor + deployment_hours in
  Ok (Qmin total_hours (endurance_hours robot * (8 # 10))).

(** [calculate_mission_cost] *)
Definition calculate_mission_cost (robot : Robot)
    (mission_duration_hours transit_time_hours vessel_day_rate : Q) : Q :=
  let total_hours := mission_duration_hours + transit_time_hours in
  let total_days := total_hours / 24 in
  let robot_cost := day_rate_usd robot * total_days in
  let vessel_cost := vessel_day_rate * total_days in
  let operational_cost := total_days * 15000 in
  robot_cost + vessel_cost + operational_cost.

(** [calculate_compatibility_score_simple] *)
Definition calculate_compatibility_score_simple (robot : Robot) (site : Site)
  : result Q :=
  let score := 0 in
  let* score :=
    if Qle_bool (depth_m site) (max_depth_m robot * (9 # 10)) then Ok (score + 50)
    else
      let* depth_ratio := py_div (max_depth_m robot) (depth_m site) in
      Ok (score + Qmin 50 (depth_ratio * 50)) in
  let required_sensors :=
    py_set ["side_scan_sonar"; "multi_beam_echo_sounder"; "HD_camera"]%string in
  let robot_sensors := py_set (sensors robot) in
  let sensor_match :=
    inject_Z (Z.of_nat (List.length (set_inter string_dec required_sensors robot_sensors)))
    / inject_Z (Z.of_nat (List.length required_sensors)) in
  Ok (score + sensor_match * 50).

Section Run.

(** [geodesic(p, q).kilometers] of the geopy package, which is not part of
    the program: any function from two coordinate pairs to a distance, or
    to an exception for coordinates it rejects. *)
Variable geodesic_km : Q -> Q -> Q -> Q -> result Q.

(** [calculate_transit_time] *)
Definition calculate_transit_time (from_lat from_lon to_lat to_lon
    vessel_speed_knots : Q) : result Q :=
  let* distance_km := geodesic_km from_lat from_lon to_lat to_lon in
  let speed_kmh := vessel_speed_knots * (1852 # 1000) in
  py_div distance_km speed_kmh.

(** The receiver and the arguments of one call of the scheduler;
    [now] is the value of [datetime.now()] read at its start. *)
Variable self : MissionOptimizer.
Variable time_window_days : Z.
Variable budget_usd : Q.
Variable vessel_speed_knots : Q.
Variable vessel_day_rate : Q.
Variable prioritize_by : string.
Variable now : Z.

Definition available_robots : list Robot :=
  filter (fun r => String.eqb (status r) "Available") (robots_df self).

(** The dict comprehension that initialises [robot_schedules]: one entry
    per distinct robot id, in order of first occurrence. *)
Definition initial_schedules : list (string * Schedule) :=
  map (fun id => (id, mkSchedule now []))
      (py_set (map robot_id available_robots)).

(** Body of the inner loop over [robot_schedules.items()], acting on
    [(best_robot, best_score, best_start_time)]. *)
Definition consider_robot (site : Site) (best : option Robot * Q * option Z)
    (item : string * Schedule) : result (option Robot * Q * option Z) :=
  let '(best_robot, best_score, best_start_time) := best in
  let '(robot_id', schedule) := item in
  let* robot :=
    iloc0 (filter (fun r => String.eqb (robot_id r) robot_id') available_robots) in
  if Qlt_bool (max_depth_m robot * (9 # 10)) (depth_m site) then Ok best
  else
    let* comp_score := calculate_compatibility_score_simple robot site in
    if Qlt_bool best_score comp_score
    then Ok (Some robot, comp_score, Some (available_from schedule))
    else Ok best.

(** The two assignments that update the schedule of the chosen robot. *)
Definition commit_schedule (id : string) (mission_end : Z) (mission : Mission)
    (schedules : list (string * Schedule)) : list (string * Schedule) :=
  map (fun item : string * Schedule =>
         if String.eqb (fst item) id
         then (fst item,
               mkSchedule mission_end (sched_missions (snd item) ++ [mission]))
         else item)
      schedules.

(** Body of the outer loop, after the budget test that may leave it. *)
Definition schedule_site (site : Site) (st : LoopState) : result LoopState :=
  let* best := for_each (consider_robot site) (robot_schedules st)
                        (None, - (1), None) in
  let '(best_robot, best_score, best_start_time) := best in
  match best_robot, best_start_time with
  | Some best_robot, Some best_start_time =>
      if Qle_bool 40 best_score then
        let* transit_time :=
          calculate_transit_time
            (lat (current_location best_robot))
            (lon (current_location best_robot))
            (latitude site) (longitude site) vessel_speed_knots in
        let* mission_duration :=
          calculate_mission_duration site best_robot 25 in
        let mission_cost :=
          calculate_mission_cost best_robot mission_duration transit_time
                                 vessel_day_rate in
        if Qlt_bool (remaining_budget st) mission_cost then Ok st
        else
          let total_hours := transit_time + mission_duration in
          let mission_end := (best_start_time + timedelta_hours total_hours)%Z in
          if (time_window_days <? days (mission_end - now))%Z then Ok st
          else
            let mission :=
              mkMission (mission_label (List.length (st_missions st) + 1))
                        (site_id site) (site_name site)
                        (robot_id best_robot) (robot_name best_robot)
                        best_start_time mission_end
                        (py_round transit_time 1)
                        (py_round mission_duration 1)
                        (py_round total_hours 1)
                        (py_round mission_cost 2)
                        best_score
                        (latitude site) (longitude site) in
            Ok (mkLoopState
                  (st_missions st ++ [mission])
                  (remaining_budget st - mission_cost)
                  (commit_schedule (robot_id best_robot) mission_end mission
                                   (robot_schedules st)))
      else Ok st
  | _, _ => Ok st
  end.

(** The outer loop over the sorted sites. *)
Fixpoint greedy_assignment (sites_sorted : list Site) (st : LoopState)
  : result LoopState :=
  match sites_sorted with
  | [] => Ok st
  | site :: rest =>
      if Qle_bool (remaining_budget st) 0 then Ok st
      else
        let* st' := schedule_site site st in
        greedy_assignment rest st'
  end.

(** The sort of the site frame by the chosen priority column. *)
Definition sites_sorted : result (list Site) :=
  let* _ := column site_id (sites_df self) in
  if String.eqb prioritize_by "score"
  then Ok (sort_values_desc mineral_concentration (sites_df self))
  else Ok (sort_values_desc estimated_value_millions (sites_df self)).

(** The statistics block. *)
Definition compute_statistics (st : LoopState) : result Statistics :=
  let missions := st_missions st in
  let total_cost := budget_usd - remaining_budget st in
  let num_sites_surveyed := List.length (py_set (map m_site_id missions)) in
  let num_robots_used := List.length (py_set (map m_robot_id missions)) in
  let* covered :=
    py_div (inject_Z (Z.of_nat num_sites_surveyed))
           (inject_Z (Z.of_nat (List.length (sites_df self)))) in
  let coverage_percent := covered * 100 in
  let* utilization := py_div total_cost budget_usd in
  let* avg_mission_cost :=
    match missions with
    | [] => Ok 0
    | _ =>
        let* avg := py_div total_cost (inject_Z (Z.of_nat (List.length missions))) in
        Ok (py_round avg 2)
    end in
  Ok (mkStatistics (List.length missions)
        (py_round total_cost 2)
        (py_round (remaining_budget st) 2)
        (py_round (utilization * 100) 2)
        num_sites_surveyed num_robots_used
        (py_round coverage_percent 2)
        avg_mission_cost).

(** [greedy_mission_scheduler] *)
Definition greedy_mission_scheduler : result Plan :=
  let* _ := column status (robots_df self) in
  let* sorted := sites_sorted in
  let* st := greedy_assignment sorted
               (mkLoopState [] budget_usd initial_schedules) in
  let* stats := compute_statistics st in
  Ok (mkPlan (st_missions st) stats).

End Run.

(** An entry of the list returned by [generate_route_sequence]; the keys
    ['site_id'], ['site_name'] and ['mission_id'] are present only in the
    waypoints of type "mission_site". *)
Record Waypoint : Type := mkWaypoint {
  wp_robot_id : string;
  wp_robot_name : string;
  location_type : string;
  wp_site_id : option string;
  wp_site_name : option string;
  wp_latitude : Q;
  wp_longitude : Q;
  timestamp : Z;
  wp_mission_id : option string
}.

(** One step of the grouping loop: [robot_missions[robot_id].append(mission)],
    with a new key added after the existing ones. *)
Fixpoint group_add (groups : list (string * list Mission)) (m : Mission)
  : list (string * list Mission) :=
  match groups with
  | [] => [(m_robot_id m, [m])]
  | (k, ms) :: rest =>
      if String.eqb k (m_robot_id m) then (k, ms ++ [m]) :: rest
      else (k, ms) :: group_add rest m
  end.

(** [sorted(l, key=...)] for an integer key: ascending, equal keys in
    their input order. *)
Fixpoint insert_asc {A : Type} (key : A -> Z) (x : A) (l : list A) : list A :=
  match l with
  | [] => [x]
  | y :: l' =>
      if (key x <=? key y)%Z then x :: y :: l'
      else y :: insert_asc key x l'
  end.

Definition sorted_by {A : Type} (key : A -> Z) (l : list A) : list A :=
  fold_right (insert_asc key) [] l.

(** Body of the loop over [robot_missions.items()] in
    [generate_route_sequence]. *)
Definition route_of (self : MissionOptimizer) (now : Z)
    (routes : list Waypoint) (item : string * list Mission)
  : result (list Waypoint) :=
  let '(robot_id', missions_list) := item in
  let* _ := column robot_id (robots_df self) in
  let* robot :=
    iloc0 (filter (fun r => String.eqb (robot_id r) robot_id') (robots_df self)) in
  let missions_sorted := sorted_by start_date missions_list in
  let start :=
    mkWaypoint robot_id' (robot_name robot) "start" None None
               (lat (current_location robot)) (lon (current_location robot))
               (match missions_sorted with
                | m :: _ => start_date m
                | [] => now
                end)
               None in
  let waypoints :=
    start ::
    map (fun mission =>
           mkWaypoint robot_id' (robot_name robot) "mission_site"
                      (Some (m_site_id mission)) (Some (m_site_name mission))
                      (site_latitude mission) (site_longitude mission)
                      (start_date mission) (Some (mission_id mission)))
        missions_sorted in
  Ok (routes ++ waypoints).

(** [generate_route_sequence]; [now] is the value of [datetime.now()]. *)
Definition generate_route_sequence (self : MissionOptimizer) (now : Z)
    (missions : list Mission) : result (list Waypoint) :=
  let robot_missions := fold_left group_add missions [] in
  for_each (route_of self now) robot_missions [].

End Optimizer.

(* ================================================================== *)
(** ** app.py: the sidebar's weight normalisation *)

Module App.

Import Scoring.

(** The block of [main] between the sliders and the construction of the
    engine: raw slider values are divided by their sum, and replaced by
    [1/7] each when the sum is not positive. *)
Definition normalize_raw_weights (raw_weights : Weights) : Weights :=
  let weight_sum := Qsum (values raw_weights) in
  if Qlt_bool 0 weight_sum then
    mkWeights (w_mineral_concentration raw_weights / weight_sum)
              (w_depth raw_weights / weight_sum)
              (w_distance_from_port raw_weights / weight_sum)
              (w_environmental_sensitivity raw_weights / weight_sum)
              (w_estimated_value raw_weights / weight_sum)
              (w_terrain_difficulty raw_weights / weight_sum)
              (w_survey_data_quality raw_weights / weight_sum)
  else
    mkWeights (1 / 7) (1 / 7) (1 / 7) (1 / 7) (1 / 7) (1 / 7) (1 / 7).

(** [scorer = SitePrioritizationEngine(weights)] as [main] calls it. *)
Definition make_scorer (raw_weights : Weights) : result Engine :=
  __init__ (Some (normalize_raw_weights raw_weights)).

End App.

(* ================================================================== *)
(** ** Vocabulary for the scheduler's invariants *)

Module SchedulerSpec.

Import Optimizer.

Section Steps.

Variable geodesic_km : Q -> Q -> Q -> Q -> result Q.
Variable self : MissionOptimizer.
Variable vessel_speed_knots : Q.
Variable vessel_day_rate : Q.

(** What one pass of the outer loop body does to the loop variables when
    it reaches the three statements that schedule a mission. *)
Inductive commits (site : Site) (st st' : LoopState) : Prop :=
| commits_intro (robot : Robot) (sch : Schedule) (score transit duration : Q) :
    In robot (available_robots self) ->
    In (robot_id robot, sch) (robot_schedules st) ->
    calculate_transit_time geodesic_km
      (lat (current_location robot)) (lon (current_location robot))
      (latitude site) (longitude site) vessel_speed_knots = Ok transit ->
    calculate_mission_duration site robot 25 = Ok duration ->
    calculate_mission_cost robot duration transit vessel_day_rate
    <= remaining_budget st ->
    st' =
    (let cost := calculate_mission_cost robot duration transit vessel_day_rate in
     let mission_end :=
       (available_from sch + timedelta_hours (transit + duration))%Z in
     let mission :=
       mkMission (mission_label (List.length (st_missions st) + 1))
                 (site_id site) (site_name site)
                 (robot_id robot) (robot_name robot)
                 (available_from sch) mission_end
                 (py_round transit 1) (py_round duration 1)
                 (py_round (transit + duration) 1)
                 (py_round cost 2) score
                 (latitude site) (longitude site) in
     mkLoopState (st_missions st ++ [mission])
                 (remaining_budget st - cost)
                 (commit_schedule (robot_id robot) mission_end mission
                                  (robot_schedules st))) ->
    commits site st st'.

(** The loop variables before and after the outer loop has run over a
    list of sites. *)
Inductive runs : list Site -> LoopState -> LoopState -> Prop :=
| runs_done (sites : list Site) (st : LoopState) : runs sites st st
| runs_skip (site : Site) (rest : list Site) (st st' : LoopState) :
    runs rest st st' -> runs (site :: rest) st st'
| runs_commit (site : Site) (rest : list Site) (st st1 st' : LoopState) :
    commits site st st1 -> runs rest st1 st' -> runs (site :: rest) st st'.

End Steps.

(** The candidate kept by the inner loop is a robot of the roster paired
    with the availability of its own schedule entry. *)
Definition chosen_from (self : MissionOptimizer)
    (schedules : list (string * Schedule))
    (best : option Robot * Q * option Z) : Prop :=
  match best with
  | (Some robot, _, Some start) =>
      In robot (available_robots self) /\
      exists sch, In (robot_id robot, sch) schedules /\ start = available_from sch
  | (None, _, None) => True
  | _ => False
  end.

(** Budget accounting of the loop variables: nothing is overdrawn, and the
    rounded mission costs exceed the money spent by at most half a cent
    per mission. *)
Definition within_budget (budget_usd : Q) (st : LoopState) : Prop :=
  0 <= remaining_budget st /\
  Qsum (map cost_usd (st_missions st))
  <= budget_usd - remaining_budget st
     + (1 # 200) * inject_Z (Z.of_nat (List.length (st_missions st))).





Section Detail.

Variable geodesic_km : Q -> Q -> Q -> Q -> result Q.
Variable self : MissionOptimizer.
Variable time_window_days : Z.
Variable vessel_speed_knots : Q.
Variable vessel_day_rate : Q.
Variable now : Z.

(** Everything the loop body has established about a site and a robot when
    it reaches the statements that schedule a mission. *)
Record scheduled (site : Site) (st : LoopState) (robot : Robot)
    (sch : Schedule) (score transit duration : Q) : Prop := mkScheduled {
  sd_robot : In robot (available_robots self);
  sd_entry : In (robot_id robot, sch) (robot_schedules st);
  sd_depth : depth_m site <= max_depth_m robot * (9 # 10);
  sd_score : calculate_compatibility_score_simple robot site = Ok score;
  sd_transit :
    calculate_transit_time geodesic_km
      (lat (current_location robot)) (lon (current_location robot))
      (latitude site) (longitude site) vessel_speed_knots = Ok transit;
  sd_duration : calculate_mission_duration site robot 25 = Ok duration;
  sd_cost :
    calculate_mission_cost robot duration transit vessel_day_rate
    <= remaining_budget st;
  sd_window :
    (days (available_from sch + timedelta_hours (transit + duration) - now)
     <= time_window_days)%Z
}.

(** The mission built from these values. *)
Definition mission_of (site : Site) (st : LoopState) (robot : Robot)
    (sch : Schedule) (score transit duration : Q) : Mission :=
  mkMission (mission_label (List.length (st_missions st) + 1))
            (site_id site) (site_name site)
            (robot_id robot) (robot_name robot)
            (available_from sch)
            (available_from sch + timedelta_hours (transit + duration))%Z
            (py_round transit 1) (py_round duration 1)
            (py_round (transit + duration) 1)
            (py_round (calculate_mission_cost robot duration transit
                                              vessel_day_rate) 2)
            score (latitude site) (longitude site).

(** The loop variables after the mission has been scheduled. *)
Definition scheduled_state (site : Site) (st : LoopState) (robot : Robot)
    (sch : Schedule) (score transit duration : Q) : LoopState :=
  let mission := mission_of site st robot sch score transit duration in
  mkLoopState (st_missions st ++ [mission])
              (remaining_budget st
               - calculate_mission_cost robot duration transit vessel_day_rate)
              (commit_schedule (robot_id robot) (end_date mission) mission
                               (robot_schedules st)).

End Detail.

(** The candidate kept by the inner loop, with what the loop has checked
    of it: it passed the depth test and carries its own simplified
    score. *)
Definition chosen_scored (self : MissionOptimizer) (site : Site)
    (schedules : list (string * Schedule))
    (best : option Robot * Q * option Z) : Prop :=
  match best with
  | (Some robot, score, Some start) =>
      In robot (available_robots self) /\
      depth_m site <= max_depth_m robot * (9 # 10) /\
      calculate_compatibility_score_simple robot site = Ok score /\
      exists sch, In (robot_id robot, sch) schedules /\ start = available_from sch
  | (None, _, None) => True
  | _ => False
  end.

End SchedulerSpec.

(* ================================================================== *)
(** ** Concrete inputs *)

Module Examples.

Import Scoring.

Open Scope string_scope.

(** Every weight zero. *)
Definition zero_weights : Weights := mkWeights 0 0 0 0 0 0 0.

(** The default weights with the first raised so that the sum is
    1.010005. *)
Definition weights_1_010005 : Weights :=
  mkWeights (210005 # 1000000) (15 # 100) (10 # 100) (15 # 100)
            (20 # 100) (10 # 100) (10 # 100).


(** Two sites, the first better than the second on every criterion. *)
Definition site_a : Site :=
  mkSite "SITE_A" "Alpha Ridge" 10 20 1000 100 80
         ["Polymetallic Nodules"] 500 10 10 90.

Definition site_b : Site :=
  mkSite "SITE_B" "Beta Basin" 11 21 2000 200 40
         ["Cobalt Crust"] 100 50 50 50.

(** A robot rated to 3000 m that carries the three sensors of the nodule
    survey, stationed at the position of [site_a]. *)
Definition robot_1 : Robot :=
  mkRobot "ROBOT_1" "Deep Explorer" "AUV" 3000 30 1
          ["side_scan_sonar"; "multi_beam_echo_sounder"; "HD_camera"]
          "Available" (mkLocation 10 20) 10000.

Definition matcher : Matching.RobotSiteMatcher :=
  Matching.mkMatcher [robot_1] [site_a; site_b].

(** Two more survey blocks at the position of [site_a]. *)
Definition site_c : Site :=
  mkSite "SITE_C" "Alpha Ridge East" 10 20 1200 100 70
         ["Polymetallic Nodules"] 400 20 20 80.

Definition site_d : Site :=
  mkSite "SITE_D" "Alpha Ridge West" 10 20 1500 100 60
         ["Polymetallic Nodules"] 300 30 30 70.


(** The geodesic distance where it needs no ellipsoid: 0 km between
    identical coordinates. For any other pair this oracle raises, so a run
    with it that returns has only asked for the distance from a position
    to itself. *)
Definition colocated_km (lat1 lon1 lat2 lon2 : Q) : result Q :=
  if Qeq_bool lat1 lat2 && Qeq_bool lon1 lon2 then Ok 0
  else Raise ValueError.

(** One robot and one site. The vessel costs 75000 + 1/128 a day, the
    mission lasts one day, and the budget equals its cost,
    100000.0078125. *)
Definition run_exact_budget : result Optimizer.Plan :=
  Optimizer.greedy_mission_scheduler colocated_km
    (Optimizer.mkOptimizer [robot_1] [site_a])
    180 (12800001 # 128) 12 (9600001 # 128) "score" 0.

(** One robot and three sites at its position, under the default
    parameters. *)
Definition run_three_sites : result Optimizer.Plan :=
  Optimizer.greedy_mission_scheduler colocated_km
    (Optimizer.mkOptimizer [robot_1] [site_a; site_c; site_d])
    180 10000000 12 75000 "score" 0.


(** [robot_1] while it is in maintenance, and a run with it alone. *)
Definition robot_in_maintenance : Robot :=
  mkRobot "ROBOT_1" "Deep Explorer" "AUV" 3000 30 1
          ["side_scan_sonar"; "multi_beam_echo_sounder"; "HD_camera"]
          "In Maintenance" (mkLocation 10 20) 10000.

Definition run_no_available_robot : result Optimizer.Plan :=
  Optimizer.greedy_mission_scheduler colocated_km
    (Optimizer.mkOptimizer [robot_in_maintenance] [site_a; site_b])
    180 10000000 12 75000 "score" 0.

(** A zero budget. *)
Definition run_zero_budget : result Optimizer.Plan :=
  Optimizer.greedy_mission_scheduler colocated_km
    (Optimizer.mkOptimizer [robot_1] [site_a; site_b])
    180 0 12 75000 "score" 0.

(** No site. *)
Definition run_no_site : result Optimizer.Plan :=
  Optimizer.greedy_mission_scheduler colocated_km
    (Optimizer.mkOptimizer [robot_1] [])
    180 10000000 12 75000 "score" 0.

Close Scope string_scope.

End Examples.

(* ================================================================== *)
(** * Properties *)

Section NormalizeScore.

Import Scoring.

(** C7. [normalize_score] without inversion is 0 at the minimum and 100 at
    the maximum of a proper range, and on a degenerate range [m, m] it is
    50 for every value and either direction. *)
Theorem normalize_score_endpoints_and_degenerate :
  (forall min_val max_val : Q, min_val < max_val ->
     normalize_score min_val min_val max_val false == 0 /\
     normalize_score max_val min_val max_val false == 100) /\
  (forall (x m : Q) (inverse : bool), normalize_score x m m inverse = 50).
Proof.
  split.
  - intros lo hi Hlt. unfold normalize_score.
    assert (Hne : ~ hi == lo) by lra.
    destruct (Qeq_bool hi lo) eqn:E.
    + apply Qeq_bool_iff in E. contradiction.
    + split; field; lra.
  - intros x m inverse. unfold normalize_score.
    assert (E : Qeq_bool m m = true) by (apply Qeq_bool_iff; reflexivity).
    now rewrite E.
Qed.

Lemma normalize_score_endpoints_and_degenerate_witness :
  0 < 10 /\
  normalize_score 0 0 10 false == 0 /\
  normalize_score 10 0 10 false == 100.
Proof.
  assert (H : 0 < 10) by reflexivity.
  split; [exact H |].
  exact (proj1 normalize_score_endpoints_and_degenerate 0 10 H).
Defined.

End NormalizeScore.

(* ================================================================== *)
(** ** Rounding *)

Section Rounding.

Lemma round_half_even_cases (x : Q) :
  let f := Qfloor x in
  (x - inject_Z f < 1 # 2 /\ round_half_even x = f) \/
  (x - inject_Z f == 1 # 2 /\
   round_half_even x = (if Z.even f then f else (f + 1)%Z)) \/
  (1 # 2 < x - inject_Z f /\ round_half_even x = (f + 1)%Z).
Proof.
  intro f. unfold round_half_even. fold f.
  destruct (Qcompare_spec (x - inject_Z f) (1 # 2)) as [E | L | G].
  - right; left. split; [exact E | reflexivity].
  - left. split; [exact L | reflexivity].
  - right; right. split; [exact G | reflexivity].
Qed.

Lemma Qfloor_sandwich (x : Q) :
  inject_Z (Qfloor x) <= x /\ x < inject_Z (Qfloor x) + 1.
Proof.
  split; [apply Qfloor_le |].
  pose proof (Qlt_floor x) as H.
  rewrite inject_Z_plus in H. exact H.
Qed.

Lemma round_half_even_near (x : Q) :
  x - (1 # 2) <= inject_Z (round_half_even x) <= x + (1 # 2).
Proof.
  pose proof (Qfloor_sandwich x) as [Hlo Hhi].
  destruct (round_half_even_cases x) as [[H E] | [[H E] | [H E]]];
    rewrite E; clear E.
  - lra.
  - destruct (Z.even (Qfloor x));
      [| rewrite inject_Z_plus; change (inject_Z 1) with 1]; lra.
  - rewrite inject_Z_plus. change (inject_Z 1) with 1. lra.
Qed.

Lemma round_half_even_ge_floor (x : Q) :
  (Qfloor x <= round_half_even x <= Qfloor x + 1)%Z.
Proof.
  destruct (round_half_even_cases x) as [[_ E] | [[_ E] | [_ E]]];
    rewrite E; try lia.
  destruct (Z.even (Qfloor x)); lia.
Qed.

Lemma round_half_even_monotone (x y : Q) :
  x <= y -> (round_half_even x <= round_half_even y)%Z.
Proof.
  intro Hxy.
  pose proof (Qfloor_resp_le x y Hxy) as Hf.
  pose proof (round_half_even_ge_floor x) as Bx.
  pose proof (round_half_even_ge_floor y) as By.
  destruct (Z.eq_dec (Qfloor x) (Qfloor y)) as [Efl | Nfl]; [| lia].
  destruct (round_half_even_cases x) as [[Hx Ex] | [[Hx Ex] | [Hx Ex]]];
  destruct (round_half_even_cases y) as [[Hy Ey] | [[Hy Ey] | [Hy Ey]]];
    rewrite Ex, Ey; rewrite <- ?Efl in *;
    try (destruct (Z.even (Qfloor x)); lia); try lia;
    exfalso; lra.
Qed.

Lemma round_half_even_comp (x y : Q) :
  x == y -> round_half_even x = round_half_even y.
Proof.
  intro E. apply Z.le_antisymm; apply round_half_even_monotone; lra.
Qed.

Lemma round_half_even_inject_Z (z : Z) : round_half_even (inject_Z z) = z.
Proof.
  destruct (round_half_even_cases (inject_Z z)) as [[H E] | [[H E] | [H E]]];
    rewrite Qfloor_Z in *; try exact E; exfalso; lra.
Qed.

Lemma pow10_pos (n : nat) : 0 < pow10 n.
Proof.
  unfold pow10. change 0 with (inject_Z 0). rewrite <- Zlt_Qlt.
  apply Z.pow_pos_nonneg; lia.
Qed.

Lemma py_round_monotone (x y : Q) (n : nat) :
  x <= y -> py_round x n <= py_round y n.
Proof.
  intro Hxy. unfold py_round.
  pose proof (pow10_pos n) as Hp.
  apply Qmult_le_compat_r.
  - rewrite <- Zle_Qle. apply round_half_even_monotone.
    apply Qmult_le_compat_r; lra.
  - apply Qlt_le_weak, Qinv_lt_0_compat, Hp.
Qed.

Lemma py_round_integer (z : Z) (n : nat) :
  py_round (inject_Z z) n == inject_Z z.
Proof.
  unfold py_round.
  pose proof (pow10_pos n) as Hp.
  unfold pow10 in *. rewrite <- inject_Z_mult, round_half_even_inject_Z.
  rewrite inject_Z_mult. field. lra.
Qed.

(** Rounding to cents moves a number by at most half a cent. *)
Lemma py_round_2_near (x : Q) :
  x - (1 # 200) <= py_round x 2 <= x + (1 # 200).
Proof.
  unfold py_round.
  pose proof (round_half_even_near (x * pow10 2)) as [Hlo Hhi].
  change (pow10 2) with 100 in *.
  split.
  - apply Qle_shift_div_l; lra.
  - apply Qle_shift_div_r; lra.
Qed.

End Rounding.

(* ================================================================== *)
(** ** Scoring engine *)

Section EngineConstruction.

Import Scoring.

Lemma isclose_one_iff (total : Q) :
  np_isclose total 1 np_default_rtol (1 # 100) = true <->
  Qabs (total - 1) <= 1001 # 100000.
Proof.
  unfold np_isclose, np_default_rtol. rewrite Qle_bool_iff.
  change (Qabs 1) with 1.
  assert (E : (1 # 100) + (1 # 100000) * 1 == 1001 # 100000) by reflexivity.
  now rewrite E.
Qed.

Lemma init_Some (w : Weights) :
  __init__ (Some w) =
  if np_isclose (Qsum (values w)) 1 np_default_rtol (1 # 100)
  then Ok (mkEngine w) else Raise ValueError.
Proof.
  unfold __init__, _validate_weights. cbn [weights bind].
  now destruct (np_isclose _ _ _ _).
Qed.

(** C5 (amended). A supplied weight set is accepted exactly when its sum
    is within [0.01 + 1e-05] of 1, the bound that [np.isclose] applies;
    the engine then holds the supplied weights unchanged, and otherwise
    construction raises [ValueError]. A sum within 0.01 of 1 is accepted. *)
Theorem init_accepts_sum_within_isclose_bound (w : Weights) :
  (Qabs (Qsum (values w) - 1) <= 1001 # 100000 ->
     __init__ (Some w) = Ok (mkEngine w)) /\
  (~ Qabs (Qsum (values w) - 1) <= 1001 # 100000 ->
     __init__ (Some w) = Raise ValueError) /\
  (Qabs (Qsum (values w) - 1) <= 1 # 100 ->
     __init__ (Some w) = Ok (mkEngine w)).
Proof.
  rewrite init_Some.
  destruct (np_isclose _ _ _ _) eqn:E.
  - repeat split; intros; try reflexivity.
    apply isclose_one_iff in E. contradiction.
  - assert (N : ~ Qabs (Qsum (values w) - 1) <= 1001 # 100000).
    { intro H. apply isclose_one_iff in H. congruence. }
    repeat split; intros H; try reflexivity; exfalso; apply N; [exact H |].
    apply Qle_trans with (1 # 100); [exact H | discriminate].
Qed.

Lemma init_accepts_sum_within_isclose_bound_witness :
  Qabs (Qsum (values DEFAULT_WEIGHTS) - 1) <= 1 # 100 /\
  __init__ (Some DEFAULT_WEIGHTS) = Ok (mkEngine DEFAULT_WEIGHTS).
Proof.
  assert (H : Qabs (Qsum (values DEFAULT_WEIGHTS) - 1) <= 1 # 100)
    by (vm_compute; discriminate).
  split; [exact H |].
  exact (proj2 (proj2 (init_accepts_sum_within_isclose_bound DEFAULT_WEIGHTS)) H).
Defined.

(** C5, as stated, fails: a weight set whose sum 1.010005 is further than
    0.01 from 1 is accepted. *)
Lemma init_accepts_sum_1_010005 :
  ~ Qabs (Qsum (values Examples.weights_1_010005) - 1) <= 1 # 100 /\
  __init__ (Some Examples.weights_1_010005)
  = Ok (mkEngine Examples.weights_1_010005).
Proof.
  split.
  - intro H. apply Qle_bool_iff in H. vm_compute in H. discriminate.
  - reflexivity.
Qed.

Lemma Qsum_all_zero (l : list Q) :
  Forall (fun v => v == 0) l -> Qsum l == 0.
Proof.
  induction 1 as [| v l Hv _ IH]; cbn; [reflexivity |].
  rewrite Hv, IH. reflexivity.
Qed.

(** C4, as stated, fails: the constructor given seven zero weights raises
    [ValueError]. *)
Lemma init_rejects_zero_weights :
  __init__ (Some Examples.zero_weights) = Raise ValueError.
Proof. reflexivity. Qed.

(** C4 (amended). When every raw weight is zero, the weight normalisation
    of the application replaces each by [1/7], and constructing the engine
    from these succeeds with exactly these weights; the constructor given
    the zero weights themselves raises [ValueError]. *)
Theorem zero_raw_weights_fall_back_to_sevenths (raw_weights : Weights) :
  Forall (fun v => v == 0) (values raw_weights) ->
  let sevenths :=
    mkWeights (1 / 7) (1 / 7) (1 / 7) (1 / 7) (1 / 7) (1 / 7) (1 / 7) in
  App.normalize_raw_weights raw_weights = sevenths /\
  App.make_scorer raw_weights = Ok (mkEngine sevenths) /\
  __init__ (Some raw_weights) = Raise ValueError.
Proof.
  intros Hz sevenths.
  pose proof (Qsum_all_zero _ Hz) as Hsum.
  assert (En : App.normalize_raw_weights raw_weights = sevenths).
  { unfold App.normalize_raw_weights, Qlt_bool.
    assert (E : Qle_bool (Qsum (values raw_weights)) 0 = true)
      by (apply Qle_bool_iff; lra).
    now rewrite E. }
  split; [exact En |]. split.
  - unfold App.make_scorer. rewrite En. reflexivity.
  - rewrite init_Some.
    destruct (np_isclose _ _ _ _) eqn:E; [| reflexivity].
    apply isclose_one_iff, Qabs_Qle_condition in E.
    exfalso. lra.
Qed.

Lemma zero_raw_weights_fall_back_to_sevenths_witness :
  App.make_scorer Examples.zero_weights
  = Ok (mkEngine (mkWeights (1 / 7) (1 / 7) (1 / 7) (1 / 7) (1 / 7) (1 / 7) (1 / 7))).
Proof.
  refine (proj1 (proj2
    (zero_raw_weights_fall_back_to_sevenths Examples.zero_weights _))).
  repeat constructor.
Defined.

End EngineConstruction.

Section CompositeScore.

Import Scoring.

Lemma col_min_le_init (x : Q) (xs : list Q) : col_min x xs <= x.
Proof.
  unfold col_min. revert x.
  induction xs as [| y xs IH]; intro x; cbn; [lra |].
  eapply Qle_trans; [apply IH | apply Q.le_min_l].
Qed.

Lemma col_min_le (x : Q) (xs : list Q) (y : Q) :
  In y (x :: xs) -> col_min x xs <= y.
Proof.
  intros [E | H]; [subst; apply col_min_le_init |].
  unfold col_min. revert x.
  induction xs as [| z xs IH]; intro x; [destruct H |].
  cbn. destruct H as [E | H].
  - subst. eapply Qle_trans; [apply col_min_le_init | apply Q.le_min_r].
  - now apply IH.
Qed.

Lemma col_max_ge_init (x : Q) (xs : list Q) : x <= col_max x xs.
Proof.
  unfold col_max. revert x.
  induction xs as [| y xs IH]; intro x; cbn; [lra |].
  eapply Qle_trans; [apply Q.le_max_l | apply IH].
Qed.

Lemma col_max_ge (x : Q) (xs : list Q) (y : Q) :
  In y (x :: xs) -> y <= col_max x xs.
Proof.
  intros [E | H]; [subst; apply col_max_ge_init |].
  unfold col_max. revert x.
  induction xs as [| z xs IH]; intro x; [destruct H |].
  cbn. destruct H as [E | H].
  - subst. eapply Qle_trans; [apply Q.le_max_r | apply col_max_ge_init].
  - now apply IH.
Qed.

Lemma column_range_spec (c : Site -> Q) (s : Site) (rest : list Site) :
  exists r, column_range c (s :: rest) = Ok r /\
            forall s', In s' (s :: rest) -> fst r <= c s' <= snd r.
Proof.
  eexists. split; [reflexivity |].
  intros s' Hin. cbn [fst snd].
  assert (Hin' : In (c s') (c s :: map c rest)).
  { destruct Hin as [E | Hin]; [left; now subst | right; now apply in_map]. }
  split; [now apply col_min_le | now apply col_max_ge].
Qed.



Lemma insert_desc_In {A : Type} (key : A -> Q) (x y : A) (l : list A) :
  In y (insert_desc key x l) -> y = x \/ In y l.
Proof.
  induction l as [| z l IH]; cbn.
  - intros [E | []]. now left.
  - destruct (Qle_bool (key z) (key x)).
    + intros [E | H]; [now left | now right].
    + intros [E | H]; [right; now left |].
      destruct (IH H) as [E | H']; [now left | right; now right].
Qed.

Lemma sort_values_desc_In {A : Type} (key : A -> Q) (y : A) (df : list A) :
  In y (sort_values_desc key df) -> In y df.
Proof.
  induction df as [| x df IH]; cbn; [tauto |].
  intro H. apply insert_desc_In in H. destruct H as [E | H]; [now left |].
  right. now apply IH.
Qed.





End CompositeScore.

(* ================================================================== *)
(** ** Robot-site matcher *)

Section DepthMonotonicity.

Import Matching.

Lemma depth_points_eq (robot : Robot) (site : Site) :
  depth_points robot site =
  if Qle_bool (depth_m site) (max_depth_m robot * (9 # 10)) then Ok 40
  else
    let* depth_ratio := py_div (max_depth_m robot) (depth_m site) in
    Ok (Qmin 40 (depth_ratio * 40)).
Proof.
  unfold depth_points, check_depth_compatibility.
  now destruct (Qle_bool _ _).
Qed.

Lemma depth_points_le_40 (robot : Robot) (site : Site) (p : Q) :
  depth_points robot site = Ok p -> p <= 40.
Proof.
  rewrite depth_points_eq.
  destruct (Qle_bool _ _).
  - intros [= <-]. lra.
  - unfold py_div. destruct (Qeq_bool _ _); [discriminate |].
    cbn. intros [= <-]. apply Q.le_min_l.
Qed.



Lemma calculate_compatibility_score_eq (robot : Robot) (site : Site) :
  calculate_compatibility_score robot site =
  let* d := depth_points robot site in
  Ok (py_round (0 + d + sensor_points robot site + status_points robot) 2).
Proof. reflexivity. Qed.



End DepthMonotonicity.

Section DetailedLookup.

Import Matching.

Lemma filter_absent {A : Type} (key : A -> string) (k : string) (df : list A) :
  ~ In k (map key df) -> filter (fun x => String.eqb (key x) k) df = [].
Proof.
  induction df as [| x df IH]; cbn; [reflexivity |].
  intro H. destruct (String.eqb_spec (key x) k) as [E | N].
  - exfalso. apply H. now left.
  - apply IH. intro Hin. apply H. now right.
Qed.

Lemma filter_present {A : Type} (key : A -> string) (k : string) (df : list A) :
  In k (map key df) ->
  exists x rest, filter (fun x => String.eqb (key x) k) df = x :: rest.
Proof.
  induction df as [| x df IH]; cbn; [tauto |].
  intro H. destruct (String.eqb_spec (key x) k) as [E | N].
  - eauto.
  - destruct H as [E | H]; [contradiction | now apply IH].
Qed.

(** A row lookup by identifier: the column selection followed by
    [.iloc[0]] on the matching rows. *)
Lemma lookup_absent {A : Type} (key : A -> string) (k : string) (df : list A)
    {B : Type} (cont : A -> result B) :
  ~ In k (map key df) ->
  exists e,
    bind (column key df)
         (fun _ => bind (iloc0 (filter (fun x => String.eqb (key x) k) df)) cont)
    = Raise e /\
    is_lookup_error e = true.
Proof.
  intro H. destruct df as [| x df].
  - exists KeyError. split; reflexivity.
  - exists IndexError. split; [| reflexivity].
    rewrite (filter_absent key k (x :: df) H). reflexivity.
Qed.

Lemma lookup_present {A : Type} (key : A -> string) (k : string) (df : list A)
    {B : Type} (cont : A -> result B) :
  In k (map key df) ->
  exists x,
    bind (column key df)
         (fun _ => bind (iloc0 (filter (fun x => String.eqb (key x) k) df)) cont)
    = cont x.
Proof.
  intro H. destruct (filter_present key k df H) as (x & rest & E).
  exists x. rewrite E.
  destruct df as [| y df]; [destruct H | reflexivity].
Qed.

Lemma compatibility_score_raises_only_arithmetic
    (robot : Robot) (site : Site) (e : exn) :
  calculate_compatibility_score robot site = Raise e ->
  e = ZeroDivisionError.
Proof.
  rewrite calculate_compatibility_score_eq, depth_points_eq.
  destruct (Qle_bool _ _); [discriminate |].
  unfold py_div. destruct (Qeq_bool _ _); cbn; congruence.
Qed.

(** Replaces a successful row lookup at the head of the goal by its
    continuation at the row found, which is left generalised. *)
Ltac found_row key Hin :=
  lazymatch goal with
  | |- context [bind (column key ?df) (fun _ => bind (iloc0 _) ?cont)] =>
      let x := fresh "row" in
      let E := fresh "E" in
      destruct (lookup_present key _ df cont Hin) as (x & E);
      rewrite E; clear E; cbv beta; revert x
  end.

(** C9. A detailed-compatibility query for a robot or site identifier that
    is absent from its collection returns no record: it raises an
    exception of the lookup class ([IndexError], or [KeyError] when the
    collection is empty). When both identifiers are present the only
    exception that can be raised is the arithmetic [ZeroDivisionError],
    which is not of the lookup class. *)
Theorem detailed_compatibility_not_found
    (self : RobotSiteMatcher) (robot_id' site_id' : string) :
  (~ In robot_id' (map robot_id (robots_df self)) \/
   ~ In site_id' (map site_id (sites_df self)) ->
   exists e,
     get_detailed_compatibility self robot_id' site_id' = Raise e /\
     is_lookup_error e = true) /\
  (In robot_id' (map robot_id (robots_df self)) ->
   In site_id' (map site_id (sites_df self)) ->
   forall e,
     get_detailed_compatibility self robot_id' site_id' = Raise e ->
     is_arithmetic_error e = true /\ is_lookup_error e = false).
Proof.
  unfold get_detailed_compatibility. split.
  - intro Habsent.
    destruct (in_dec string_dec robot_id' (map robot_id (robots_df self)))
      as [Hr | Hr].
    + destruct Habsent as [Hr' | Hs]; [contradiction |].
      found_row robot_id Hr. intro robot.
      now apply lookup_absent.
    + now apply lookup_absent.
  - intros Hr Hs e.
    found_row robot_id Hr. intro robot.
    found_row site_id Hs. intro site.
    destruct (check_depth_compatibility robot site) as [depth_ok depth_msg].
    destruct (check_sensor_compatibility robot site)
      as [[sensor_ok sensor_msg] missing].
    destruct (check_status_compatibility robot) as [status_ok status_msg].
    destruct (calculate_compatibility_score robot site) as [c | e'] eqn:Ec.
    + cbn [bind].
      destruct (depth_ok && sensor_ok && status_ok);
        [| destruct (depth_ok && status_ok)]; discriminate.
    + cbn [bind]. intros [= <-].
      apply compatibility_score_raises_only_arithmetic in Ec. subst.
      split; reflexivity.
Qed.

Lemma detailed_compatibility_not_found_witness :
  exists e,
    get_detailed_compatibility Examples.matcher "ROBOT_9" "SITE_A" = Raise e /\
    is_lookup_error e = true.
Proof.
  apply (proj1 (detailed_compatibility_not_found
                  Examples.matcher "ROBOT_9" "SITE_A")).
  left. cbn. intros [H | []]. discriminate H.
Defined.

End DetailedLookup.

(* ================================================================== *)
(** ** Greedy scheduler *)

Section SchedulerLoop.

Import Optimizer SchedulerSpec.

Variable geodesic_km : Q -> Q -> Q -> Q -> result Q.
Variable self : MissionOptimizer.
Variable time_window_days : Z.
Variable vessel_speed_knots : Q.
Variable vessel_day_rate : Q.
Variable now : Z.

Lemma iloc0_filter {A : Type} (f : A -> bool) (df : list A) (x : A) :
  iloc0 (filter f df) = Ok x -> f x = true /\ In x df.
Proof.
  destruct (filter f df) as [| y rest] eqn:E; [discriminate |].
  intros [= ->].
  assert (H : In x (filter f df)) by (rewrite E; now left).
  apply filter_In in H. tauto.
Qed.

Lemma consider_robot_chosen (site : Site) (schedules : list (string * Schedule))
    (best best' : option Robot * Q * option Z) (item : string * Schedule) :
  In item schedules ->
  chosen_from self schedules best ->
  consider_robot self site best item = Ok best' ->
  chosen_from self schedules best'.
Proof.
  intros Hitem Hbest. unfold consider_robot.
  destruct best as [[best_robot best_score] best_start].
  destruct item as [id schedule].
  destruct (iloc0 _) as [robot |] eqn:Erobot; [| discriminate]. cbn [bind].
  apply iloc0_filter in Erobot. destruct Erobot as [Eid Hin].
  apply String.eqb_eq in Eid.
  destruct (Qlt_bool _ _); [now intros [= <-] |].
  destruct (calculate_compatibility_score_simple robot site) as [score |];
    [| discriminate].
  cbn [bind]. destruct (Qlt_bool _ _); intros [= <-]; [| exact Hbest].
  cbn. split; [exact Hin |].
  exists schedule. rewrite Eid. now split.
Qed.

Lemma for_each_chosen (site : Site) (schedules l : list (string * Schedule)) :
  forall best best',
    incl l schedules ->
    chosen_from self schedules best ->
    for_each (consider_robot self site) l best = Ok best' ->
    chosen_from self schedules best'.
Proof.
  induction l as [| item l IH]; intros best best' Hincl Hbest; cbn.
  - now intros [= <-].
  - destruct (consider_robot self site best item) as [best1 |] eqn:E1;
      [| discriminate].
    cbn [bind]. apply IH.
    + intros x Hx. apply Hincl. now right.
    + eapply consider_robot_chosen; eauto. apply Hincl. now left.
Qed.

(** One pass of the outer loop body either leaves the loop variables as
    they are or schedules a mission. *)
Lemma schedule_site_commits (site : Site) (st st' : LoopState) :
  schedule_site geodesic_km self time_window_days vessel_speed_knots
                vessel_day_rate now site st = Ok st' ->
  st' = st \/ commits geodesic_km self vessel_speed_knots vessel_day_rate
                      site st st'.
Proof.
  unfold schedule_site.
  destruct (for_each _ _ _) as [best |] eqn:Ebest; [| discriminate].
  cbn [bind].
  apply (for_each_chosen site (robot_schedules st)) in Ebest;
    [| apply incl_refl | exact I].
  destruct best as [[[robot |] score] [start |]]; cbn in Ebest;
    try contradiction; try (intros [= <-]; now left).
  destruct Ebest as (Hrobot & sch & Hsch & ->).
  destruct (Qle_bool 40 score); [| intros [= <-]; now left].
  destruct (calculate_transit_time _ _ _ _ _ _) as [transit |] eqn:Etransit;
    [| discriminate].
  cbn [bind].
  destruct (calculate_mission_duration site robot 25) as [duration |]
    eqn:Eduration; [| discriminate].
  cbn [bind].
  destruct (Qlt_bool _ _) eqn:Ecost; [intros [= <-]; now left |].
  destruct (_ <? _)%Z; [intros [= <-]; now left |].
  intros [= <-]. right.
  apply (commits_intro _ _ _ _ site st _ robot sch score transit duration);
    try assumption; [| reflexivity].
  unfold Qlt_bool in Ecost. apply negb_false_iff in Ecost.
  now apply Qle_bool_iff.
Qed.

Lemma greedy_assignment_runs (sites : list Site) :
  forall st st',
    greedy_assignment geodesic_km self time_window_days vessel_speed_knots
                      vessel_day_rate now sites st = Ok st' ->
    runs geodesic_km self vessel_speed_knots vessel_day_rate sites st st'.
Proof.
  induction sites as [| site rest IH]; intros st st'; cbn.
  - intros [= <-]. constructor.
  - destruct (Qle_bool (remaining_budget st) 0); [intros [= <-]; constructor |].
    destruct (schedule_site _ _ _ _ _ _ site st) as [st1 |] eqn:E1;
      [| discriminate].
    cbn [bind]. intro Hrest. apply IH in Hrest.
    destruct (schedule_site_commits site st st1 E1) as [-> | Hc].
    + now apply runs_skip.
    + eapply runs_commit; eauto.
Qed.

End SchedulerLoop.

Section SchedulerInvariants.

Import Optimizer SchedulerSpec.

Variable geodesic_km : Q -> Q -> Q -> Q -> result Q.
Variable self : MissionOptimizer.
Variable time_window_days : Z.
Variable budget_usd : Q.
Variable vessel_speed_knots : Q.
Variable vessel_day_rate : Q.
Variable prioritize_by : string.
Variable now : Z.

Local Abbreviation commits := (commits geodesic_km self vessel_speed_knots vessel_day_rate).
Local Abbreviation runs := (runs geodesic_km self vessel_speed_knots vessel_day_rate).
Local Abbreviation scheduler :=
  (greedy_mission_scheduler geodesic_km self time_window_days budget_usd
     vessel_speed_knots vessel_day_rate prioritize_by now).

(** A property of the loop variables kept by every scheduled mission is
    kept by the whole loop. *)
Lemma runs_preserve (P : LoopState -> Prop) (sites : list Site) :
  (forall site st st', In site sites -> commits site st st' -> P st -> P st') ->
  forall st st', runs sites st st' -> P st -> P st'.
Proof.
  intros Hstep st st' Hruns.
  induction Hruns as [| site rest st st' _ IH | site rest st st1 st' Hc _ IH];
    intro HP; [exact HP | |].
  - apply IH; [| exact HP]. intros s ? ? Hs. apply Hstep. now right.
  - apply IH.
    + intros s ? ? Hs. apply Hstep. now right.
    + eapply Hstep; eauto. now left.
Qed.

(** What a returned plan says about the loop that produced it. *)
Lemma scheduler_returns (plan : Plan) :
  scheduler = Ok plan ->
  exists sorted st,
    (forall s, In s sorted -> In s (sites_df self)) /\
    runs sorted (mkLoopState [] budget_usd (initial_schedules self now)) st /\
    missions plan = st_missions st /\
    compute_statistics self budget_usd st = Ok (statistics plan).
Proof.
  unfold greedy_mission_scheduler.
  destruct (column status (robots_df self)); [| discriminate]. cbn [bind].
  destruct (sites_sorted self prioritize_by) as [sorted |] eqn:Esorted;
    [| discriminate].
  cbn [bind].
  destruct (greedy_assignment _ _ _ _ _ _ sorted _) as [st |] eqn:Eloop;
    [| discriminate].
  cbn [bind].
  destruct (compute_statistics self budget_usd st) as [stats |] eqn:Estats;
    [| discriminate].
  cbn [bind]. intros [= <-]. exists sorted, st. repeat split.
  - unfold sites_sorted in Esorted.
    destruct (column site_id (sites_df self)); [| discriminate].
    cbn [bind] in Esorted.
    destruct (String.eqb prioritize_by "score"); injection Esorted as <-;
      intros s Hs; eapply sort_values_desc_In; eauto.
  - eapply greedy_assignment_runs; eauto.
  - exact Estats.
Qed.

Lemma Qsum_snoc (l : list Q) (x : Q) : Qsum (l ++ [x]) == Qsum l + x.
Proof.
  unfold Qsum. induction l as [| y l IH]; cbn [app fold_right]; [lra |].
  rewrite IH. lra.
Qed.

Lemma commits_within_budget (site : Site) (st st' : LoopState) :
  commits site st st' ->
  within_budget budget_usd st -> within_budget budget_usd st'.
Proof.
  intros [robot sch score transit duration _ _ _ _ Hcost ->] [Hrem Hsum].
  unfold within_budget.
  cbn [st_missions remaining_budget].
  rewrite map_app, length_app, Nat2Z.inj_add, inject_Z_plus.
  cbn [map cost_usd List.length Z.of_nat].
  rewrite Qsum_snoc.
  pose proof (py_round_2_near
                (calculate_mission_cost robot duration transit vessel_day_rate))
    as [_ Hround].
  change (inject_Z (Z.pos (Pos.of_succ_nat 0))) with 1.
  split; lra.
Qed.

Lemma compute_statistics_fields (st : LoopState) (stats : Statistics) :
  compute_statistics self budget_usd st = Ok stats ->
  total_cost_usd stats = py_round (budget_usd - remaining_budget st) 2 /\
  remaining_budget_usd stats = py_round (remaining_budget st) 2.
Proof.
  unfold compute_statistics.
  destruct (py_div _ _); [| discriminate]. cbn [bind].
  destruct (py_div _ _); [| discriminate]. cbn [bind].
  destruct (st_missions st) eqn:E.
  - cbn [bind]. intros [= <-]. now split.
  - destruct (py_div _ _); [| discriminate]. cbn [bind].
    intros [= <-]. now split.
Qed.

(** C1 (amended). For every run with a non-negative budget that returns a
    plan: the [cost_usd] of its missions, each rounded to cents, sum to at
    most the budget plus half a cent per mission; the money spent before
    rounding is at most the budget, so that the reported total cost is at
    most the budget rounded to cents and the reported remaining budget is
    not negative. *)
Theorem scheduled_cost_within_budget (plan : Plan) :
  0 <= budget_usd ->
  greedy_mission_scheduler geodesic_km self time_window_days budget_usd
    vessel_speed_knots vessel_day_rate prioritize_by now = Ok plan ->
  Qsum (map cost_usd (missions plan))
  <= budget_usd
     + (1 # 200) * inject_Z (Z.of_nat (List.length (missions plan))) /\
  total_cost_usd (statistics plan) <= py_round budget_usd 2 /\
  0 <= remaining_budget_usd (statistics plan).
Proof.
  intros Hbudget Hplan.
  destruct (scheduler_returns plan Hplan) as (sorted & st & _ & Hruns & -> & Hstats).
  assert (Hinv : within_budget budget_usd st).
  { refine (runs_preserve (within_budget budget_usd) sorted _ _ _ Hruns _).
    - intros. eapply commits_within_budget; eauto.
    - unfold within_budget, Qsum.
      cbn [st_missions remaining_budget map fold_right List.length Z.of_nat].
      change (inject_Z 0) with 0. split; lra. }
  destruct Hinv as [Hrem Hsum].
  apply compute_statistics_fields in Hstats. destruct Hstats as [-> ->].
  repeat split.
  - lra.
  - apply py_round_monotone. lra.
  - assert (E : py_round 0 2 == 0) by reflexivity.
    apply Qle_trans with (py_round 0 2);
      [apply Qle_lteq; right; now symmetry | now apply py_round_monotone].
Qed.








Lemma greedy_assignment_no_budget (sites : list Site) (st : LoopState) :
  remaining_budget st <= 0 ->
  greedy_assignment geodesic_km self time_window_days vessel_speed_knots
                    vessel_day_rate now sites st = Ok st.
Proof.
  intro H. destruct sites as [| site rest]; [reflexivity |]. cbn.
  apply Qle_bool_iff in H. now rewrite H.
Qed.

Lemma sites_sorted_cases :
  (sites_df self = [] /\ sites_sorted self prioritize_by = Raise KeyError) \/
  (sites_df self <> [] /\ exists sorted, sites_sorted self prioritize_by = Ok sorted).
Proof.
  unfold sites_sorted. destruct (sites_df self) as [| s rest].
  - left. now split.
  - right. split; [discriminate |]. cbn [column bind].
    destruct (String.eqb prioritize_by "score"); eauto.
Qed.

(** C3. With a budget of zero the scheduler returns no plan: the
    statistics block divides the total cost by the budget and raises
    [ZeroDivisionError] whenever the robot and site lists are not empty
    (and [KeyError] is raised before when one of them is empty). *)
Theorem zero_budget_raises :
  budget_usd == 0 ->
  (exists e,
     greedy_mission_scheduler geodesic_km self time_window_days budget_usd
       vessel_speed_knots vessel_day_rate prioritize_by now = Raise e) /\
  (robots_df self <> [] -> sites_df self <> [] ->
   greedy_mission_scheduler geodesic_km self time_window_days budget_usd
     vessel_speed_knots vessel_day_rate prioritize_by now = Raise ZeroDivisionError).
Proof.
  intro Hzero. unfold greedy_mission_scheduler.
  destruct (robots_df self) as [| r robots] eqn:Erobots.
  { split; [now exists KeyError | intros H; now destruct H]. }
  cbn [column bind].
  destruct sites_sorted_cases as [[Esites ->] | [Nsites [sorted ->]]].
  { split; [now exists KeyError | intros _ H; now destruct H]. }
  cbn [bind].
  rewrite greedy_assignment_no_budget by (cbn; lra).
  cbn [bind].
  assert (E : compute_statistics self budget_usd
                (mkLoopState [] budget_usd (initial_schedules self now))
              = Raise ZeroDivisionError).
  { unfold compute_statistics. cbn [st_missions remaining_budget map].
    destruct (sites_df self) as [| s rest]; [contradiction |].
    assert (E1 : py_div (inject_Z (Z.of_nat (List.length (py_set []))))
                        (inject_Z (Z.of_nat (List.length (s :: rest))))
                 = Ok (inject_Z (Z.of_nat (List.length (py_set [])))
                       / inject_Z (Z.of_nat (List.length (s :: rest))))).
    { unfold py_div. destruct (Qeq_bool _ 0) eqn:E0; [| reflexivity].
      apply Qeq_bool_iff in E0. cbn [List.length] in E0.
      unfold Qeq in E0. cbn in E0. lia. }
    rewrite E1. cbn [bind]. unfold py_div.
    assert (E2 : Qeq_bool budget_usd 0 = true) by now apply Qeq_bool_iff.
    now rewrite E2. }
  rewrite E. cbn [bind].
  split; [now exists ZeroDivisionError | reflexivity].
Qed.

End SchedulerInvariants.

Section BudgetExamples.

Import Optimizer.

Lemma scheduled_cost_within_budget_witness :
  exists plan,
    Examples.run_three_sites = Ok plan /\
    Qsum (map cost_usd (missions plan))
    <= 10000000
       + (1 # 200) * inject_Z (Z.of_nat (List.length (missions plan))).
Proof.
  eassert (E : Examples.run_three_sites = Ok _) by (vm_compute; reflexivity).
  eexists. split; [exact E |].
  refine (proj1 (scheduled_cost_within_budget _ _ _ _ _ _ _ _ _ _ E)).
  discriminate.
Defined.

(** C1, as stated, fails: with a budget of 100000.0078125 that the single
    mission uses up exactly, the mission's [cost_usd] is 100000.01. *)
Lemma scheduled_cost_exceeds_budget :
  exists plan,
    Examples.run_exact_budget = Ok plan /\
    Qsum (map cost_usd (missions plan)) == 10000001 # 100 /\
    ~ Qsum (map cost_usd (missions plan)) <= 12800001 # 128.
Proof.
  eassert (E : Examples.run_exact_budget = Ok _) by (vm_compute; reflexivity).
  eexists. split; [exact E |]. split; [reflexivity |].
  intro H. apply Qle_bool_iff in H. vm_compute in H. discriminate.
Qed.

End BudgetExamples.

Section SchedulerExamples.

Import Optimizer SchedulerSpec.




Lemma zero_budget_raises_witness :
  Examples.run_zero_budget = Raise ZeroDivisionError.
Proof.
  refine (proj2 (zero_budget_raises Examples.colocated_km
                   (mkOptimizer [Examples.robot_1]
                      [Examples.site_a; Examples.site_b])
                   180 0 12 75000 "score" 0 _) _ _);
    [reflexivity | discriminate | discriminate].
Defined.

(** C10 (amended). With an empty site list the scheduler returns no plan
    and raises [KeyError]: the site frame has no column to sort by (and
    with an empty robot list the robot frame has no status column), so the
    statistics block and its division by the number of sites are never
    reached. *)
Theorem empty_site_list_raises_key_error
    (geodesic_km : Q -> Q -> Q -> Q -> result Q) (robots : list Robot)
    (time_window_days : Z) (budget_usd vessel_speed_knots vessel_day_rate : Q)
    (prioritize_by : string) (now : Z) :
  greedy_mission_scheduler geodesic_km (mkOptimizer robots [])
    time_window_days budget_usd vessel_speed_knots vessel_day_rate
    prioritize_by now
  = Raise KeyError.
Proof.
  unfold greedy_mission_scheduler. cbn [robots_df].
  destruct robots as [| r robots]; reflexivity.
Qed.

(** C10, as stated, fails: the exception raised on an empty site list is
    not [ZeroDivisionError]. *)
Lemma empty_site_list_not_zero_division :
  Examples.run_no_site = Raise KeyError /\
  Examples.run_no_site <> Raise ZeroDivisionError.
Proof. split; [reflexivity | discriminate]. Qed.

End SchedulerExamples.

(* ================================================================== *)
(** ** Economic viability and priority tiers *)

Section Economics.

Import Scoring.

Lemma py_round_nonneg (x : Q) (n : nat) : 0 <= x -> 0 <= py_round x n.
Proof.
  intro H. apply Qle_trans with (py_round (inject_Z 0) n).
  - apply Qle_lteq. right. symmetry. apply py_round_integer.
  - now apply py_round_monotone.
Qed.

Lemma py_round_nonpos (x : Q) (n : nat) : x <= 0 -> py_round x n <= 0.
Proof.
  intro H. apply Qle_trans with (py_round (inject_Z 0) n).
  - now apply py_round_monotone.
  - apply Qle_lteq. right. apply py_round_integer.
Qed.

Lemma py_round_eq (x y : Q) (n : nat) : x == y -> py_round x n = py_round y n.
Proof.
  intro E. unfold py_round. f_equal. f_equal.
  apply round_half_even_comp. now rewrite E.
Qed.

Lemma fold_left_Qplus_acc (l : list Q) :
  forall acc, fold_left Qplus l acc == acc + fold_left Qplus l 0.
Proof.
  induction l as [| x l IH]; intro acc; cbn [fold_left]; [lra |].
  rewrite IH, (IH (0 + x)). lra.
Qed.

Lemma py_sum_cons (x : Q) (l : list Q) : py_sum (x :: l) == x + py_sum l.
Proof.
  unfold py_sum. cbn [fold_left]. rewrite fold_left_Qplus_acc. lra.
Qed.


(** The discounted terms of consecutive years, when the discount base is
    not zero. *)
Lemma discounted_terms (a r : Q) (lo : Z) :
  ~ 1 + r == 0 ->
  forall n k,
  exists terms,
    map_result (fun year => py_div a (Qpower (1 + r) year))
               (map (fun i => (lo + Z.of_nat i)%Z) (seq k n)) = Ok terms /\
    py_sum terms == a * annuity_from r (lo + Z.of_nat k) n.
Proof.
  intros Hr n. induction n as [| n IH]; intro k.
  - exists []. split; [reflexivity |]. unfold py_sum. cbn. lra.
  - destruct (IH (S k)) as (terms & E & Hsum).
    exists (a / (1 + r) ^ (lo + Z.of_nat k) :: terms). split.
    + cbn [seq map map_result]. unfold py_div at 1.
      destruct (Qeq_bool ((1 + r) ^ (lo + Z.of_nat k)) 0) eqn:E0.
      * apply Qeq_bool_iff in E0. now apply Qpower_not_0 in E0.
      * cbn [bind]. now rewrite E.
    + rewrite py_sum_cons, Hsum. cbn [annuity_from].
      replace (lo + Z.of_nat (S k))%Z with (lo + Z.of_nat k + 1)%Z by lia.
      field. now apply Qpower_not_0.
Qed.

Lemma py_range_from_1 (n : Z) :
  py_range 1 (n + 1) = map (fun i => (1 + Z.of_nat i)%Z) (seq 0 (Z.to_nat n)).
Proof. unfold py_range. now rewrite Z.add_simpl_r. Qed.

Lemma net_present_value_factor (a r : Q) (n : Z) :
  ~ 1 + r == 0 ->
  exists v, net_present_value a r n = Ok v /\
            v == a * annuity_from r 1 (Z.to_nat n).
Proof.
  intro Hr. unfold net_present_value. rewrite py_range_from_1.
  destruct (discounted_terms a r 1 Hr (Z.to_nat n) 0) as (terms & -> & Hsum).
  exists (py_sum terms). split; [reflexivity | exact Hsum].
Qed.


Lemma annuity_nonneg (r : Q) (n : nat) :
  0 < 1 + r -> forall y, 0 <= annuity_from r y n.
Proof.
  intro Hr. induction n as [| n IH]; intro y; cbn [annuity_from]; [lra |].
  pose proof (Qpower_0_lt (1 + r) y Hr) as Hp.
  assert (0 < 1 / (1 + r) ^ y) by (apply Qlt_shift_div_l; lra).
  specialize (IH (y + 1)%Z). lra.
Qed.


Lemma annuity_zero_rate (r : Q) (n : nat) :
  r == 0 -> forall y, annuity_from r y n == inject_Z (Z.of_nat n).
Proof.
  intro Hr. induction n as [| n IH]; intro y; [reflexivity |].
  cbn [annuity_from]. rewrite IH, Nat2Z.inj_succ, <- Z.add_1_l, inject_Z_plus.
  assert (E : (1 + r) ^ y == 1).
  { transitivity (1 ^ y); [| apply Qpower_1].
    apply Qpower_comp; [lra | reflexivity]. }
  rewrite E. change (inject_Z 1) with 1. field.
Qed.

Lemma Qlt_bool_iff (x y : Q) : Qlt_bool x y = true <-> x < y.
Proof.
  unfold Qlt_bool. rewrite negb_true_iff.
  split.
  - intro H. apply Qnot_le_lt. intro L. apply Qle_bool_iff in L. congruence.
  - intro H. destruct (Qle_bool y x) eqn:E; [| reflexivity].
    apply Qle_bool_iff in E. lra.
Qed.

Lemma Qlt_bool_false (x y : Q) : Qlt_bool x y = false <-> y <= x.
Proof.
  unfold Qlt_bool. rewrite negb_false_iff. apply Qle_bool_iff.
Qed.

Lemma Qle_bool_false (x y : Q) : Qle_bool x y = false <-> y < x.
Proof.
  split.
  - intro H. apply Qnot_le_lt. intro L. apply Qle_bool_iff in L. congruence.
  - intro H. destruct (Qle_bool x y) eqn:E; [| reflexivity].
    apply Qle_bool_iff in E. lra.
Qed.

Lemma py_div_nonzero (a b : Q) : ~ b == 0 -> py_div a b = Ok (a / b).
Proof.
  intro H. unfold py_div. destruct (Qeq_bool b 0) eqn:E; [| reflexivity].
  apply Qeq_bool_iff in E. contradiction.
Qed.

Lemma py_div_zero (a b : Q) : b == 0 -> py_div a b = Raise ZeroDivisionError.
Proof.
  intro H. unfold py_div. apply Qeq_bool_iff in H. now rewrite H.
Qed.

Lemma inject_Z_nonzero (z : Z) : z <> 0%Z -> ~ inject_Z z == 0.
Proof.
  intros H E. unfold Qeq in E. cbn in E. lia.
Qed.



(** What a returned evaluation holds, in terms of the unrounded profit per
    ton and the annuity factor. *)
Lemma economic_viability_returns (site_data : Site)
    (extraction refining transport tonnage price discount_rate : Q)
    (project_years : Z) (v : EconomicViability) :
  (1 <= project_years)%Z -> ~ 1 + discount_rate == 0 ->
  calculate_economic_viability site_data extraction refining transport
    tonnage price discount_rate project_years = Ok v ->
  let profit :=
    effective_price site_data price
    - adjusted_cost_per_ton site_data extraction refining transport in
  let total_costs :=
    tonnage * adjusted_cost_per_ton site_data extraction refining transport in
  is_viable v = Qlt_bool 0 profit /\
  profit_per_ton v = py_round profit 2 /\
  annual_profit_millions v
  = py_round (tonnage / inject_Z project_years * profit / 1000000) 2 /\
  npv_millions v
  = py_round (tonnage / inject_Z project_years * profit
              * annuity_from discount_rate 1 (Z.to_nat project_years)
              / 1000000) 2 /\
  roi_percent v
  = py_round (if Qlt_bool 0 total_costs
              then tonnage * profit / total_costs * 100 else 0) 2.
Proof.
  intros Hn Hr. unfold calculate_economic_viability.
  rewrite py_div_nonzero by (apply inject_Z_nonzero; lia). cbn [bind].
  destruct (net_present_value_factor
              (tonnage / inject_Z project_years
                 * effective_price site_data price
               - tonnage / inject_Z project_years
                 * adjusted_cost_per_ton site_data extraction refining
                                         transport)
              discount_rate project_years Hr) as (npv & -> & Hnpv).
  cbn [bind]. intros [= <-].
  cbn [is_viable profit_per_ton annual_profit_millions npv_millions
       roi_percent].
  pose proof (inject_Z_nonzero project_years ltac:(lia)) as Hy.
  repeat split.
  - apply py_round_eq. field. exact Hy.
  - apply py_round_eq. rewrite Hnpv. field. exact Hy.
  - apply py_round_eq.
    destruct (Qlt_bool 0 _); [| reflexivity].
    apply Qmult_comp; [| reflexivity]. apply Qdiv_comp; [ring | reflexivity].
Qed.

(** X2. For a horizon of at least one year, a non-negative tonnage and a
    discount rate above -1: a viable site has non-negative profit per ton,
    annual profit, NPV and ROI; a site that is not viable has non-positive
    ones. *)
Theorem viability_fixes_signs (site_data : Site)
    (extraction refining transport tonnage price discount_rate : Q)
    (project_years : Z) (v : EconomicViability) :
  (1 <= project_years)%Z -> 0 <= tonnage -> - (1) < discount_rate ->
  calculate_economic_viability site_data extraction refining transport
    tonnage price discount_rate project_years = Ok v ->
  (is_viable v = true ->
     0 <= profit_per_ton v /\ 0 <= annual_profit_millions v /\
     0 <= npv_millions v /\ 0 <= roi_percent v) /\
  (is_viable v = false ->
     profit_per_ton v <= 0 /\ annual_profit_millions v <= 0 /\
     npv_millions v <= 0 /\ roi_percent v <= 0).
Proof.
  intros Hn Hton Hr Hv.
  assert (Hbase : 0 < 1 + discount_rate) by lra.
  apply economic_viability_returns in Hv; [| exact Hn | lra].
  cbv zeta in Hv. destruct Hv as (-> & -> & -> & -> & ->).
  set (profit := effective_price site_data price
                 - adjusted_cost_per_ton site_data extraction refining transport).
  set (costs := tonnage * adjusted_cost_per_ton site_data extraction
                                                refining transport).
  pose proof (annuity_nonneg discount_rate (Z.to_nat project_years) Hbase 1)
    as Hann.
  set (ann := annuity_from discount_rate 1 (Z.to_nat project_years)) in *.
  assert (Hyears : 0 < inject_Z project_years).
  { change 0 with (inject_Z 0). rewrite <- Zlt_Qlt. lia. }
  assert (Hat : 0 <= tonnage / inject_Z project_years)
    by (apply Qle_shift_div_l; lra).
  set (at_ := tonnage / inject_Z project_years) in *.
  split; intro Hviable.
  - apply Qlt_bool_iff in Hviable.
    assert (H1 : 0 <= at_ * profit) by (apply Qmult_le_0_compat; lra).
    assert (H2 : 0 <= at_ * profit * ann) by (apply Qmult_le_0_compat; lra).
    assert (H3 : 0 <= tonnage * profit) by (apply Qmult_le_0_compat; lra).
    repeat split; apply py_round_nonneg; try lra.
    + apply Qle_shift_div_l; lra.
    + apply Qle_shift_div_l; lra.
    + destruct (Qlt_bool 0 costs) eqn:E; [| lra].
      apply Qlt_bool_iff in E.
      assert (0 <= tonnage * profit / costs) by (apply Qle_shift_div_l; lra).
      lra.
  - apply Qlt_bool_false in Hviable.
    assert (H1 : 0 <= at_ * - profit) by (apply Qmult_le_0_compat; lra).
    assert (H2 : 0 <= at_ * - profit * ann) by (apply Qmult_le_0_compat; lra).
    assert (H3 : 0 <= tonnage * - profit) by (apply Qmult_le_0_compat; lra).
    repeat split; apply py_round_nonpos; try lra.
    + apply Qle_shift_div_r; lra.
    + apply Qle_shift_div_r; lra.
    + destruct (Qlt_bool 0 costs) eqn:E; [| lra].
      apply Qlt_bool_iff in E.
      assert (tonnage * profit / costs <= 0) by (apply Qle_shift_div_r; lra).
      lra.
Qed.

Lemma viability_fixes_signs_witness :
  exists v,
    calculate_economic_viability Examples.site_a 50 30 20 100000 8000
                                 (1 # 10) 10 = Ok v /\
    is_viable v = true /\
    0 <= profit_per_ton v /\ 0 <= annual_profit_millions v /\
    0 <= npv_millions v /\ 0 <= roi_percent v.
Proof.
  eassert (E : calculate_economic_viability Examples.site_a 50 30 20 100000
                 8000 (1 # 10) 10 = Ok _) by (vm_compute; reflexivity).
  eexists. split; [exact E |]. split; [reflexivity |].
  refine (proj1 (viability_fixes_signs _ _ _ _ _ _ _ _ _ _ _ _ E) _);
    [lia | discriminate | reflexivity | reflexivity].
Defined.

(** X3. At a discount rate of zero and a horizon of at least one year the
    NPV is the undiscounted lifetime profit: tonnage times the unrounded
    profit per ton, in millions, rounded to two decimals. *)
Theorem npv_at_zero_discount (site_data : Site)
    (extraction refining transport tonnage price discount_rate : Q)
    (project_years : Z) (v : EconomicViability) :
  (1 <= project_years)%Z -> discount_rate == 0 ->
  calculate_economic_viability site_data extraction refining transport
    tonnage price discount_rate project_years = Ok v ->
  npv_millions v
  = py_round (tonnage
              * (effective_price site_data price
                 - adjusted_cost_per_ton site_data extraction refining transport)
              / 1000000) 2.
Proof.
  intros Hn Hr Hv.
  apply economic_viability_returns in Hv; [| exact Hn | lra].
  cbv zeta in Hv. destruct Hv as (_ & _ & _ & -> & _).
  apply py_round_eq.
  rewrite (annuity_zero_rate discount_rate (Z.to_nat project_years) Hr 1).
  rewrite Z2Nat.id by lia.
  field. apply inject_Z_nonzero. lia.
Qed.

Lemma npv_at_zero_discount_witness :
  exists v,
    calculate_economic_viability Examples.site_a 50 30 20 100000 8000 0 10
    = Ok v /\
    npv_millions v
    = py_round (100000
                * (effective_price Examples.site_a 8000
                   - adjusted_cost_per_ton Examples.site_a 50 30 20)
                / 1000000) 2.
Proof.
  eassert (E : calculate_economic_viability Examples.site_a 50 30 20 100000
                 8000 0 10 = Ok _) by (vm_compute; reflexivity).
  eexists. split; [exact E |].
  refine (npv_at_zero_discount _ _ _ _ _ _ _ _ _ _ _ E);
    [lia | reflexivity].
Defined.



(** X5. Composition of the evaluation with the tier: a site whose
    effective price does not exceed its adjusted cost per ton is placed in
    the tier "Not Viable" with its colour whatever its composite score,
    and no other site is. *)
Theorem not_viable_iff_no_profit (site_data : Site)
    (extraction refining transport tonnage price discount_rate : Q)
    (project_years : Z) (v : EconomicViability) (composite : Q) :
  calculate_economic_viability site_data extraction refining transport
    tonnage price discount_rate project_years = Ok v ->
  (effective_price site_data price
   <= adjusted_cost_per_ton site_data extraction refining transport ->
   categorize_priority composite v = ("Not Viable", "#d62728")%string) /\
  (adjusted_cost_per_ton site_data extraction refining transport
   < effective_price site_data price ->
   fst (categorize_priority composite v) <> "Not Viable"%string).
Proof.
  unfold calculate_economic_viability.
  destruct (py_div _ _); [| discriminate]. cbn [bind].
  destruct (net_present_value _ _ _); [| discriminate]. cbn [bind].
  intros [= <-]. unfold categorize_priority. cbn [is_viable roi_percent].
  split; intro H.
  - assert (E : Qlt_bool 0 (effective_price site_data price
                            - adjusted_cost_per_ton site_data extraction
                                                    refining transport) = false)
      by (apply Qlt_bool_false; lra).
    now rewrite E.
  - assert (E : Qlt_bool 0 (effective_price site_data price
                            - adjusted_cost_per_ton site_data extraction
                                                    refining transport) = true)
      by (apply Qlt_bool_iff; lra).
    rewrite E. cbn [negb].
    repeat match goal with
           | |- context [if ?b then _ else _] => destruct b
           end; discriminate.
Qed.

Lemma not_viable_iff_no_profit_witness :
  exists v,
    calculate_economic_viability Examples.site_a 50 30 20 100000 10
                                 (1 # 10) 10 = Ok v /\
    categorize_priority 90 v = ("Not Viable", "#d62728")%string.
Proof.
  eassert (E : calculate_economic_viability Examples.site_a 50 30 20 100000
                 10 (1 # 10) 10 = Ok _) by (vm_compute; reflexivity).
  eexists. split; [exact E |].
  refine (proj1 (not_viable_iff_no_profit _ _ _ _ _ _ _ _ _ 90 E) _).
  discriminate.
Defined.

(** X6. Among viable evaluations the tier never drops when the composite
    score and the ROI both grow: the rank of the tier (Low Priority,
    Further Study Needed, Medium Priority, High Priority) is monotone. *)
Theorem priority_tier_monotone (s1 s2 : Q) (v1 v2 : EconomicViability) :
  is_viable v1 = true -> is_viable v2 = true ->
  s1 <= s2 -> roi_percent v1 <= roi_percent v2 ->
  (tier_rank (fst (categorize_priority s1 v1))
   <= tier_rank (fst (categorize_priority s2 v2)))%nat.
Proof.
  intros V1 V2 Hs Hroi. unfold categorize_priority. rewrite V1, V2.
  cbn [negb].
  destruct (Qle_bool 70 s1) eqn:A1; destruct (Qlt_bool 50 (roi_percent v1)) eqn:B1;
  destruct (Qle_bool 50 s1) eqn:C1; destruct (Qlt_bool 25 (roi_percent v1)) eqn:D1;
  destruct (Qle_bool 35 s1) eqn:F1;
  destruct (Qle_bool 70 s2) eqn:A2; destruct (Qlt_bool 50 (roi_percent v2)) eqn:B2;
  destruct (Qle_bool 50 s2) eqn:C2; destruct (Qlt_bool 25 (roi_percent v2)) eqn:D2;
  destruct (Qle_bool 35 s2) eqn:F2;
  cbn; try lia; exfalso;
  repeat match goal with
         | H : Qle_bool _ _ = true |- _ => apply Qle_bool_iff in H
         | H : Qle_bool _ _ = false |- _ => apply Qle_bool_false in H
         | H : Qlt_bool _ _ = true |- _ => apply Qlt_bool_iff in H
         | H : Qlt_bool _ _ = false |- _ => apply Qlt_bool_false in H
         end; lra.
Qed.

Lemma priority_tier_monotone_witness :
  exists v,
    calculate_economic_viability Examples.site_a 50 30 20 100000 8000
                                 (1 # 10) 10 = Ok v /\
    (tier_rank (fst (categorize_priority 40 v))
     <= tier_rank (fst (categorize_priority 80 v)))%nat.
Proof.
  eassert (E : calculate_economic_viability Examples.site_a 50 30 20 100000
                 8000 (1 # 10) 10 = Ok _) by (vm_compute; reflexivity).
  eexists. split; [exact E |].
  apply priority_tier_monotone;
    [reflexivity | reflexivity | discriminate | apply Qle_refl].
Defined.

End Economics.

(* ================================================================== *)
(** ** Sorting by a key *)

Section SortValues.

Context {A : Type} (key : A -> Q).

Lemma insert_desc_perm (x : A) (l : list A) :
  Permutation (insert_desc key x l) (x :: l).
Proof.
  induction l as [| y l IH]; cbn; [reflexivity |].
  destruct (Qle_bool (key y) (key x)); [reflexivity |].
  rewrite IH. apply perm_swap.
Qed.

Lemma sort_values_desc_perm (df : list A) :
  Permutation (sort_values_desc key df) df.
Proof.
  induction df as [| x df IH]; cbn; [reflexivity |].
  rewrite insert_desc_perm. now constructor.
Qed.

Lemma insert_desc_sorted (x : A) (l : list A) :
  StronglySorted (fun a b => key b <= key a) l ->
  StronglySorted (fun a b => key b <= key a) (insert_desc key x l).
Proof.
  induction 1 as [| y l Hl IH Hy]; cbn.
  - repeat constructor.
  - destruct (Qle_bool (key y) (key x)) eqn:E.
    + apply Qle_bool_iff in E. constructor; [now constructor |].
      constructor; [exact E |].
      eapply Forall_impl; [| exact Hy]. cbn. intros z Hz. lra.
    + apply Qle_bool_false in E. constructor; [exact IH |].
      apply Forall_forall. intros z Hz.
      apply (Permutation_in _ (insert_desc_perm x l)) in Hz.
      destruct Hz as [<- | Hz]; [lra |].
      rewrite Forall_forall in Hy. now apply Hy.
Qed.

Lemma sort_values_desc_sorted (df : list A) :
  StronglySorted (fun a b => key b <= key a) (sort_values_desc key df).
Proof.
  induction df as [| x df IH]; cbn; [constructor |].
  now apply insert_desc_sorted.
Qed.

Lemma sort_values_desc_length (df : list A) :
  List.length (sort_values_desc key df) = List.length df.
Proof. apply Permutation_length, sort_values_desc_perm. Qed.

(** The first [n] rows of a frame sorted by descending key are at least as
    high as every row left out. *)
Lemma firstn_sorted_dominates (l : list A) (n : nat) :
  StronglySorted (fun a b => key b <= key a) l ->
  forall a b, In a (firstn n l) -> In b (skipn n l) -> key b <= key a.
Proof.
  intro Hs. revert n.
  induction Hs as [| x l Hl IH Hx]; intros n a b Ha Hb.
  - destruct n; destruct Ha.
  - destruct n as [| n]; [destruct Ha |].
    cbn in Ha, Hb. destruct Ha as [<- | Ha].
    + rewrite Forall_forall in Hx. apply Hx.
      rewrite <- (firstn_skipn n l). apply in_or_app. now right.
    + eapply IH; eauto.
Qed.

End SortValues.

(* ================================================================== *)
(** ** Weight normalisation and scored frames *)

Section ScoredFrames.

Import Scoring.

(** X7. The weight normalisation of the application always yields a weight
    set the engine accepts: whatever the raw weights, the scorer is
    constructed, holds the normalised weights, and these sum to 1. *)
Theorem make_scorer_always_succeeds (raw_weights : Weights) :
  exists self,
    App.make_scorer raw_weights = Ok self /\
    weights self = App.normalize_raw_weights raw_weights /\
    Qsum (values (weights self)) == 1.
Proof.
  assert (Hsum : Qsum (values (App.normalize_raw_weights raw_weights)) == 1).
  { unfold App.normalize_raw_weights.
    destruct (Qlt_bool 0 (Qsum (values raw_weights))) eqn:E;
      [| reflexivity].
    apply Qlt_bool_iff in E. destruct raw_weights as [w1 w2 w3 w4 w5 w6 w7].
    unfold values, Qsum in *.
    cbn [fold_right w_mineral_concentration w_depth w_distance_from_port
         w_environmental_sensitivity w_estimated_value w_terrain_difficulty
         w_survey_data_quality] in *.
    field. lra. }
  exists (mkEngine (App.normalize_raw_weights raw_weights)).
  split; [| split; [reflexivity | exact Hsum]].
  unfold App.make_scorer. rewrite init_Some.
  assert (E : np_isclose (Qsum (values (App.normalize_raw_weights raw_weights)))
                         1 np_default_rtol (1 # 100) = true).
  { apply isclose_one_iff, Qabs_Qle_condition. lra. }
  now rewrite E.
Qed.


Lemma score_sites_rows (self : Engine) (s0 : Site) (rest : list Site) :
  exists r1 r2 r3 r4 r5 r6 r7,
    score_sites self (s0 :: rest)
    = Ok (sort_values_desc composite_score
            (map (score_row self r1 r2 r3 r4 r5 r6 r7) (s0 :: rest))) /\
    forall s, In s (s0 :: rest) ->
      fst r1 <= mineral_concentration s <= snd r1 /\
      fst r2 <= depth_m s <= snd r2 /\
      fst r3 <= distance_from_port_km s <= snd r3 /\
      fst r4 <= environmental_sensitivity s <= snd r4 /\
      fst r5 <= estimated_value_millions s <= snd r5 /\
      fst r6 <= terrain_difficulty s <= snd r6 /\
      fst r7 <= survey_data_quality s <= snd r7.
Proof.
  destruct (column_range_spec mineral_concentration s0 rest) as (r1 & E1 & B1).
  destruct (column_range_spec depth_m s0 rest) as (r2 & E2 & B2).
  destruct (column_range_spec distance_from_port_km s0 rest) as (r3 & E3 & B3).
  destruct (column_range_spec environmental_sensitivity s0 rest) as (r4 & E4 & B4).
  destruct (column_range_spec estimated_value_millions s0 rest) as (r5 & E5 & B5).
  destruct (column_range_spec terrain_difficulty s0 rest) as (r6 & E6 & B6).
  destruct (column_range_spec survey_data_quality s0 rest) as (r7 & E7 & B7).
  exists r1, r2, r3, r4, r5, r6, r7. split.
  - unfold score_sites. rewrite E1, E2, E3, E4, E5, E6, E7. reflexivity.
  - intros s Hs. repeat split;
      first [apply B1 | apply B2 | apply B3 | apply B4 | apply B5 | apply B6
            | apply B7]; exact Hs.
Qed.



(** X9. [score_sites] raises [KeyError] on an empty list; on a non-empty
    list it returns one row per site, the sites of the rows being a
    rearrangement of the input, in order of non-increasing composite
    score. *)
Theorem score_sites_shape (self : Engine) (sites : list Site) :
  (sites = [] -> score_sites self sites = Raise KeyError) /\
  (sites <> [] ->
   exists scored,
     score_sites self sites = Ok scored /\
     List.length scored = List.length sites /\
     Permutation (map site scored) sites /\
     StronglySorted (fun a b => composite_score b <= composite_score a) scored).
Proof.
  split; [intros ->; reflexivity |].
  intro Hne. destruct sites as [| s0 rest]; [contradiction |].
  destruct (score_sites_rows self s0 rest)
    as (r1 & r2 & r3 & r4 & r5 & r6 & r7 & -> & _).
  eexists. split; [reflexivity |]. split; [| split].
  - now rewrite sort_values_desc_length, length_map.
  - rewrite (Permutation_map site (sort_values_desc_perm composite_score _)).
    rewrite map_map. cbn [site score_row]. now rewrite map_id.
  - apply sort_values_desc_sorted.
Qed.

Lemma score_sites_shape_witness :
  exists scored,
    score_sites (mkEngine DEFAULT_WEIGHTS) [Examples.site_a; Examples.site_b]
    = Ok scored /\
    List.length scored = 2%nat.
Proof.
  destruct (proj2 (score_sites_shape (mkEngine DEFAULT_WEIGHTS)
                     [Examples.site_a; Examples.site_b]))
    as (scored & E & L & _); [discriminate |].
  exists scored. split; [exact E | exact L].
Defined.

(** X10. A population of one site gives no criterion any spread: the site
    gets the neutral 50 on each of the seven criteria, and its composite
    score is 50 times the weight sum, rounded; that is 50 when the weights
    sum to 1. *)
Theorem single_site_scores_neutral (self : Engine) (s : Site) :
  exists r,
    score_sites self [s] = Ok [r] /\
    site r = s /\
    mineral_score r = 50 /\ depth_score r = 50 /\ distance_score r = 50 /\
    environmental_score r = 50 /\ value_score r = 50 /\
    terrain_score r = 50 /\ quality_score r = 50 /\
    composite_score r = py_round (50 * Qsum (values (weights self))) 2 /\
    (Qsum (values (weights self)) == 1 -> composite_score r == 50).
Proof.
  assert (N : forall x inverse, normalize_score x x x inverse = 50).
  { intros x inverse. unfold normalize_score.
    assert (E : Qeq_bool x x = true) by (apply Qeq_bool_iff; reflexivity).
    now rewrite E. }
  destruct self as [[w1 w2 w3 w4 w5 w6 w7]].
  assert (Hsum : 50 * w1 + 50 * w2 + 50 * w3 + 50 * w4 + 50 * w5 + 50 * w6
                 + 50 * w7
                 == 50 * Qsum (values (mkWeights w1 w2 w3 w4 w5 w6 w7))).
  { unfold values, Qsum.
    cbn [fold_right w_mineral_concentration w_depth w_distance_from_port
         w_environmental_sensitivity w_estimated_value w_terrain_difficulty
         w_survey_data_quality].
    ring. }
  cbn [weights].
  exists (mkScoredSite s 50 50 50 50 50 50 50
            (py_round (50 * w1 + 50 * w2 + 50 * w3 + 50 * w4 + 50 * w5
                       + 50 * w6 + 50 * w7) 2)).
  split.
  - unfold score_sites, column_range, col_min, col_max, score_row.
    cbn [map fold_left bind sort_values_desc fold_right insert_desc fst snd
         weights w_mineral_concentration w_depth w_distance_from_port
         w_environmental_sensitivity w_estimated_value w_terrain_difficulty
         w_survey_data_quality].
    now rewrite !N.
  - cbn [site mineral_score depth_score distance_score environmental_score
         value_score terrain_score quality_score composite_score].
    repeat split.
    + now apply py_round_eq.
    + intro H1.
      assert (E : py_round 50 2 == 50) by reflexivity.
      apply Qle_antisym.
      * apply Qle_trans with (py_round 50 2);
          [apply py_round_monotone; lra | now apply Qle_lteq; right].
      * apply Qle_trans with (py_round 50 2);
          [apply Qle_lteq; right; now symmetry | apply py_round_monotone; lra].
Qed.

Lemma single_site_scores_neutral_witness :
  exists r,
    score_sites (mkEngine DEFAULT_WEIGHTS) [Examples.site_a] = Ok [r] /\
    composite_score r == 50.
Proof.
  destruct (single_site_scores_neutral (mkEngine DEFAULT_WEIGHTS)
              Examples.site_a)
    as (r & E & _ & _ & _ & _ & _ & _ & _ & _ & _ & H).
  exists r. split; [exact E |]. apply H. reflexivity.
Defined.

End ScoredFrames.

(* ================================================================== *)
(** ** Sensor sets *)

Section SensorSets.

Import Matching.

Lemma set_update_In (l : list string) :
  forall (s : set string) (x : string),
    In x (set_update s l) <-> In x s \/ In x l.
Proof.
  unfold set_update.
  induction l as [| y l IH]; intros s x; cbn [fold_left].
  - cbn. tauto.
  - rewrite IH. unfold set_In. rewrite set_add_iff. cbn. intuition.
Qed.

Lemma py_set_In (l : list string) (x : string) : In x (py_set l) <-> In x l.
Proof.
  change (py_set l) with (set_update [] l). rewrite set_update_In. cbn. tauto.
Qed.

Lemma set_add_length (x : string) (s : set string) :
  (List.length (set_add string_dec x s) <= S (List.length s))%nat.
Proof.
  induction s as [| y s IH]; cbn; [lia |].
  destruct (string_dec x y); cbn; lia.
Qed.

Lemma set_diff_length (s t : set string) :
  (List.length (set_diff string_dec s t) <= List.length s)%nat.
Proof.
  induction s as [| y s IH]; cbn; [lia |].
  destruct (set_mem string_dec y t); [lia |].
  pose proof (set_add_length y (set_diff string_dec s t)). lia.
Qed.

Lemma add_required_In (mineral_type : string) :
  forall (required : set string) (x : string),
    In x (add_required required mineral_type) <->
    In x required \/
    exists entry, In entry SENSOR_REQUIREMENTS /\
                  str_contains (fst entry) mineral_type = true /\
                  In x (snd entry).
Proof.
  unfold add_required.
  induction SENSOR_REQUIREMENTS as [| e table IH]; intros required x;
    cbn [fold_left].
  - split; [tauto | intros [H | (e & [] & _)]; exact H].
  - rewrite IH. destruct (str_contains (fst e) mineral_type) eqn:E.
    + rewrite set_update_In. split.
      * intros [[H | H] | (e' & He' & Hc & Hx)];
          [now left | right; exists e; cbn; auto
          | right; exists e'; cbn; auto].
      * intros [H | (e' & [<- | He'] & Hc & Hx)];
          [left; now left | left; now right | right; eauto].
    + split.
      * intros [H | (e' & He' & Hc & Hx)];
          [now left | right; exists e'; cbn; auto].
      * intros [H | (e' & [<- | He'] & Hc & Hx)];
          [now left | congruence | right; eauto].
Qed.

Lemma fold_add_required_In (mineral_types : list string) :
  forall (required : set string) (x : string),
    In x (fold_left add_required mineral_types required) <->
    In x required \/
    exists mineral_type entry,
      In mineral_type mineral_types /\ In entry SENSOR_REQUIREMENTS /\
      str_contains (fst entry) mineral_type = true /\ In x (snd entry).
Proof.
  induction mineral_types as [| m l IH]; intros required x; cbn [fold_left].
  - split; [tauto | intros [H | (? & ? & [] & _)]; exact H].
  - rewrite IH, add_required_In. split.
    + intros [[H | (e & He & Hc & Hx)] | (m' & e & Hm & He & Hc & Hx)];
        [now left | right; exists m, e; cbn; auto
        | right; exists m', e; cbn; auto].
    + intros [H | (m' & e & [<- | Hm] & He & Hc & Hx)];
        [left; now left | left; right; eauto | right; eauto 6].
Qed.

(** The sensors a site requires: those listed under a key of the table
    that occurs in one of the site's mineral types. *)
Lemma required_sensors_of_In (site : Site) (x : string) :
  In x (required_sensors_of site) <->
  exists mineral_type entry,
    In mineral_type (mineral_types site) /\ In entry SENSOR_REQUIREMENTS /\
    str_contains (fst entry) mineral_type = true /\ In x (snd entry).
Proof.
  change (required_sensors_of site)
    with (fold_left add_required (mineral_types site) []).
  rewrite fold_add_required_In. cbn. tauto.
Qed.

Lemma check_sensor_compatibility_eq (robot : Robot) (site : Site) :
  let missing :=
    set_diff string_dec (required_sensors_of site) (py_set (sensors robot)) in
  fst (fst (check_sensor_compatibility robot site))
  = match missing with [] => true | _ => false end /\
  snd (check_sensor_compatibility robot site) = missing.
Proof.
  unfold check_sensor_compatibility.
  destruct (set_diff _ _ _); split; reflexivity.
Qed.

Lemma sensor_points_range (robot : Robot) (site : Site) :
  0 <= sensor_points robot site <= 40.
Proof.
  unfold sensor_points.
  destruct (check_sensor_compatibility_eq robot site) as [Eok Emiss].
  destruct (check_sensor_compatibility robot site) as [[sensor_ok msg] missing].
  cbn [fst snd] in Eok, Emiss.
  destruct sensor_ok; [lra |].
  destruct (0 <? List.length (required_sensors_of site))%nat eqn:Elen; [| lra].
  apply Nat.ltb_lt in Elen.
  pose proof (set_diff_length (required_sensors_of site)
                (py_set (sensors robot))) as Hlen.
  rewrite <- Emiss in Hlen.
  set (n := List.length (required_sensors_of site)) in *.
  set (m := List.length missing) in *.
  assert (Hn : 0 < inject_Z (Z.of_nat n)).
  { change 0 with (inject_Z 0). rewrite <- Zlt_Qlt. lia. }
  assert (H0 : 0 <= inject_Z (Z.of_nat n - Z.of_nat m)).
  { change 0 with (inject_Z 0). rewrite <- Zle_Qle. lia. }
  assert (H1 : inject_Z (Z.of_nat n - Z.of_nat m) <= inject_Z (Z.of_nat n)).
  { rewrite <- Zle_Qle. lia. }
  assert (0 <= inject_Z (Z.of_nat n - Z.of_nat m) / inject_Z (Z.of_nat n))
    by (apply Qle_shift_div_l; lra).
  assert (inject_Z (Z.of_nat n - Z.of_nat m) / inject_Z (Z.of_nat n) <= 1)
    by (apply Qle_shift_div_r; lra).
  lra.
Qed.

Lemma status_points_cases (robot : Robot) :
  (status robot = "Available"%string /\ status_points robot = 20 /\
   fst (check_status_compatibility robot) = true) \/
  (status robot <> "Available"%string /\ status_points robot = 0 /\
   fst (check_status_compatibility robot) = false).
Proof.
  unfold status_points, check_status_compatibility.
  destruct (String.eqb_spec (status robot) "Available") as [E | N].
  - left. repeat split; [exact E].
  - right. split; [exact N |].
    destruct (status robot =? "In Maintenance")%string;
      [| destruct (status robot =? "Deployed")%string;
         [| destruct (status robot =? "Retired")%string]];
      split; reflexivity.
Qed.

End SensorSets.

(* ================================================================== *)
(** ** Compatibility facets and the detailed comparison *)

Section Facets.

Import Matching.

Lemma iloc0_filter_spec {A : Type} (f : A -> bool) (df : list A) (x : A) :
  iloc0 (filter f df) = Ok x -> f x = true /\ In x df.
Proof.
  destruct (filter f df) as [| y rest] eqn:E; [discriminate |].
  intros [= ->].
  assert (H : In x (filter f df)) by (rewrite E; now left).
  apply filter_In in H. destruct H. now split.
Qed.

Lemma check_depth_fst (robot : Robot) (site : Site) :
  fst (check_depth_compatibility robot site)
  = Qle_bool (depth_m site) (max_depth_m robot * (9 # 10)).
Proof.
  unfold check_depth_compatibility. now destruct (Qle_bool _ _).
Qed.

Lemma depth_points_range (robot : Robot) (site : Site) :
  0 <= max_depth_m robot ->
  exists p, depth_points robot site = Ok p /\ 0 <= p <= 40.
Proof.
  intro Hmax. rewrite depth_points_eq.
  destruct (Qle_bool _ _) eqn:E.
  - exists 40. split; [reflexivity | lra].
  - apply Qle_bool_false in E.
    rewrite py_div_nonzero by lra. cbn [bind].
    eexists. split; [reflexivity |].
    assert (0 <= max_depth_m robot / depth_m site)
      by (apply Qle_shift_div_l; lra).
    split; [apply Q.min_glb; lra | apply Q.le_min_l].
Qed.

Lemma score_of_points (robot : Robot) (site : Site) (p : Q) :
  depth_points robot site = Ok p ->
  calculate_compatibility_score robot site
  = Ok (py_round (0 + p + sensor_points robot site + status_points robot) 2).
Proof.
  intro E. rewrite calculate_compatibility_score_eq, E. reflexivity.
Qed.

Lemma py_round_2_between (lo hi : Z) (x : Q) :
  inject_Z lo <= x <= inject_Z hi ->
  inject_Z lo <= py_round x 2 <= inject_Z hi.
Proof.
  intros [Hlo Hhi]. split.
  - apply Qle_trans with (py_round (inject_Z lo) 2).
    + apply Qle_lteq. right. symmetry. apply py_round_integer.
    + now apply py_round_monotone.
  - apply Qle_trans with (py_round (inject_Z hi) 2).
    + now apply py_round_monotone.
    + apply Qle_lteq. right. apply py_round_integer.
Qed.

(** X11. For a robot whose depth rating is not negative the compatibility
    score is defined for every site and lies in [0, 100]. *)
Theorem compatibility_score_in_range (robot : Robot) (site : Site) :
  0 <= max_depth_m robot ->
  exists s, calculate_compatibility_score robot site = Ok s /\ 0 <= s <= 100.
Proof.
  intro Hmax.
  destruct (depth_points_range robot site Hmax) as (p & Ep & Hp).
  rewrite (score_of_points robot site p Ep).
  eexists. split; [reflexivity |].
  pose proof (sensor_points_range robot site) as Hs.
  assert (Hst : 0 <= status_points robot <= 20).
  { destruct (status_points_cases robot) as [(_ & -> & _) | (_ & -> & _)]; lra. }
  apply (py_round_2_between 0 100). change (inject_Z 0) with 0.
  change (inject_Z 100) with 100. lra.
Qed.

Lemma compatibility_score_in_range_witness :
  exists s,
    calculate_compatibility_score Examples.robot_1 Examples.site_b = Ok s /\
    0 <= s <= 100.
Proof.
  apply compatibility_score_in_range. discriminate.
Defined.

(** X12. The sensors reported missing are exactly those listed in the
    requirement table under a key occurring in one of the site's mineral
    types and not carried by the robot; the sensor facet passes exactly
    when there is none. *)
Theorem missing_sensors_exact (robot : Robot) (site : Site) :
  (forall x,
     In x (snd (check_sensor_compatibility robot site)) <->
     (exists mineral_type entry,
        In mineral_type (mineral_types site) /\
        In entry SENSOR_REQUIREMENTS /\
        str_contains (fst entry) mineral_type = true /\ In x (snd entry)) /\
     ~ In x (sensors robot)) /\
  (fst (fst (check_sensor_compatibility robot site)) = true <->
   snd (check_sensor_compatibility robot site) = []).
Proof.
  destruct (check_sensor_compatibility_eq robot site) as [Eok Emiss].
  cbv zeta in Eok, Emiss. rewrite Eok, Emiss. split.
  - intro x.
    pose proof (set_diff_iff string_dec x (required_sensors_of site)
                  (py_set (sensors robot))) as H.
    unfold set_In in H. rewrite H, required_sensors_of_In, py_set_In.
    reflexivity.
  - destruct (set_diff _ _ _); split; congruence.
Qed.

(** X13. A site none of whose mineral types contains a key of the
    requirement table requires no sensor: every robot passes the sensor
    facet with nothing missing and gets the full 40 sensor points. *)
Theorem unlisted_minerals_need_no_sensor (robot : Robot) (site : Site) :
  (forall mineral_type entry,
     In mineral_type (mineral_types site) -> In entry SENSOR_REQUIREMENTS ->
     str_contains (fst entry) mineral_type = false) ->
  check_sensor_compatibility robot site
  = (true, "All required sensors present"%string, []) /\
  sensor_points robot site = 40.
Proof.
  intro Hnone.
  assert (Hreq : required_sensors_of site = []).
  { destruct (required_sensors_of site) as [| x l] eqn:E; [reflexivity |].
    assert (Hx : In x (required_sensors_of site)) by (rewrite E; now left).
    apply required_sensors_of_In in Hx.
    destruct Hx as (m & e & Hm & He & Hc & _).
    rewrite (Hnone m e Hm He) in Hc. discriminate. }
  assert (E : check_sensor_compatibility robot site
              = (true, "All required sensors present"%string, [])).
  { unfold check_sensor_compatibility. now rewrite Hreq. }
  split; [exact E |]. unfold sensor_points. now rewrite E.
Qed.

Lemma unlisted_minerals_need_no_sensor_witness :
  sensor_points Examples.robot_1
    (mkSite "SITE_X" "Unknown Field" 0 0 100 10 50 ["Manganese"%string]
            10 10 10 10) = 40.
Proof.
  refine (proj2 (unlisted_minerals_need_no_sensor Examples.robot_1 _ _)).
  intros m e [<- | []] He.
  repeat (destruct He as [<- | He]; [reflexivity |]). destruct He.
Defined.

(** What a returned detailed comparison holds. *)
Lemma detailed_compatibility_returns (self : RobotSiteMatcher)
    (robot_id' site_id' : string) (c : Compatibility) :
  get_detailed_compatibility self robot_id' site_id' = Ok c ->
  exists robot site,
    In robot (robots_df self) /\ robot_id robot = robot_id' /\
    In site (sites_df self) /\ site_id site = site_id' /\
    depth_compatible c = fst (check_depth_compatibility robot site) /\
    sensor_compatible c = fst (fst (check_sensor_compatibility robot site)) /\
    status_compatible c = fst (check_status_compatibility robot) /\
    calculate_compatibility_score robot site = Ok (compatibility_score c) /\
    overall_status c
    = (if depth_compatible c && sensor_compatible c && status_compatible c
       then "Fully Compatible"
       else if depth_compatible c && status_compatible c
            then "Partially Compatible" else "Incompatible")%string.
Proof.
  unfold get_detailed_compatibility.
  destruct (column robot_id (robots_df self)); [| discriminate]. cbn [bind].
  destruct (iloc0 (filter _ (robots_df self))) as [robot |] eqn:Er;
    [| discriminate].
  cbn [bind]. apply iloc0_filter_spec in Er. destruct Er as [Er Hr].
  apply String.eqb_eq in Er.
  destruct (column site_id (sites_df self)); [| discriminate]. cbn [bind].
  destruct (iloc0 (filter _ (sites_df self))) as [site |] eqn:Es;
    [| discriminate].
  cbn [bind]. apply iloc0_filter_spec in Es. destruct Es as [Es Hs].
  apply String.eqb_eq in Es.
  destruct (check_depth_compatibility robot site) as [depth_ok depth_msg] eqn:Ed.
  destruct (check_sensor_compatibility robot site)
    as [[sensor_ok sensor_msg] missing] eqn:Ese.
  destruct (check_status_compatibility robot) as [status_ok status_msg] eqn:Est.
  destruct (calculate_compatibility_score robot site) as [score |] eqn:Ec;
    [| discriminate].
  cbn [bind].
  intro H. exists robot, site.
  rewrite Ed, Ese, Est. cbn [fst snd].
  destruct (depth_ok && sensor_ok && status_ok) eqn:Efull;
    [| destruct (depth_ok && status_ok) eqn:Epart];
    injection H as <-; cbn; rewrite ?Efull, ?Epart; repeat split; auto.
Qed.

(** X14. In a returned detailed comparison the classification and the
    score agree: "Fully Compatible" comes with the score 100,
    "Partially Compatible" with a score in [60, 100], and a robot that
    fails the status facet is "Incompatible" with a score of at most 80. *)
Theorem classification_bounds_score (self : RobotSiteMatcher)
    (robot_id' site_id' : string) (c : Compatibility) :
  get_detailed_compatibility self robot_id' site_id' = Ok c ->
  (overall_status c = "Fully Compatible"%string ->
     compatibility_score c == 100) /\
  (overall_status c = "Partially Compatible"%string ->
     60 <= compatibility_score c <= 100) /\
  (status_compatible c = false ->
     overall_status c = "Incompatible"%string /\
     compatibility_score c <= 80).
Proof.
  intro H. apply detailed_compatibility_returns in H.
  destruct H as (robot & site & _ & _ & _ & _ & Ed & Es & Est & Ec & Eo).
  rewrite Eo. rewrite check_depth_fst in Ed.
  pose proof (sensor_points_range robot site) as Hsens.
  assert (Hdepth : depth_compatible c = true ->
                   depth_points robot site = Ok 40).
  { intro Hd. rewrite depth_points_eq. rewrite <- Ed, Hd. reflexivity. }
  assert (Hfull : sensor_compatible c = true -> sensor_points robot site = 40).
  { intro Hs. unfold sensor_points.
    destruct (check_sensor_compatibility robot site) as [[ok msg] missing].
    cbn [fst] in Es. rewrite <- Es, Hs. reflexivity. }
  assert (Hstat : status_compatible c = true -> status_points robot = 20).
  { intro Hs.
    destruct (status_points_cases robot) as [(_ & E & _) | (_ & _ & E)];
      [exact E | congruence]. }
  assert (Hstat0 : status_compatible c = false -> status_points robot = 0).
  { intro Hs.
    destruct (status_points_cases robot) as [(_ & _ & E) | (_ & E & _)];
      [congruence | exact E]. }
  destruct (depth_compatible c) eqn:Dc; destruct (sensor_compatible c) eqn:Sc;
    destruct (status_compatible c) eqn:Tc; cbn [andb];
    (split; [| split]); try discriminate; intros _.
  - rewrite (score_of_points robot site 40 (Hdepth eq_refl)) in Ec.
    injection Ec as <-. rewrite (Hfull eq_refl), (Hstat eq_refl).
    reflexivity.
  - split; [reflexivity |].
    rewrite (score_of_points robot site 40 (Hdepth eq_refl)) in Ec.
    injection Ec as <-. rewrite (Hstat0 eq_refl).
    apply (py_round_2_between 0 80). change (inject_Z 0) with 0.
    change (inject_Z 80) with 80. lra.
  - rewrite (score_of_points robot site 40 (Hdepth eq_refl)) in Ec.
    injection Ec as <-. rewrite (Hstat eq_refl).
    apply (py_round_2_between 60 100). change (inject_Z 60) with 60.
    change (inject_Z 100) with 100. lra.
  - split; [reflexivity |].
    rewrite (score_of_points robot site 40 (Hdepth eq_refl)) in Ec.
    injection Ec as <-. rewrite (Hstat0 eq_refl).
    apply (py_round_2_between 0 80). change (inject_Z 0) with 0.
    change (inject_Z 80) with 80. lra.
  - split; [reflexivity |].
    rewrite calculate_compatibility_score_eq in Ec.
    destruct (depth_points robot site) as [p |] eqn:Ep; [| discriminate].
    cbn [bind] in Ec. injection Ec as <-.
    pose proof (depth_points_le_40 robot site p Ep).
    rewrite (Hstat0 eq_refl).
    apply Qle_trans with (py_round 80 2);
      [apply py_round_monotone; lra | now apply Qle_lteq; right].
  - split; [reflexivity |].
    rewrite calculate_compatibility_score_eq in Ec.
    destruct (depth_points robot site) as [p |] eqn:Ep; [| discriminate].
    cbn [bind] in Ec. injection Ec as <-.
    pose proof (depth_points_le_40 robot site p Ep).
    rewrite (Hstat0 eq_refl).
    apply Qle_trans with (py_round 80 2);
      [apply py_round_monotone; lra | now apply Qle_lteq; right].
Qed.

Lemma classification_bounds_score_witness :
  exists c,
    get_detailed_compatibility Examples.matcher "ROBOT_1" "SITE_A" = Ok c /\
    overall_status c = "Fully Compatible"%string /\
    compatibility_score c == 100.
Proof.
  eassert (E : get_detailed_compatibility Examples.matcher "ROBOT_1" "SITE_A"
               = Ok _) by (vm_compute; reflexivity).
  eexists. split; [exact E |]. split; [reflexivity |].
  exact (proj1 (classification_bounds_score _ _ _ _ E) eq_refl).
Defined.

End Facets.

(* ================================================================== *)
(** ** Ranking queries *)

Section Rankings.

Import Matching.

Lemma map_result_ok {A B : Type} (f : A -> result B) (l : list A) :
  forall ys,
    map_result f l = Ok ys ->
    List.length ys = List.length l /\
    forall x, In x l -> exists y, f x = Ok y /\ In y ys.
Proof.
  induction l as [| a l IH]; cbn [map_result]; intros ys.
  - intros [= <-]. split; [reflexivity | intros x []].
  - destruct (f a) as [b |] eqn:Ea; [| discriminate]. cbn [bind].
    destruct (map_result f l) as [bs |]; [| discriminate]. cbn [bind].
    intros [= <-]. destruct (IH bs eq_refl) as [Hlen Hin].
    split; [cbn; now rewrite Hlen |].
    intros x [<- | Hx].
    + exists b. split; [exact Ea | now left].
    + destruct (Hin x Hx) as (y & Ey & Hy). exists y. split; [exact Ey | now right].
Qed.

Lemma StronglySorted_firstn {A : Type} (R : A -> A -> Prop) (l : list A) :
  StronglySorted R l -> forall n, StronglySorted R (firstn n l).
Proof.
  induction 1 as [| x l Hl IH Hx]; intro n.
  - rewrite firstn_nil. constructor.
  - destruct n as [| n]; cbn; [constructor |].
    constructor; [apply IH |].
    apply Forall_forall. intros y Hy. rewrite Forall_forall in Hx.
    apply Hx. rewrite <- (firstn_skipn n l). apply in_or_app. now left.
Qed.

(** Ranking by a score and keeping the first [n]: the result has
    [min n (length l)] entries in non-increasing order, and every
    candidate is either kept or scores no more than every entry kept. *)
Lemma top_n_spec {A B : Type} (f : A -> result B) (key : B -> Q)
    (l : list A) (n : Z) (best : list B) :
  (0 <= n)%Z ->
  (let* results := map_result f l in
   Ok (py_slice_to (sort_values_desc key results) n)) = Ok best ->
  List.length best = Nat.min (Z.to_nat n) (List.length l) /\
  StronglySorted (fun a b => key b <= key a) best /\
  forall x, In x l ->
    exists y, f x = Ok y /\
              (In y best \/ forall b, In b best -> key y <= key b).
Proof.
  intros Hn.
  destruct (map_result f l) as [ys |] eqn:E; [| discriminate]. cbn [bind].
  destruct (map_result_ok f l ys E) as [Hlen Hin].
  unfold py_slice_to.
  assert (En : (0 <=? n)%Z = true) by now apply Z.leb_le.
  rewrite En. intros [= <-].
  pose proof (sort_values_desc_sorted key ys) as Hsorted.
  split; [| split].
  - now rewrite length_firstn, sort_values_desc_length, Hlen.
  - now apply StronglySorted_firstn.
  - intros x Hx. destruct (Hin x Hx) as (y & Ey & Hy).
    exists y. split; [exact Ey |].
    apply (Permutation_in _ (Permutation_sym (sort_values_desc_perm key ys)))
      in Hy.
    rewrite <- (firstn_skipn (Z.to_nat n) (sort_values_desc key ys)) in Hy.
    apply in_app_or in Hy. destruct Hy as [Hy | Hy]; [now left |].
    right. intros b Hb.
    eapply firstn_sorted_dominates; eauto.
Qed.

(** X15. For a non-negative [top_n], a returned ranking of robots for a
    site has [min top_n (number of robots)] entries in order of
    non-increasing score, and every robot of the fleet is either in it or
    scores no more than every entry of it. *)
Theorem best_robots_are_top_ranked (self : RobotSiteMatcher)
    (site_id' : string) (top_n : Z) (best : list RobotRanking) :
  (0 <= top_n)%Z ->
  find_best_robots_for_site self site_id' top_n = Ok best ->
  List.length best
  = Nat.min (Z.to_nat top_n) (List.length (robots_df self)) /\
  StronglySorted
    (fun a b => compatibility_score (rr_compatibility b)
                <= compatibility_score (rr_compatibility a)) best /\
  forall robot, In robot (robots_df self) ->
    exists c,
      get_detailed_compatibility self (robot_id robot) site_id' = Ok c /\
      (In (mkRobotRanking c (day_rate_usd robot) (robot_type robot)) best \/
       forall b, In b best ->
         compatibility_score c
         <= compatibility_score (rr_compatibility b)).
Proof.
  intros Hn H. unfold find_best_robots_for_site in H.
  destruct (top_n_spec _ _ _ _ _ Hn H) as (Hlen & Hsorted & Hall).
  split; [exact Hlen |]. split; [exact Hsorted |].
  intros robot Hr. destruct (Hall robot Hr) as (y & Ey & Hy).
  destruct (get_detailed_compatibility self (robot_id robot) site_id')
    as [c |]; [| discriminate].
  cbn [bind] in Ey. injection Ey as <-.
  exists c. split; [reflexivity | exact Hy].
Qed.

Lemma best_robots_are_top_ranked_witness :
  exists best,
    find_best_robots_for_site Examples.matcher "SITE_A" 3 = Ok best /\
    List.length best = 1%nat.
Proof.
  eassert (E : find_best_robots_for_site Examples.matcher "SITE_A" 3 = Ok _)
    by (vm_compute; reflexivity).
  assert (H : (0 <= 3)%Z) by lia.
  eexists. split; [exact E |].
  exact (proj1 (best_robots_are_top_ranked _ _ _ _ H E)).
Defined.

(** X16. For a non-negative [top_n], a returned ranking of sites for a
    robot has [min top_n (number of sites)] entries in order of
    non-increasing score, and every site is either in it or scores no more
    than every entry of it. *)
Theorem best_sites_are_top_ranked (self : RobotSiteMatcher)
    (robot_id' : string) (top_n : Z) (best : list SiteRanking) :
  (0 <= top_n)%Z ->
  find_best_sites_for_robot self robot_id' top_n = Ok best ->
  List.length best
  = Nat.min (Z.to_nat top_n) (List.length (sites_df self)) /\
  StronglySorted
    (fun a b => compatibility_score (sr_compatibility b)
                <= compatibility_score (sr_compatibility a)) best /\
  forall site, In site (sites_df self) ->
    exists c,
      get_detailed_compatibility self robot_id' (site_id site) = Ok c /\
      (In (mkSiteRanking c (estimated_value_millions site)) best \/
       forall b, In b best ->
         compatibility_score c
         <= compatibility_score (sr_compatibility b)).
Proof.
  intros Hn H. unfold find_best_sites_for_robot in H.
  destruct (top_n_spec _ _ _ _ _ Hn H) as (Hlen & Hsorted & Hall).
  split; [exact Hlen |]. split; [exact Hsorted |].
  intros site Hs. destruct (Hall site Hs) as (y & Ey & Hy).
  destruct (get_detailed_compatibility self robot_id' (site_id site))
    as [c |]; [| discriminate].
  cbn [bind] in Ey. injection Ey as <-.
  exists c. split; [reflexivity | exact Hy].
Qed.

Lemma best_sites_are_top_ranked_witness :
  exists best,
    find_best_sites_for_robot Examples.matcher "ROBOT_1" 1 = Ok best /\
    List.length best = 1%nat.
Proof.
  eassert (E : find_best_sites_for_robot Examples.matcher "ROBOT_1" 1 = Ok _)
    by (vm_compute; reflexivity).
  assert (H : (0 <= 1)%Z) by lia.
  eexists. split; [exact E |].
  exact (proj1 (best_sites_are_top_ranked _ _ _ _ H E)).
Defined.

(** X17. Ranking robots for a site never looks the site up when the fleet
    is empty: it returns the empty list for every site identifier, known
    or not. With a non-empty fleet an unknown site identifier raises an
    exception of the lookup class. *)
Theorem best_robots_unknown_site (self : RobotSiteMatcher)
    (site_id' : string) (top_n : Z) :
  (robots_df self = [] ->
     find_best_robots_for_site self site_id' top_n = Ok []) /\
  (robots_df self <> [] -> ~ In site_id' (map site_id (sites_df self)) ->
     exists e,
       find_best_robots_for_site self site_id' top_n = Raise e /\
       is_lookup_error e = true).
Proof.
  unfold find_best_robots_for_site. split.
  - intros ->. cbn [map_result bind sort_values_desc fold_right].
    unfold py_slice_to. destruct (0 <=? top_n)%Z; now rewrite firstn_nil.
  - intros Hne Habs.
    destruct (robots_df self) as [| r rest] eqn:Erobots; [contradiction |].
    cbn [map_result].
    assert (Hd : exists e,
               get_detailed_compatibility self (robot_id r) site_id' = Raise e
               /\ is_lookup_error e = true).
    { unfold get_detailed_compatibility. rewrite Erobots.
      cbn [column bind filter]. rewrite String.eqb_refl. cbn [iloc0 bind].
      destruct (sites_df self) as [| s sites] eqn:Esites.
      - exists KeyError. split; reflexivity.
      - cbn [column bind].
        rewrite (filter_absent site_id site_id' (s :: sites) Habs).
        exists IndexError. split; reflexivity. }
    destruct Hd as (e & -> & He). exists e. split; [reflexivity | exact He].
Qed.

Lemma best_robots_unknown_site_witness :
  exists e,
    find_best_robots_for_site Examples.matcher "SITE_9" 3 = Raise e /\
    is_lookup_error e = true.
Proof.
  apply (proj2 (best_robots_unknown_site Examples.matcher "SITE_9" 3)).
  - discriminate.
  - cbn. intros [H | [H | []]]; discriminate H.
Defined.

End Rankings.

(* ================================================================== *)
(** ** Equipment gaps *)

Section EquipmentGaps.

Import Matching.

Lemma col_max_attained (xs : list Q) :
  forall x, In (col_max x xs) (x :: xs).
Proof.
  unfold col_max. induction xs as [| z xs IH]; intro x; cbn [fold_left].
  - now left.
  - destruct (IH (Qmax x z)) as [E | H].
    + rewrite <- E. unfold Qmax, GenericMinMax.gmax.
      destruct (x ?= z); [left | right; left | left]; reflexivity.
    + right. now right.
Qed.

Lemma column_max_spec {A : Type} (c : A -> Q) (x : A) (rest : list A) :
  exists m,
    column_max c (x :: rest) = Ok m /\
    In m (map c (x :: rest)) /\
    forall y, In y (x :: rest) -> c y <= m.
Proof.
  eexists. split; [reflexivity |]. split.
  - apply (col_max_attained (map c rest) (c x)).
  - intros y Hy. apply col_max_ge.
    destruct Hy as [<- | Hy]; [now left | right; now apply in_map].
Qed.

Lemma fleet_sensors_In (lists : list (list string)) :
  forall (acc : set string) (x : string),
    In x (fold_left set_update lists acc) <->
    In x acc \/ exists l, In l lists /\ In x l.
Proof.
  induction lists as [| l lists IH]; intros acc x; cbn [fold_left].
  - split; [tauto | intros [H | (? & [] & _)]; exact H].
  - rewrite IH, set_update_In. split.
    + intros [[H | H] | (l' & Hl & Hx)];
        [now left | right; exists l; cbn; auto | right; exists l'; cbn; auto].
    + intros [H | (l' & [<- | Hl] & Hx)];
        [left; now left | left; now right | right; eauto].
Qed.

Lemma fleet_required_In (lists : list (list string)) :
  forall (acc : set string) (x : string),
    In x (fold_left (fun required mineral_types =>
                       fold_left add_required mineral_types required)
                    lists acc) <->
    In x acc \/
    exists mineral_types, In mineral_types lists /\
      In x (fold_left add_required mineral_types []).
Proof.
  induction lists as [| l lists IH]; intros acc x; cbn [fold_left].
  - split; [tauto | intros [H | (? & [] & _)]; exact H].
  - rewrite IH, fold_add_required_In. split.
    + intros [[H | H] | (l' & Hl & Hx)].
      * now left.
      * right. exists l. split; [now left |].
        apply fold_add_required_In. now right.
      * right. exists l'. split; [now right | exact Hx].
    + intros [H | (l' & [<- | Hl] & Hx)].
      * left. now left.
      * apply fold_add_required_In in Hx. destruct Hx as [[] | Hx].
        left. now right.
      * right. eauto.
Qed.

(** What a returned gap report holds. *)
Lemma equipment_gaps_returns (self : RobotSiteMatcher) (g : Gaps) :
  identify_equipment_gaps self = Ok g ->
  exists max_fleet_depth,
    In max_fleet_depth (map max_depth_m (robots_df self)) /\
    (forall r, In r (robots_df self) -> max_depth_m r <= max_fleet_depth) /\
    depth_gaps g
    = map (fun s => mkDepthGap (site_id s) (site_name s) (depth_m s)
                               max_fleet_depth (depth_m s - max_fleet_depth))
          (filter (fun s => Qlt_bool (max_fleet_depth * (9 # 10)) (depth_m s))
                  (sites_df self)) /\
    sensor_gaps g
    = set_diff string_dec
        (fold_left (fun required mineral_types =>
                      fold_left add_required mineral_types required)
                   (map mineral_types (sites_df self)) [])
        (fold_left set_update (map sensors (robots_df self)) []) /\
    (recommendations g = [] <-> depth_gaps g = [] /\ sensor_gaps g = []).
Proof.
  unfold identify_equipment_gaps.
  destruct (robots_df self) as [| r robots] eqn:Er; [discriminate |].
  destruct (column_max_spec max_depth_m r robots) as (m & -> & Hin & Hmax).
  cbn [bind].
  destruct (sites_df self) as [| s sites] eqn:Es; [discriminate |].
  cbn [column bind].
  intro H. exists m. split; [exact Hin |]. split; [exact Hmax |].
  set (deep := filter _ (s :: sites)) in *.
  set (missing := set_diff _ _ _) in *.
  destruct missing as [| x missing'];
    destruct deep as [| d deep'];
    cbn [map bind app column_max] in H; injection H as <-;
    cbn [depth_gaps sensor_gaps recommendations];
    repeat split; try reflexivity; try discriminate;
    intros; try discriminate; intuition discriminate.
Qed.



(** X19. In a returned gap report a sensor is listed as a sensor gap
    exactly when some site requires it and no robot of the fleet carries
    it. *)
Theorem sensor_gaps_exact (self : RobotSiteMatcher) (g : Gaps) :
  identify_equipment_gaps self = Ok g ->
  forall x,
    In x (sensor_gaps g) <->
    (exists s, In s (sites_df self) /\ In x (required_sensors_of s)) /\
    (forall r, In r (robots_df self) -> ~ In x (sensors r)).
Proof.
  intro H. apply equipment_gaps_returns in H.
  destruct H as (m & _ & _ & _ & -> & _). intro x.
  pose proof (set_diff_iff string_dec x
                (fold_left (fun required mineral_types =>
                              fold_left add_required mineral_types required)
                           (map mineral_types (sites_df self)) [])
                (fold_left set_update (map sensors (robots_df self)) []))
    as Hd.
  unfold set_In in Hd. rewrite Hd, fleet_required_In, fleet_sensors_In.
  split.
  - intros [[[] | (mts & Hm & Hx)] Hno]. split.
    + apply in_map_iff in Hm. destruct Hm as (s & <- & Hs).
      exists s. split; [exact Hs | exact Hx].
    + intros r Hr Hx'. apply Hno. right. exists (sensors r).
      split; [now apply in_map | exact Hx'].
  - intros [(s & Hs & Hx) Hno]. split.
    + right. exists (mineral_types s). split; [now apply in_map | exact Hx].
    + intros [[] | (l & Hl & Hx')]. apply in_map_iff in Hl.
      destruct Hl as (r & <- & Hr). exact (Hno r Hr Hx').
Qed.

Lemma sensor_gaps_exact_witness :
  exists g,
    identify_equipment_gaps Examples.matcher = Ok g /\
    (In "magnetometer"%string (sensor_gaps g) <->
     (exists s, In s [Examples.site_a; Examples.site_b] /\
                In "magnetometer"%string (required_sensors_of s)) /\
     (forall r, In r [Examples.robot_1] ->
                ~ In "magnetometer"%string (sensors r))).
Proof.
  eassert (E : identify_equipment_gaps Examples.matcher = Ok _)
    by (vm_compute; reflexivity).
  eexists. split; [exact E |].
  exact (sensor_gaps_exact _ _ E "magnetometer"%string).
Defined.

(** X20. The gap analysis raises [KeyError] when the robot list or the
    site list is empty and returns otherwise; a returned report carries no
    recommendation exactly when it lists neither a depth gap nor a sensor
    gap. *)
Theorem equipment_gaps_defined (self : RobotSiteMatcher) :
  (robots_df self = [] \/ sites_df self = [] ->
     identify_equipment_gaps self = Raise KeyError) /\
  (robots_df self <> [] -> sites_df self <> [] ->
     exists g,
       identify_equipment_gaps self = Ok g /\
       (recommendations g = [] <-> depth_gaps g = [] /\ sensor_gaps g = [])).
Proof.
  split.
  - unfold identify_equipment_gaps.
    destruct (robots_df self) as [| r robots]; [reflexivity |].
    intros [H | ->]; [discriminate |]. reflexivity.
  - intros Hr Hs.
    assert (Hex : exists g, identify_equipment_gaps self = Ok g).
    { unfold identify_equipment_gaps.
      destruct (robots_df self) as [| r robots]; [contradiction |].
      destruct (sites_df self) as [| s sites]; [contradiction |].
      cbn [column_max column bind].
      destruct (set_diff _ _ _); destruct (map _ (filter _ (s :: sites)));
        cbn [bind column_max]; eauto. }
    destruct Hex as (g & E). exists g. split; [exact E |].
    apply equipment_gaps_returns in E.
    now destruct E as (_ & _ & _ & _ & _ & H).
Qed.

Lemma equipment_gaps_defined_witness :
  exists g, identify_equipment_gaps Examples.matcher = Ok g.
Proof.
  destruct (proj2 (equipment_gaps_defined Examples.matcher))
    as (g & E & _); [discriminate | discriminate |].
  now exists g.
Defined.

End EquipmentGaps.

(* ================================================================== *)
(** ** What the scheduler has checked of each mission *)

Section SchedulerDetails.

Import Optimizer SchedulerSpec.

Variable geodesic_km : Q -> Q -> Q -> Q -> result Q.
Variable self : MissionOptimizer.
Variable time_window_days : Z.
Variable budget_usd : Q.
Variable vessel_speed_knots : Q.
Variable vessel_day_rate : Q.
Variable prioritize_by : string.
Variable now : Z.

Lemma consider_robot_scored (site : Site) (schedules : list (string * Schedule))
    (best best' : option Robot * Q * option Z) (item : string * Schedule) :
  In item schedules ->
  chosen_scored self site schedules best ->
  consider_robot self site best item = Ok best' ->
  chosen_scored self site schedules best'.
Proof.
  intros Hitem Hbest. unfold consider_robot.
  destruct best as [[best_robot best_score] best_start].
  destruct item as [id schedule].
  destruct (iloc0 _) as [robot |] eqn:Erobot; [| discriminate]. cbn [bind].
  apply iloc0_filter_spec in Erobot. destruct Erobot as [Eid Hin].
  apply String.eqb_eq in Eid.
  destruct (Qlt_bool _ _) eqn:Edepth; [now intros [= <-] |].
  apply Qlt_bool_false in Edepth.
  destruct (calculate_compatibility_score_simple robot site) as [score |]
    eqn:Escore; [| discriminate].
  cbn [bind]. destruct (Qlt_bool _ _); intros [= <-]; [| exact Hbest].
  cbn. split; [exact Hin |]. split; [exact Edepth |]. split; [exact Escore |].
  exists schedule. rewrite Eid. now split.
Qed.

Lemma for_each_scored (site : Site) (schedules l : list (string * Schedule)) :
  forall best best',
    incl l schedules ->
    chosen_scored self site schedules best ->
    for_each (consider_robot self site) l best = Ok best' ->
    chosen_scored self site schedules best'.
Proof.
  induction l as [| item l IH]; intros best best' Hincl Hbest; cbn.
  - now intros [= <-].
  - destruct (consider_robot self site best item) as [best1 |] eqn:E1;
      [| discriminate].
    cbn [bind]. apply IH.
    + intros x Hx. apply Hincl. now right.
    + apply (consider_robot_scored site schedules best best1 item);
        [apply Hincl; now left | exact Hbest | exact E1].
Qed.

(** One pass of the outer loop body leaves the loop variables as they
    are, or schedules a mission for which every test has passed. *)
Lemma schedule_site_scheduled (site : Site) (st st' : LoopState) :
  schedule_site geodesic_km self time_window_days vessel_speed_knots
                vessel_day_rate now site st = Ok st' ->
  st' = st \/
  exists robot sch score transit duration,
    scheduled geodesic_km self time_window_days vessel_speed_knots
              vessel_day_rate now site st robot sch score transit duration /\
    st' = scheduled_state vessel_day_rate site st robot sch score transit
                          duration.
Proof.
  unfold schedule_site.
  destruct (for_each _ _ _) as [best |] eqn:Ebest; [| discriminate].
  cbn [bind].
  apply (for_each_scored site (robot_schedules st)) in Ebest;
    [| apply incl_refl | exact I].
  destruct best as [[[robot |] score] [start |]]; cbn in Ebest;
    try contradiction; try (intros [= <-]; now left).
  destruct Ebest as (Hrobot & Hdepth & Hscore & sch & Hsch & ->).
  destruct (Qle_bool 40 score); [| intros [= <-]; now left].
  destruct (calculate_transit_time _ _ _ _ _ _) as [transit |] eqn:Etransit;
    [| discriminate].
  cbn [bind].
  destruct (calculate_mission_duration site robot 25) as [duration |]
    eqn:Eduration; [| discriminate].
  cbn [bind].
  destruct (Qlt_bool _ _) eqn:Ecost; [intros [= <-]; now left |].
  destruct (_ <? _)%Z eqn:Ewindow; [intros [= <-]; now left |].
  intros [= <-]. right.
  exists robot, sch, score, transit, duration. split; [| reflexivity].
  constructor; try assumption.
  - now apply Qlt_bool_false.
  - now apply Z.ltb_ge.
Qed.

(** A property of the loop variables kept by every scheduled mission is
    kept by the loop. *)
Lemma greedy_assignment_invariant (P : LoopState -> Prop) (sites : list Site) :
  (forall site st robot sch score transit duration,
     In site sites ->
     scheduled geodesic_km self time_window_days vessel_speed_knots
               vessel_day_rate now site st robot sch score transit duration ->
     P st ->
     P (scheduled_state vessel_day_rate site st robot sch score transit
                        duration)) ->
  forall st st',
    greedy_assignment geodesic_km self time_window_days vessel_speed_knots
                      vessel_day_rate now sites st = Ok st' ->
    P st -> P st'.
Proof.
  induction sites as [| site rest IH]; intros Hstep st st'; cbn.
  - now intros [= <-].
  - destruct (Qle_bool (remaining_budget st) 0); [now intros [= <-] |].
    destruct (schedule_site _ _ _ _ _ _ site st) as [st1 |] eqn:E1;
      [| discriminate].
    cbn [bind]. intros Hrest HP.
    assert (Hstep' : forall site0 st0 robot sch score transit duration,
               In site0 rest ->
               scheduled geodesic_km self time_window_days vessel_speed_knots
                 vessel_day_rate now site0 st0 robot sch score transit
                 duration ->
               P st0 ->
               P (scheduled_state vessel_day_rate site0 st0 robot sch score
                                  transit duration)).
    { intros. eapply Hstep; eauto. now right. }
    apply (IH Hstep' st1 st' Hrest).
    destruct (schedule_site_scheduled site st st1 E1)
      as [-> | (robot & sch & score & transit & duration & Hs & ->)];
      [exact HP |].
    eapply Hstep; eauto. now left.
Qed.

(** What a returned plan says about the loop that produced it. *)
Lemma scheduler_loop_returns (plan : Plan) :
  greedy_mission_scheduler geodesic_km self time_window_days budget_usd
    vessel_speed_knots vessel_day_rate prioritize_by now = Ok plan ->
  exists sorted st,
    Permutation sorted (sites_df self) /\
    greedy_assignment geodesic_km self time_window_days vessel_speed_knots
      vessel_day_rate now sorted
      (mkLoopState [] budget_usd (initial_schedules self now)) = Ok st /\
    missions plan = st_missions st /\
    compute_statistics self budget_usd st = Ok (statistics plan).
Proof.
  unfold greedy_mission_scheduler.
  destruct (column status (robots_df self)); [| discriminate]. cbn [bind].
  destruct (sites_sorted self prioritize_by) as [sorted |] eqn:Esorted;
    [| discriminate].
  cbn [bind].
  destruct (greedy_assignment _ _ _ _ _ _ sorted _) as [st |] eqn:Eloop;
    [| discriminate].
  cbn [bind].
  destruct (compute_statistics self budget_usd st) as [stats |] eqn:Estats;
    [| discriminate].
  cbn [bind]. intros [= <-]. exists sorted, st. repeat split; auto.
  unfold sites_sorted in Esorted.
  destruct (column site_id (sites_df self)); [| discriminate].
  cbn [bind] in Esorted.
  destruct (String.eqb prioritize_by "score"); injection Esorted as <-;
    apply sort_values_desc_perm.
Qed.

(** A property of single missions established when a mission is scheduled
    holds of every mission of a returned plan. *)
Lemma plan_missions_satisfy (P : Mission -> Prop) (plan : Plan) :
  (forall site st robot sch score transit duration,
     In site (sites_df self) ->
     scheduled geodesic_km self time_window_days vessel_speed_knots
               vessel_day_rate now site st robot sch score transit duration ->
     P (mission_of vessel_day_rate site st robot sch score transit duration)) ->
  greedy_mission_scheduler geodesic_km self time_window_days budget_usd
    vessel_speed_knots vessel_day_rate prioritize_by now = Ok plan ->
  Forall P (missions plan).
Proof.
  intros HP Hplan.
  destruct (scheduler_loop_returns plan Hplan)
    as (sorted & st & Hperm & Hloop & -> & _).
  refine (greedy_assignment_invariant
            (fun st => Forall P (st_missions st)) sorted _ _ _ Hloop _).
  - intros site st0 robot sch score transit duration Hsite Hs Hall.
    cbn [scheduled_state st_missions]. apply Forall_app. split; [exact Hall |].
    constructor; [| constructor].
    apply HP; [| exact Hs]. eapply Permutation_in; eauto.
  - constructor.
Qed.

End SchedulerDetails.

Section SchedulerExtras.

Import Optimizer SchedulerSpec.

Variable geodesic_km : Q -> Q -> Q -> Q -> result Q.
Variable self : MissionOptimizer.
Variable time_window_days : Z.
Variable budget_usd : Q.
Variable vessel_speed_knots : Q.
Variable vessel_day_rate : Q.
Variable prioritize_by : string.
Variable now : Z.

(** X21. Every mission of a returned plan pairs a site of the input with
    a robot of the roster whose status is "Available" and whose depth
    rating, reduced by the 10% margin, covers the depth of the site. *)
Theorem missions_use_available_rated_robots (plan : Plan) :
  greedy_mission_scheduler geodesic_km self time_window_days budget_usd
    vessel_speed_knots vessel_day_rate prioritize_by now = Ok plan ->
  Forall (fun m =>
            exists robot site,
              In robot (robots_df self) /\
              status robot = "Available"%string /\
              robot_id robot = m_robot_id m /\
              In site (sites_df self) /\
              site_id site = m_site_id m /\
              depth_m site <= max_depth_m robot * (9 # 10))
         (missions plan).
Proof.
  apply plan_missions_satisfy.
  intros site st robot sch score transit duration Hsite Hs.
  destruct Hs as [Hrobot _ Hdepth _ _ _ _ _].
  apply filter_In in Hrobot. destruct Hrobot as [Hin Hstatus].
  apply String.eqb_eq in Hstatus.
  exists robot, site. cbn [mission_of m_robot_id m_site_id]. auto 7.
Qed.

Lemma set_inter_length (s t : set string) :
  (List.length (set_inter string_dec s t) <= List.length s)%nat.
Proof.
  induction s as [| x s IH]; cbn; [lia |].
  destruct (set_mem string_dec x t); cbn; lia.
Qed.

Lemma Ok_inj {A : Type} (a b : A) : Ok a = Ok b -> a = b.
Proof. now intros [=]. Qed.

Lemma simple_score_range (robot : Robot) (site : Site) (score : Q) :
  depth_m site <= max_depth_m robot * (9 # 10) ->
  calculate_compatibility_score_simple robot site = Ok score ->
  50 <= score <= 100.
Proof.
  intros Hdepth. unfold calculate_compatibility_score_simple.
  apply Qle_bool_iff in Hdepth. rewrite Hdepth. cbn [bind].
  intro H. apply Ok_inj in H. rewrite <- H. clear H.
  set (required :=
         py_set ["side_scan_sonar"; "multi_beam_echo_sounder"; "HD_camera"]%string).
  pose proof (set_inter_length required (py_set (sensors robot))) as Hlen.
  set (k := List.length (set_inter string_dec required (py_set (sensors robot))))
    in *.
  assert (Hreq : List.length required = 3%nat) by reflexivity.
  rewrite Hreq in *. clearbody k required.
  assert (H0 : 0 <= inject_Z (Z.of_nat k)).
  { change 0 with (inject_Z 0). rewrite <- Zle_Qle. lia. }
  assert (H1 : inject_Z (Z.of_nat k) <= 3).
  { change 3 with (inject_Z 3). rewrite <- Zle_Qle. lia. }
  change (inject_Z (Z.of_nat 3)) with 3.
  assert (0 <= inject_Z (Z.of_nat k) / 3) by (apply Qle_shift_div_l; lra).
  assert (inject_Z (Z.of_nat k) / 3 <= 1) by (apply Qle_shift_div_r; lra).
  lra.
Qed.

(** X22. Every mission of a returned plan carries a compatibility score
    between 50 and 100: a robot that passes the depth test scores at
    least 50, so the test [best_score >= 40] never rejects a candidate. *)
Theorem mission_scores_at_least_50 (plan : Plan) :
  greedy_mission_scheduler geodesic_km self time_window_days budget_usd
    vessel_speed_knots vessel_day_rate prioritize_by now = Ok plan ->
  Forall (fun m => 50 <= m_compatibility_score m <= 100) (missions plan).
Proof.
  apply plan_missions_satisfy.
  intros site st robot sch score transit duration _ Hs.
  destruct Hs as [_ _ Hdepth Hscore _ _ _ _].
  cbn [mission_of m_compatibility_score].
  exact (simple_score_range robot site score Hdepth Hscore).
Qed.

(** X23. Every mission of a returned plan ends within the planning window:
    the whole days between the planning instant and its end are at most
    [time_window_days]. *)
Theorem missions_end_within_window (plan : Plan) :
  greedy_mission_scheduler geodesic_km self time_window_days budget_usd
    vessel_speed_knots vessel_day_rate prioritize_by now = Ok plan ->
  Forall (fun m => (days (end_date m - now) <= time_window_days)%Z)
         (missions plan).
Proof.
  apply plan_missions_satisfy.
  intros site st robot sch score transit duration _ Hs.
  destruct Hs as [_ _ _ _ _ _ _ Hwindow].
  exact Hwindow.
Qed.

(** X24. The missions of a returned plan are numbered in the order in
    which they were scheduled: the mission at position [k] (from 0) has
    the identifier [MISSION_] followed by [k + 1] padded to three
    digits. *)
Theorem mission_ids_are_sequential (plan : Plan) :
  greedy_mission_scheduler geodesic_km self time_window_days budget_usd
    vessel_speed_knots vessel_day_rate prioritize_by now = Ok plan ->
  forall k m,
    nth_error (missions plan) k = Some m ->
    mission_id m = mission_label (k + 1).
Proof.
  intro Hplan.
  destruct (scheduler_loop_returns _ _ _ _ _ _ _ _ plan Hplan)
    as (sorted & st & _ & Hloop & -> & _).
  refine (greedy_assignment_invariant _ _ _ _ _ _
            (fun st => forall k m, nth_error (st_missions st) k = Some m ->
                                   mission_id m = mission_label (k + 1))
            sorted _ _ _ Hloop _).
  - intros site st0 robot sch score transit duration _ _ Hall k m.
    cbn [scheduled_state st_missions].
    destruct (Nat.lt_ge_cases k (List.length (st_missions st0))) as [Hk | Hk].
    + rewrite nth_error_app1 by exact Hk. apply Hall.
    + rewrite nth_error_app2 by exact Hk.
      destruct (k - List.length (st_missions st0))%nat as [| j] eqn:Ej;
        [| destruct j; discriminate].
      intros [= <-]. cbn [mission_of mission_id].
      f_equal. lia.
  - intros k m. destruct k; discriminate.
Qed.

End SchedulerExtras.

Section SchedulerExtrasExamples.

Import Optimizer SchedulerSpec.

Lemma missions_use_available_rated_robots_witness :
  exists plan,
    Examples.run_three_sites = Ok plan /\
    Forall (fun m =>
              exists robot site,
                In robot [Examples.robot_1] /\
                status robot = "Available"%string /\
                robot_id robot = m_robot_id m /\
                In site [Examples.site_a; Examples.site_c; Examples.site_d] /\
                site_id site = m_site_id m /\
                depth_m site <= max_depth_m robot * (9 # 10))
           (missions plan).
Proof.
  eassert (E : Examples.run_three_sites = Ok _) by (vm_compute; reflexivity).
  eexists. split; [exact E |].
  exact (missions_use_available_rated_robots _ _ _ _ _ _ _ _ _ E).
Defined.

Lemma mission_scores_at_least_50_witness :
  exists plan,
    Examples.run_three_sites = Ok plan /\
    Forall (fun m => 50 <= m_compatibility_score m <= 100) (missions plan).
Proof.
  eassert (E : Examples.run_three_sites = Ok _) by (vm_compute; reflexivity).
  eexists. split; [exact E |].
  exact (mission_scores_at_least_50 _ _ _ _ _ _ _ _ _ E).
Defined.

Lemma missions_end_within_window_witness :
  exists plan,
    Examples.run_three_sites = Ok plan /\
    Forall (fun m => (days (end_date m - 0) <= 180)%Z) (missions plan).
Proof.
  eassert (E : Examples.run_three_sites = Ok _) by (vm_compute; reflexivity).
  eexists. split; [exact E |].
  exact (missions_end_within_window _ _ _ _ _ _ _ _ _ E).
Defined.

Lemma mission_ids_are_sequential_witness :
  exists plan m,
    Examples.run_three_sites = Ok plan /\
    nth_error (missions plan) 2 = Some m /\
    mission_id m = "MISSION_003"%string.
Proof.
  eassert (E : Examples.run_three_sites = Ok _) by (vm_compute; reflexivity).
  eexists. eexists. split; [exact E |]. split; [reflexivity |].
  exact (mission_ids_are_sequential _ _ _ _ _ _ _ _ _ E 2%nat _ eq_refl).
Defined.

End SchedulerExtrasExamples.

(* ================================================================== *)
(** ** Plan statistics and mission bookkeeping *)

Section PlanStatistics.

Import Optimizer SchedulerSpec.

Variable geodesic_km : Q -> Q -> Q -> Q -> result Q.
Variable self : MissionOptimizer.
Variable time_window_days : Z.
Variable budget_usd : Q.
Variable vessel_speed_knots : Q.
Variable vessel_day_rate : Q.
Variable prioritize_by : string.
Variable now : Z.

Lemma py_div_ok (a b q : Q) : py_div a b = Ok q -> q = a / b /\ ~ b == 0.
Proof.
  unfold py_div. destruct (Qeq_bool b 0) eqn:E; [discriminate |].
  intro H. apply Ok_inj in H. split; [now symmetry |].
  now apply Qeq_bool_neq.
Qed.

Lemma set_update_length (l : list string) :
  forall s : set string,
    (List.length (set_update s l) <= List.length s + List.length l)%nat.
Proof.
  unfold set_update. induction l as [| x l IH]; intro s; cbn [fold_left].
  - cbn. lia.
  - specialize (IH (set_add string_dec x s)).
    pose proof (set_add_length x s). cbn [List.length]. lia.
Qed.

Lemma py_set_length (l : list string) :
  (List.length (py_set l) <= List.length l)%nat.
Proof. exact (set_update_length l []). Qed.

Lemma greedy_assignment_length (sites : list Site) :
  forall st st',
    greedy_assignment geodesic_km self time_window_days vessel_speed_knots
                      vessel_day_rate now sites st = Ok st' ->
    (List.length (st_missions st')
     <= List.length (st_missions st) + List.length sites)%nat.
Proof.
  induction sites as [| site rest IH]; intros st st'; cbn [greedy_assignment].
  - intro H. apply Ok_inj in H. subst. lia.
  - destruct (Qle_bool (remaining_budget st) 0).
    + intro H. apply Ok_inj in H. subst. lia.
    + destruct (schedule_site _ _ _ _ _ _ site st) as [st1 |] eqn:E1;
        [| discriminate].
      cbn [bind]. intro Hrest. specialize (IH st1 st' Hrest).
      cbn [List.length].
      destruct (schedule_site_scheduled _ _ _ _ _ _ site st st1 E1)
        as [-> | (robot & sch & score & transit & duration & _ & ->)];
        [lia |].
      cbn [scheduled_state st_missions] in IH.
      rewrite length_app in IH. cbn [List.length] in IH. lia.
Qed.

Lemma compute_statistics_returns (st : LoopState) (stats : Statistics) :
  compute_statistics self budget_usd st = Ok stats ->
  ~ inject_Z (Z.of_nat (List.length (sites_df self))) == 0 /\
  ~ budget_usd == 0 /\
  total_missions stats = List.length (st_missions st) /\
  num_sites_surveyed stats
  = List.length (py_set (map m_site_id (st_missions st))) /\
  num_robots_used stats
  = List.length (py_set (map m_robot_id (st_missions st))) /\
  coverage_percent stats
  = py_round (inject_Z (Z.of_nat (num_sites_surveyed stats))
              / inject_Z (Z.of_nat (List.length (sites_df self))) * 100) 2 /\
  total_cost_usd stats = py_round (budget_usd - remaining_budget st) 2 /\
  remaining_budget_usd stats = py_round (remaining_budget st) 2 /\
  (st_missions st = [] -> avg_mission_cost_usd stats = 0).
Proof.
  unfold compute_statistics.
  destruct (py_div _ _) as [covered |] eqn:Ec; [| discriminate].
  cbn [bind]. apply py_div_ok in Ec. destruct Ec as [-> Hsites].
  destruct (py_div _ budget_usd) as [utilization |] eqn:Eu; [| discriminate].
  cbn [bind]. apply py_div_ok in Eu. destruct Eu as [-> Hbudget].
  destruct (st_missions st) as [| m ms] eqn:Em; cbn [bind].
  - intro H. apply Ok_inj in H. subst stats.
    cbn [total_missions num_sites_surveyed num_robots_used coverage_percent
         total_cost_usd remaining_budget_usd avg_mission_cost_usd].
    repeat split; auto.
  - destruct (py_div _ _) as [avg |]; [| discriminate]. cbn [bind].
    intro H. apply Ok_inj in H. subst stats.
    cbn [total_missions num_sites_surveyed num_robots_used coverage_percent
         total_cost_usd remaining_budget_usd avg_mission_cost_usd].
    repeat split; auto. discriminate.
Qed.

(** X25. In a returned plan the statistics count what the mission list
    holds: [total_missions] is its length, which is at most the number of
    sites (a site is scheduled at most once); the numbers of distinct
    sites and robots are at most the number of missions; and
    [coverage_percent] lies in [0, 100]. *)
Theorem plan_counts_are_consistent (plan : Plan) :
  greedy_mission_scheduler geodesic_km self time_window_days budget_usd
    vessel_speed_knots vessel_day_rate prioritize_by now = Ok plan ->
  total_missions (statistics plan) = List.length (missions plan) /\
  (List.length (missions plan) <= List.length (sites_df self))%nat /\
  (num_sites_surveyed (statistics plan) <= total_missions (statistics plan))%nat /\
  (num_robots_used (statistics plan) <= total_missions (statistics plan))%nat /\
  0 <= coverage_percent (statistics plan) <= 100.
Proof.
  intro Hplan.
  destruct (scheduler_loop_returns _ _ _ _ _ _ _ _ plan Hplan)
    as (sorted & st & Hperm & Hloop & -> & Hstats).
  apply compute_statistics_returns in Hstats.
  destruct Hstats as (Hsites & _ & -> & Hns & Hnr & -> & _).
  apply greedy_assignment_length in Hloop. cbn [st_missions List.length] in Hloop.
  rewrite (Permutation_length Hperm) in Hloop.
  pose proof (py_set_length (map m_site_id (st_missions st))) as Ls.
  pose proof (py_set_length (map m_robot_id (st_missions st))) as Lr.
  rewrite length_map in Ls, Lr. rewrite <- Hns in Ls. rewrite <- Hnr in Lr.
  split; [reflexivity |]. split; [exact Hloop |].
  split; [exact Ls |]. split; [exact Lr |].
  set (n := num_sites_surveyed (statistics plan)) in *.
  set (k := List.length (sites_df self)) in *.
  assert (Hk : 0 < inject_Z (Z.of_nat k)).
  { change 0 with (inject_Z 0). rewrite <- Zlt_Qlt.
    destruct k; [exfalso; apply Hsites; reflexivity | lia]. }
  assert (H0 : 0 <= inject_Z (Z.of_nat n)).
  { change 0 with (inject_Z 0). rewrite <- Zle_Qle. lia. }
  assert (H1 : inject_Z (Z.of_nat n) <= inject_Z (Z.of_nat k)).
  { rewrite <- Zle_Qle. lia. }
  assert (0 <= inject_Z (Z.of_nat n) / inject_Z (Z.of_nat k))
    by (apply Qle_shift_div_l; lra).
  assert (inject_Z (Z.of_nat n) / inject_Z (Z.of_nat k) <= 1)
    by (apply Qle_shift_div_r; lra).
  apply (py_round_2_between 0 100). change (inject_Z 0) with 0.
  change (inject_Z 100) with 100. lra.
Qed.

Lemma no_schedule_no_mission (sites : list Site) (st : LoopState) :
  robot_schedules st = [] ->
  greedy_assignment geodesic_km self time_window_days vessel_speed_knots
                    vessel_day_rate now sites st = Ok st.
Proof.
  intro Hnone. induction sites as [| site rest IH]; cbn [greedy_assignment];
    [reflexivity |].
  destruct (Qle_bool (remaining_budget st) 0); [reflexivity |].
  unfold schedule_site. rewrite Hnone. cbn [for_each bind]. exact IH.
Qed.

(** X26. When the roster and the site list are not empty, the budget is
    not zero and no robot has the status "Available", the scheduler
    returns a plan without missions: no cost, no coverage, the whole
    budget remaining and an average mission cost of 0. *)
Theorem no_available_robot_gives_empty_plan :
  robots_df self <> [] -> sites_df self <> [] -> ~ budget_usd == 0 ->
  (forall r, In r (robots_df self) -> status r <> "Available"%string) ->
  exists plan,
    greedy_mission_scheduler geodesic_km self time_window_days budget_usd
      vessel_speed_knots vessel_day_rate prioritize_by now = Ok plan /\
    missions plan = [] /\
    total_missions (statistics plan) = 0%nat /\
    total_cost_usd (statistics plan) == 0 /\
    coverage_percent (statistics plan) == 0 /\
    remaining_budget_usd (statistics plan) = py_round budget_usd 2 /\
    avg_mission_cost_usd (statistics plan) = 0.
Proof.
  intros Hrobots Hsites Hbudget Hnone.
  assert (Havail : available_robots self = []).
  { unfold available_robots. revert Hnone. clear.
    induction (robots_df self) as [| r l IH]; intro Hnone; [reflexivity |].
    cbn [filter].
    destruct (String.eqb_spec (status r) "Available") as [E | _].
    - exfalso. apply (Hnone r); [now left | exact E].
    - apply IH. intros r' Hr'. apply Hnone. now right. }
  assert (Hinit : initial_schedules self now = []).
  { unfold initial_schedules. now rewrite Havail. }
  assert (Hex : exists stats,
             compute_statistics self budget_usd
               (mkLoopState [] budget_usd (initial_schedules self now))
             = Ok stats).
  { unfold compute_statistics. cbn [st_missions remaining_budget map].
    rewrite py_div_nonzero.
    - cbn [bind]. rewrite py_div_nonzero by exact Hbudget. cbn [bind]. eauto.
    - destruct (sites_df self); [contradiction |]. discriminate. }
  destruct Hex as (stats & Estats).
  exists (mkPlan [] stats).
  assert (Hrun : greedy_mission_scheduler geodesic_km self time_window_days
                   budget_usd vessel_speed_knots vessel_day_rate
                   prioritize_by now = Ok (mkPlan [] stats)).
  { unfold greedy_mission_scheduler.
    destruct (robots_df self) as [| r l]; [contradiction |].
    cbn [column bind].
    assert (Hs : exists sorted, sites_sorted self prioritize_by = Ok sorted).
    { unfold sites_sorted. destruct (sites_df self); [contradiction |].
      cbn [column bind]. destruct (String.eqb prioritize_by "score"); eauto. }
    destruct Hs as (sorted & ->). cbn [bind].
    rewrite no_schedule_no_mission by exact Hinit.
    cbn [bind]. rewrite Estats. reflexivity. }
  split; [exact Hrun |].
  apply compute_statistics_returns in Estats.
  destruct Estats as (_ & _ & Htm & Hns & _ & Hcov & Htc & Hrem & Havg).
  cbn [missions statistics st_missions remaining_budget] in *.
  split; [reflexivity |]. split; [exact Htm |]. split; [| split; [| split]].
  - rewrite Htc. rewrite (py_round_eq (budget_usd - budget_usd) 0) by ring.
    reflexivity.
  - rewrite Hcov, Hns. cbn [map py_set fold_left List.length Z.of_nat].
    rewrite (py_round_eq _ 0); [reflexivity |].
    unfold Qdiv. ring.
  - exact Hrem.
  - now apply Havg.
Qed.

End PlanStatistics.

Section MissionBookkeeping.

Import Optimizer SchedulerSpec.

Variable geodesic_km : Q -> Q -> Q -> Q -> result Q.
Variable self : MissionOptimizer.
Variable time_window_days : Z.
Variable budget_usd : Q.
Variable vessel_speed_knots : Q.
Variable vessel_day_rate : Q.
Variable prioritize_by : string.
Variable now : Z.

(** X27. The transit of every mission of a returned plan is computed from
    the position its robot has in the roster to the position of the site,
    whatever missions the robot was given before: [transit_hours] is that
    transit time rounded to one decimal, and the mission carries the
    coordinates of the site. *)
Theorem transit_starts_at_roster_position (plan : Plan) :
  greedy_mission_scheduler geodesic_km self time_window_days budget_usd
    vessel_speed_knots vessel_day_rate prioritize_by now = Ok plan ->
  Forall (fun m =>
            exists robot site transit,
              In robot (robots_df self) /\ robot_id robot = m_robot_id m /\
              In site (sites_df self) /\ site_id site = m_site_id m /\
              calculate_transit_time geodesic_km
                (lat (current_location robot)) (lon (current_location robot))
                (latitude site) (longitude site) vessel_speed_knots
              = Ok transit /\
              transit_hours m = py_round transit 1 /\
              site_latitude m = latitude site /\
              site_longitude m = longitude site)
         (missions plan).
Proof.
  apply plan_missions_satisfy.
  intros site st robot sch score transit duration Hsite Hs.
  destruct Hs as [Hrobot _ _ _ Htransit _ _ _].
  apply filter_In in Hrobot. destruct Hrobot as [Hin _].
  exists robot, site, transit.
  cbn [mission_of m_robot_id m_site_id transit_hours site_latitude
       site_longitude].
  auto 9.
Qed.

(** X28. For every mission of a returned plan there are a transit time and
    a survey duration, the latter at most 80% of the endurance of the
    robot, such that the mission ends at its start plus their sum, reports
    their sum rounded to one decimal as [total_hours], and costs the robot
    day rate plus the vessel day rate plus 15000, times their sum in
    days, rounded to cents. *)
Theorem mission_cost_and_timing (plan : Plan) :
  greedy_mission_scheduler geodesic_km self time_window_days budget_usd
    vessel_speed_knots vessel_day_rate prioritize_by now = Ok plan ->
  Forall (fun m =>
            exists robot transit duration,
              In robot (robots_df self) /\ robot_id robot = m_robot_id m /\
              duration <= endurance_hours robot * (8 # 10) /\
              survey_hours m = py_round duration 1 /\
              total_hours m = py_round (transit + duration) 1 /\
              end_date m
              = (start_date m + timedelta_hours (transit + duration))%Z /\
              cost_usd m
              = py_round ((day_rate_usd robot + vessel_day_rate + 15000)
                          * ((transit + duration) / 24)) 2)
         (missions plan).
Proof.
  apply plan_missions_satisfy.
  intros site st robot sch score transit duration Hsite Hs.
  destruct Hs as [Hrobot _ _ _ _ Hduration _ _].
  apply filter_In in Hrobot. destruct Hrobot as [Hin _].
  exists robot, transit, duration.
  cbn [mission_of m_robot_id survey_hours total_hours end_date start_date
       cost_usd].
  repeat split; auto.
  - unfold calculate_mission_duration in Hduration.
    destruct (py_div _ _); [| discriminate]. cbn [bind] in Hduration.
    apply Ok_inj in Hduration. rewrite <- Hduration. apply Q.le_min_r.
  - apply py_round_eq. unfold calculate_mission_cost. field.
Qed.

End MissionBookkeeping.

Section MissionBookkeepingExamples.

Import Optimizer SchedulerSpec.

Lemma plan_counts_are_consistent_witness :
  exists plan,
    Examples.run_three_sites = Ok plan /\
    total_missions (statistics plan) = 3%nat /\
    0 <= coverage_percent (statistics plan) <= 100.
Proof.
  eassert (E : Examples.run_three_sites = Ok _) by (vm_compute; reflexivity).
  eexists. split; [exact E |].
  destruct (plan_counts_are_consistent _ _ _ _ _ _ _ _ _ E)
    as (H1 & _ & _ & _ & H5).
  split; [exact H1 | exact H5].
Defined.

Lemma no_available_robot_gives_empty_plan_witness :
  exists plan,
    Examples.run_no_available_robot = Ok plan /\ missions plan = [].
Proof.
  destruct (no_available_robot_gives_empty_plan Examples.colocated_km
              (mkOptimizer [Examples.robot_in_maintenance]
                 [Examples.site_a; Examples.site_b])
              180 10000000 12 75000 "score" 0)
    as (plan & E & Hm & _).
  - discriminate.
  - discriminate.
  - discriminate.
  - intros r [<- | []]. discriminate.
  - exists plan. split; [exact E | exact Hm].
Defined.

Lemma transit_starts_at_roster_position_witness :
  exists plan,
    Examples.run_three_sites = Ok plan /\
    Forall (fun m =>
              exists robot site transit,
                In robot [Examples.robot_1] /\ robot_id robot = m_robot_id m /\
                In site [Examples.site_a; Examples.site_c; Examples.site_d] /\
                site_id site = m_site_id m /\
                calculate_transit_time Examples.colocated_km
                  (lat (current_location robot)) (lon (current_location robot))
                  (latitude site) (longitude site) 12
                = Ok transit /\
                transit_hours m = py_round transit 1 /\
                site_latitude m = latitude site /\
                site_longitude m = longitude site)
           (missions plan).
Proof.
  eassert (E : Examples.run_three_sites = Ok _) by (vm_compute; reflexivity).
  eexists. split; [exact E |].
  exact (transit_starts_at_roster_position _ _ _ _ _ _ _ _ _ E).
Defined.

Lemma mission_cost_and_timing_witness :
  exists plan,
    Examples.run_three_sites = Ok plan /\
    Forall (fun m =>
              exists robot transit duration,
                In robot [Examples.robot_1] /\ robot_id robot = m_robot_id m /\
                duration <= endurance_hours robot * (8 # 10) /\
                survey_hours m = py_round duration 1 /\
                total_hours m = py_round (transit + duration) 1 /\
                end_date m
                = (start_date m + timedelta_hours (transit + duration))%Z /\
                cost_usd m
                = py_round ((day_rate_usd robot + 75000 + 15000)
                            * ((transit + duration) / 24)) 2)
           (missions plan).
Proof.
  eassert (E : Examples.run_three_sites = Ok _) by (vm_compute; reflexivity).
  eexists. split; [exact E |].
  exact (mission_cost_and_timing _ _ _ _ _ _ _ _ _ E).
Defined.

End MissionBookkeepingExamples.

(* ================================================================== *)
(** ** Route sequences *)

Section Routes.

Import Optimizer SchedulerSpec.

Lemma group_add_keys (groups : list (string * list Mission)) (m : Mission) :
  map fst (group_add groups m)
  = set_add string_dec (m_robot_id m) (map fst groups).
Proof.
  induction groups as [| [k ms] rest IH]; cbn; [reflexivity |].
  destruct (String.eqb_spec k (m_robot_id m)) as [E | N];
    destruct (string_dec (m_robot_id m) k) as [E' | N']; cbn;
    try congruence; now rewrite IH.
Qed.

Lemma group_add_size (groups : list (string * list Mission)) (m : Mission) :
  List.length (List.concat (map snd (group_add groups m)))
  = S (List.length (List.concat (map snd groups))).
Proof.
  induction groups as [| [k ms] rest IH]; cbn; [reflexivity |].
  destruct (String.eqb k (m_robot_id m)); cbn.
  - rewrite !length_app. cbn. lia.
  - rewrite !length_app, IH. lia.
Qed.

Lemma grouping_keys (missions : list Mission) :
  forall groups,
    map fst (fold_left group_add missions groups)
    = fold_left (fun acc x => set_add string_dec x acc)
                (map m_robot_id missions) (map fst groups).
Proof.
  induction missions as [| m ms IH]; intro groups; cbn [fold_left map];
    [reflexivity |].
  now rewrite IH, group_add_keys.
Qed.

Lemma grouping_size (missions : list Mission) :
  forall groups,
    List.length (List.concat (map snd (fold_left group_add missions groups)))
    = (List.length (List.concat (map snd groups)) + List.length missions)%nat.
Proof.
  induction missions as [| m ms IH]; intro groups; cbn [fold_left List.length];
    [lia |].
  rewrite IH, group_add_size. lia.
Qed.

Lemma insert_asc_length {A : Type} (key : A -> Z) (x : A) (l : list A) :
  List.length (insert_asc key x l) = S (List.length l).
Proof.
  induction l as [| y l IH]; cbn; [reflexivity |].
  destruct (key x <=? key y)%Z; cbn; [reflexivity | now rewrite IH].
Qed.

Lemma sorted_by_length {A : Type} (key : A -> Z) (l : list A) :
  List.length (sorted_by key l) = List.length l.
Proof.
  unfold sorted_by.
  induction l as [| x l IH]; cbn [fold_right List.length]; [reflexivity |].
  now rewrite insert_asc_length, IH.
Qed.

Lemma route_of_known (self : MissionOptimizer) (now : Z)
    (routes : list Waypoint) (k : string) (ms : list Mission) :
  In k (map robot_id (robots_df self)) ->
  exists routes',
    route_of self now routes (k, ms) = Ok routes' /\
    List.length routes' = (List.length routes + 1 + List.length ms)%nat.
Proof.
  intro Hk. unfold route_of.
  destruct (filter_present robot_id k (robots_df self) Hk) as (r & rest & ->).
  destruct (robots_df self) as [| r0 l]; [destruct Hk |].
  cbn [column bind iloc0].
  eexists. split; [reflexivity |].
  rewrite length_app. cbn [List.length].
  rewrite length_map, sorted_by_length. lia.
Qed.

Lemma route_of_unknown (self : MissionOptimizer) (now : Z)
    (routes : list Waypoint) (k : string) (ms : list Mission) :
  ~ In k (map robot_id (robots_df self)) ->
  exists e, route_of self now routes (k, ms) = Raise e /\
            is_lookup_error e = true.
Proof.
  intro Hk. unfold route_of.
  destruct (robots_df self) as [| r0 l] eqn:E.
  - exists KeyError. split; reflexivity.
  - cbn [column bind]. rewrite (filter_absent robot_id k (r0 :: l) Hk).
    exists IndexError. split; reflexivity.
Qed.

Lemma routes_of_known_groups (self : MissionOptimizer) (now : Z)
    (groups : list (string * list Mission)) :
  (forall k, In k (map fst groups) -> In k (map robot_id (robots_df self))) ->
  forall routes,
  exists routes',
    for_each (route_of self now) groups routes = Ok routes' /\
    List.length routes'
    = (List.length routes + List.length groups
       + List.length (List.concat (map snd groups)))%nat.
Proof.
  induction groups as [| [k ms] rest IH]; intros Hkeys routes;
    cbn [for_each].
  - exists routes. split; [reflexivity | cbn; lia].
  - destruct (route_of_known self now routes k ms) as (r1 & -> & L1);
      [apply Hkeys; now left |].
    cbn [bind].
    destruct (IH (fun k' H => Hkeys k' (or_intror H)) r1) as (r2 & E2 & L2).
    exists r2. split; [exact E2 |].
    cbn [map List.concat List.length snd]. rewrite length_app. lia.
Qed.

Lemma routes_of_unknown_group (self : MissionOptimizer) (now : Z)
    (groups : list (string * list Mission)) :
  (exists k, In k (map fst groups) /\
             ~ In k (map robot_id (robots_df self))) ->
  forall routes,
  exists e, for_each (route_of self now) groups routes = Raise e /\
            is_lookup_error e = true.
Proof.
  induction groups as [| [k ms] rest IH]; intros (k' & Hk' & Hun) routes.
  - destruct Hk'.
  - cbn [for_each].
    destruct (in_dec string_dec k (map robot_id (robots_df self)))
      as [Hk | Hk].
    + destruct (route_of_known self now routes k ms Hk) as (r1 & -> & _).
      cbn [bind]. apply IH. exists k'. split; [| exact Hun].
      destruct Hk' as [<- | Hk']; [contradiction | exact Hk'].
    + destruct (route_of_unknown self now routes k ms Hk) as (e & -> & He).
      exists e. split; [reflexivity | exact He].
Qed.

Lemma grouping_keys_are_robot_ids (missions : list Mission) :
  map fst (fold_left group_add missions [])
  = py_set (map m_robot_id missions).
Proof. exact (grouping_keys missions []). Qed.

Lemma route_sequence_of_known_robots (self : MissionOptimizer) (now : Z)
    (missions : list Mission) :
  (forall m, In m missions ->
             In (m_robot_id m) (map robot_id (robots_df self))) ->
  exists routes,
    generate_route_sequence self now missions = Ok routes /\
    List.length routes
    = (List.length missions
       + List.length (py_set (map m_robot_id missions)))%nat.
Proof.
  intro Hall. unfold generate_route_sequence.
  pose proof (grouping_keys_are_robot_ids missions) as Hkeys.
  pose proof (grouping_size missions []) as Hsize.
  cbn [map List.concat List.length] in Hsize.
  destruct (routes_of_known_groups self now
              (fold_left group_add missions [])) with (routes := @nil Waypoint)
    as (routes & E & L).
  - intros k Hk. rewrite Hkeys in Hk. apply py_set_In, in_map_iff in Hk.
    destruct Hk as (m & <- & Hm). now apply Hall.
  - exists routes. split; [exact E |].
    rewrite L, Hsize, <- Hkeys, length_map. cbn [List.length]. lia.
Qed.

(** X29. When every mission names a robot of the roster, the route
    sequence is returned and holds one waypoint per mission plus one start
    waypoint per distinct robot; when some mission names a robot that is
    not in the roster, an exception of the lookup class is raised. *)
Theorem route_sequence_length (self : MissionOptimizer) (now : Z)
    (missions : list Mission) :
  ((forall m, In m missions ->
              In (m_robot_id m) (map robot_id (robots_df self))) ->
   exists routes,
     generate_route_sequence self now missions = Ok routes /\
     List.length routes
     = (List.length missions
        + List.length (py_set (map m_robot_id missions)))%nat) /\
  ((exists m, In m missions /\
              ~ In (m_robot_id m) (map robot_id (robots_df self))) ->
   exists e,
     generate_route_sequence self now missions = Raise e /\
     is_lookup_error e = true).
Proof.
  split; [apply route_sequence_of_known_robots |].
  intros (m & Hm & Hun). unfold generate_route_sequence.
  apply routes_of_unknown_group. exists (m_robot_id m). split; [| exact Hun].
  rewrite grouping_keys_are_robot_ids. apply py_set_In. now apply in_map.
Qed.

(** X30. The route sequence of the missions of a returned plan, computed
    by the optimizer that scheduled them, is always returned, and its
    length is the plan's [total_missions] plus its [num_robots_used]. *)
Theorem plan_routes_are_defined
    (geodesic_km : Q -> Q -> Q -> Q -> result Q) (self : MissionOptimizer)
    (time_window_days : Z) (budget_usd vessel_speed_knots vessel_day_rate : Q)
    (prioritize_by : string) (now now' : Z) (plan : Plan) :
  greedy_mission_scheduler geodesic_km self time_window_days budget_usd
    vessel_speed_knots vessel_day_rate prioritize_by now = Ok plan ->
  exists routes,
    generate_route_sequence self now' (missions plan) = Ok routes /\
    List.length routes
    = (total_missions (statistics plan)
       + num_robots_used (statistics plan))%nat.
Proof.
  intro Hplan.
  assert (Hknown : Forall (fun m => In (m_robot_id m)
                                       (map robot_id (robots_df self)))
                          (missions plan)).
  { refine (plan_missions_satisfy _ _ _ _ _ _ _ _ _ plan _ Hplan).
    intros site st robot sch score transit duration _ Hs.
    destruct Hs as [Hrobot _ _ _ _ _ _ _].
    apply filter_In in Hrobot. destruct Hrobot as [Hin _].
    cbn [mission_of m_robot_id]. now apply in_map. }
  rewrite Forall_forall in Hknown.
  destruct (route_sequence_of_known_robots self now' (missions plan) Hknown)
    as (routes & E & L).
  exists routes. split; [exact E |].
  destruct (scheduler_loop_returns _ _ _ _ _ _ _ _ plan Hplan)
    as (sorted & st & _ & _ & Hm & Hstats).
  apply compute_statistics_returns in Hstats.
  destruct Hstats as (_ & _ & -> & _ & -> & _).
  now rewrite L, Hm.
Qed.

End Routes.

Section RouteExamples.

Import Optimizer SchedulerSpec.

Lemma route_sequence_length_witness :
  exists plan routes,
    Examples.run_three_sites = Ok plan /\
    generate_route_sequence
      (mkOptimizer [Examples.robot_1]
         [Examples.site_a; Examples.site_c; Examples.site_d])
      0 (missions plan) = Ok routes /\
    List.length routes = 4%nat.
Proof.
  eassert (E : Examples.run_three_sites = Ok _) by (vm_compute; reflexivity).
  lazymatch type of E with
  | _ = Ok ?p =>
      exists p;
      destruct (proj1 (route_sequence_length
                         (mkOptimizer [Examples.robot_1]
                            [Examples.site_a; Examples.site_c; Examples.site_d])
                         0 (missions p)))
        as (routes & Er & L);
      [| exists routes; split; [exact E | split; [exact Er | exact L]]]
  end.
  intros m Hm. cbn in Hm.
  repeat (destruct Hm as [<- | Hm]; [now left |]). destruct Hm.
Defined.

Lemma plan_routes_are_defined_witness :
  exists plan routes,
    Examples.run_three_sites = Ok plan /\
    generate_route_sequence
      (mkOptimizer [Examples.robot_1]
         [Examples.site_a; Examples.site_c; Examples.site_d])
      0 (missions plan) = Ok routes /\
    List.length routes
    = (total_missions (statistics plan)
       + num_robots_used (statistics plan))%nat.
Proof.
  eassert (E : Examples.run_three_sites = Ok _) by (vm_compute; reflexivity).
  eexists.
  destruct (plan_routes_are_defined _ _ _ _ _ _ _ _ 0 _ E)
    as (routes & Er & L).
  exists routes. split; [exact E | split; [exact Er | exact L]].
Defined.

End RouteExamples.
